(** * scheduler-service: the scheduling and execution engine

    A shallow embedding of
      - utils/task-executor.js  (class TaskExecutor),
      - models/task-history.js  (saveTaskHistory, getTaskHistory),
      - scheduler.js            (setupScheduler: initialize, scheduleTask,
                                 executeTask),
    with the properties of the engine stated and proved over it.

    Conventions of the embedding.
      - A JS number that the engine only ever uses as an integer
        (milliseconds, counters, limits) is a [Z].
      - An optional field is an [option]; the idiom [x || d] is
        [Js.or_default], which also replaces a present but falsy [0].
      - An asynchronous function is a function from the [world] before the
        call to its [outcome] and the [world] after it.  Time is logical: a
        promise carries the number of milliseconds after which it settles,
        and [await] advances the clock by that amount.
      - A timer started with [setTimeout] takes its delay through
        [Js.setTimeout_delay]; of two things due in the same millisecond
        the one started first happens first.
      - The registry is a plain object: [taskDefinitions[taskType]] finds
        the definitions it has of its own and the members it inherits from
        [Object.prototype] ([Executor.get_task]).
      - [execute] and [retryExecution] call each other without bound, so
        they take a [fuel] argument; [OutOfFuel] is the answer of a run that
        needs more nested calls than the fuel allows. *)

From Stdlib Require Import ZArith String Ascii List Permutation Sorted Lia.
From stdpp Require Import base option list gmap strings pretty.

Local Open Scope string_scope.

(* ===================================================================== *)
(** ** The fragment of JavaScript the engine relies on *)
(* ===================================================================== *)

Module Js.

(** Values carried as parameters and results. *)
Inductive value :=
| VUndefined
| VNull
| VBool (b : bool)
| VNum (n : Z)
| VStr (s : string)
| VObj (json : string).

(** [!!v] *)
Definition truthy (v : value) : bool :=
  match v with
  | VUndefined | VNull => false
  | VBool b => b
  | VNum n => negb (n =? 0)%Z
  | VStr s => negb (String.eqb s "")
  | VObj _ => true
  end.

(** [new Error(message)] *)
Inductive error := Error (message : string).

Definition message (e : error) : string := let 'Error m := e in m.

(** [x || d] on an optional number. *)
Definition or_default (x : option Z) (d : Z) : Z :=
  match x with
  | Some v => if (v =? 0)%Z then d else v
  | None => d
  end.

(** Truthiness of an optional string ([undefined] and [""] are falsy). *)
Definition truthy_string (x : option string) : bool :=
  match x with
  | Some s => negb (String.eqb s "")
  | None => false
  end.

(** [s.includes(pat)] *)
Fixpoint includes (s pat : string) : bool :=
  String.prefix pat s ||
  match s with
  | EmptyString => false
  | String _ s' => includes s' pat
  end.

(** [s.toLowerCase()], on ASCII letters. *)
Definition lower_ascii (c : ascii) : ascii :=
  let n := nat_of_ascii c in
  if (Nat.leb 65 n && Nat.leb n 90)%bool then ascii_of_nat (n + 32) else c.

Fixpoint toLowerCase (s : string) : string :=
  match s with
  | EmptyString => EmptyString
  | String c s' => String (lower_ascii c) (toLowerCase s')
  end.

(** How a promise ends. *)
Inductive settlement :=
| Resolved (v : value)
| Rejected (e : error).

(** A promise, seen from the moment it is created: [Some (t, s)] settles
    with [s] after [t] milliseconds, [None] stays pending for ever. *)
Definition promise : Type := option (Z * settlement).

(** [Promise.race]: the promise that settles first decides.  The list
    gives the promises in the order in which what settles them was
    started; of two that are due in the same millisecond the one started
    first settles first. *)
Definition first_settled (p q : promise) : promise :=
  match p, q with
  | None, _ => q
  | Some _, None => p
  | Some (tp, _), Some (tq, _) => if (tq <? tp)%Z then q else p
  end.

Definition Promise_race (ps : list promise) : promise :=
  foldr first_settled None ps.

(** The delay a timer really gets: [setTimeout] replaces a delay below 1
    or above 2^31 - 1 by 1. *)
Definition setTimeout_delay (ms : Z) : Z :=
  if ((ms <? 1) || (2147483647 <? ms))%Z then 1%Z else ms.

(** The members every plain object inherits from [Object.prototype]:
    [obj[key]] finds them when [obj] has no property [key] of its own. *)
Definition object_prototype_keys : list string :=
  ["constructor"; "__defineGetter__"; "__defineSetter__"; "hasOwnProperty";
   "__lookupGetter__"; "__lookupSetter__"; "isPrototypeOf";
   "propertyIsEnumerable"; "toString"; "valueOf"; "__proto__";
   "toLocaleString"].

(** [Array.prototype.slice(start, end)]: negative indices count from the
    end, everything is clamped to the array. *)
Definition slice_index (len i : Z) : Z :=
  if (i <? 0)%Z then Z.max (len + i) 0 else Z.min i len.

Definition slice {A} (l : list A) (start stop : Z) : list A :=
  let len := Z.of_nat (length l) in
  let from := slice_index len start in
  let to := slice_index len stop in
  firstn (Z.to_nat (to - from)) (skipn (Z.to_nat from) l).

(** [Array.prototype.sort(comparefn)], as an insertion sort driven by the
    comparison function: [x] is placed before the first element [y] with
    [comparefn x y <= 0].  How elements that compare as equal are ordered
    among themselves is left to the engine; nothing below relies on it. *)
Section Sort.
Context {A : Type} (comparefn : A -> A -> Z).

Fixpoint sort_insert (x : A) (l : list A) : list A :=
  match l with
  | [] => [x]
  | y :: l' =>
      if (comparefn x y <=? 0)%Z then x :: y :: l'
      else y :: sort_insert x l'
  end.

Definition sort (l : list A) : list A := foldr sort_insert [] l.
End Sort.

End Js.

(* ===================================================================== *)
(** ** utils/task-executor.js *)
(* ===================================================================== *)

Module Executor.
Import Js.

(** A parameter object. *)
Abbreviation object := (gmap string value).

(** An entry of [retryableErrors]: a string, a RegExp (by its [test]), or
    anything else. *)
Inductive errorPattern :=
| PString (s : string)
| PRegExp (test : string -> bool)
| POther.

Record RetryPolicy := {
  maxRetries : option Z;
  baseDelayMs : option Z;
  maxDelayMs : option Z;
  retryableErrors : option (list errorPattern)
}.

(** [parametersSchema]: a zod schema, by what [parse] throws ([None] when
    it accepts), or some other object, taken for a JSON schema. *)
Inductive schema :=
| ZodType (parse : object -> option string)
| JsonSchema.

(** The handler is outside the engine.  It receives the merged parameters
    and the execution id; the third argument is the number of handler
    invocations made before this one, which stands for whatever state the
    outside world has reached. *)
Record TaskDefinition := {
  description : string;
  handler : object -> string -> nat -> promise;
  cronSchedule : option string;
  parametersSchema : option schema;
  defaultParameters : object;
  timeoutMs : option Z;
  retryPolicy : option RetryPolicy
}.

(** The registry object, in the order of [Object.entries]. *)
Definition registry : Type := list (string * TaskDefinition).

(** The property [taskType] the registry has of its own. *)
Fixpoint lookup_task (taskDefinitions : registry) (taskType : string)
  : option TaskDefinition :=
  match taskDefinitions with
  | [] => None
  | (k, d) :: rest =>
      if String.eqb k taskType then Some d else lookup_task rest taskType
  end.

(** [taskDefinitions[taskType]]: a definition of the registry's own, a
    member inherited from [Object.prototype] (a function or an object,
    truthy, with none of the fields of a definition), or [undefined]. *)
Inductive property :=
| OwnProperty (taskDefinition : TaskDefinition)
| InheritedProperty
| NoProperty.

Definition get_task (taskDefinitions : registry) (taskType : string) : property :=
  match lookup_task taskDefinitions taskType with
  | Some d => OwnProperty d
  | None =>
      if existsb (String.eqb taskType) object_prototype_keys
      then InheritedProperty
      else NoProperty
  end.

(** [taskDefinitions[taskType].cronSchedule] *)
Definition property_cronSchedule (p : property) : option string :=
  match p with
  | OwnProperty d => cronSchedule d
  | InheritedProperty | NoProperty => None
  end.

(** [!!taskDefinitions[taskType]] *)
Definition has_task (taskDefinitions : registry) (taskType : string) : bool :=
  match get_task taskDefinitions taskType with
  | NoProperty => false
  | _ => true
  end.

(** What the engine does to the outside, in order. *)
Inductive event :=
| Invoke (taskType executionId : string) (mergedParameters : object)
| Sleep (delay : Z).

Record world := {
  clock : Z;            (* milliseconds *)
  invocations : nat;    (* handler calls so far *)
  trace : list event
}.

(** [await] of something that settles after [ms] milliseconds; what has
    settled already is not waited for. *)
Definition wait (ms : Z) (w : world) : world :=
  {| clock := (clock w + Z.max 0 ms)%Z;
     invocations := invocations w;
     trace := trace w |}.

Definition record_event (e : event) (w : world) : world :=
  {| clock := clock w;
     invocations := invocations w;
     trace := trace w ++ [e] |}.

Definition invoked (w : world) : world :=
  {| clock := clock w;
     invocations := S (invocations w);
     trace := trace w |}.

(** The result of running an async function. *)
Inductive outcome (A : Type) :=
| Returned (a : A)
| Thrown (e : error)
| Pending
| OutOfFuel.
Arguments Returned {A} a.
Arguments Thrown {A} e.
Arguments Pending {A}.
Arguments OutOfFuel {A}.

Record RetryState := {
  attemptsRemaining : Z;
  lastError : error;
  retryCount : Z;
  originalExecutionId : string
}.

(** The errors the executor raises itself. *)
Definition UnknownTaskType (taskType : string) : error :=
  Error ("Unknown task type: " ++ taskType).

Definition InvalidParameters (reason : string) : error :=
  Error ("Invalid parameters for task: " ++ reason).

Definition ExecutionTimeout (taskType : string) (timeout : Z) : error :=
  Error ("Task " ++ taskType ++ " timed out after " ++ pretty timeout ++ "ms").

(** The [TypeError] of calling the [handler] of something that has none. *)
Definition HandlerNotAFunction : error :=
  Error "taskDefinition.handler is not a function".

(** [validateParameters]: [None] when it returns, [Some e] when it throws. *)
Definition validateParameters (taskDefinition : TaskDefinition)
    (parameters : object) : option error :=
  match parametersSchema taskDefinition with
  | None => None
  | Some (ZodType parse) =>
      match parse parameters with
      | Some reason => Some (InvalidParameters reason)
      | None => None
      end
  | Some JsonSchema => None
  end.

Definition pattern_matches (e : error) (p : errorPattern) : bool :=
  match p with
  | PString s => includes (message e) s
  | PRegExp test => test (message e)
  | POther => false
  end.

(** [shouldRetry] *)
Definition shouldRetry (retryPolicy : RetryPolicy) (e : error) : bool :=
  match maxRetries retryPolicy with
  | None => false
  | Some n =>
      if (n <=? 0)%Z then false
      else match retryableErrors retryPolicy with
           | Some patterns => existsb (pattern_matches e) patterns
           | None => true
           end
  end.

(** The deadline of one handler invocation: [timeoutMs || 300000]. *)
Definition deadline (taskDefinition : TaskDefinition) : Z :=
  or_default (timeoutMs taskDefinition) 300000.

(** The backoff before the retry numbered [retryCount]. *)
Definition backoff_delay (retryPolicy : RetryPolicy) (retryCount : Z) : Z :=
  let baseDelay := or_default (baseDelayMs retryPolicy) 1000 in
  let maxDelay := or_default (maxDelayMs retryPolicy) 30000 in
  Z.min (baseDelay * 2 ^ (retryCount - 1)) maxDelay.

Definition retryExecutionId (retryCount : Z) (original : string) : string :=
  "retry-" ++ pretty retryCount ++ "-" ++ original.

(** The [try] block of [execute]: validate, merge the defaults under the
    explicit parameters, start the timer, call the handler, and await the
    race of the two.  The timer is started before the handler is called,
    and it fires after [setTimeout_delay timeoutMs] milliseconds, which is
    at least one: it is listed first, and a handler that settles in the
    millisecond in which the timer fires comes too late. *)
Definition attempt (taskType : string) (taskDefinition : TaskDefinition)
    (parameters : object) (executionId : string) (w : world)
  : outcome value * world :=
  match validateParameters taskDefinition parameters with
  | Some e => (Thrown e, w)
  | None =>
      let mergedParameters := parameters ∪ defaultParameters taskDefinition in
      let timeout := deadline taskDefinition in
      let timeoutPromise : promise :=
        Some (setTimeout_delay timeout,
              Rejected (ExecutionTimeout taskType timeout)) in
      let executionPromise :=
        handler taskDefinition mergedParameters executionId (invocations w) in
      let w1 :=
        invoked (record_event (Invoke taskType executionId mergedParameters) w) in
      match Promise_race [timeoutPromise; executionPromise] with
      | Some (t, Resolved v) => (Returned v, wait t w1)
      | Some (t, Rejected e) => (Thrown e, wait t w1)
      | None => (Pending, w1)
      end
  end.

Section WithRegistry.
Variable taskDefinitions : registry.

(** [execute] with its [catch] block and [handleRetry], and
    [retryExecution].  For a member inherited from [Object.prototype] the
    check of the task type passes, there is no schema to validate, and the
    call of its [handler] throws a [TypeError], which the [catch] block,
    finding no retry policy, throws on. *)
Fixpoint execute (fuel : nat) (taskType : string) (parameters : object)
    (executionId : string) (w : world) {struct fuel}
  : outcome value * world :=
  match fuel with
  | O => (OutOfFuel, w)
  | S fuel' =>
      match get_task taskDefinitions taskType with
      | NoProperty => (Thrown (UnknownTaskType taskType), w)
      | InheritedProperty => (Thrown HandlerNotAFunction, w)
      | OwnProperty taskDefinition =>
          match attempt taskType taskDefinition parameters executionId w with
          | (Thrown e, w') =>
              match retryPolicy taskDefinition with
              | Some policy =>
                  if shouldRetry policy e then
                    retryExecution fuel' taskType parameters
                      {| attemptsRemaining :=
                           match maxRetries policy with
                           | Some n => n
                           | None => 0
                           end;
                         lastError := e;
                         retryCount := 0;
                         originalExecutionId := executionId |} w'
                  else (Thrown e, w')
              | None => (Thrown e, w')
              end
          | r => r
          end
      end
  end
with retryExecution (fuel : nat) (taskType : string) (parameters : object)
    (retryState : RetryState) (w : world) {struct fuel}
  : outcome value * world :=
  match fuel with
  | O => (OutOfFuel, w)
  | S fuel' =>
      if (attemptsRemaining retryState <=? 0)%Z
      then (Thrown (lastError retryState), w)
      else
        let remaining := (attemptsRemaining retryState - 1)%Z in
        let count := (retryCount retryState + 1)%Z in
        match get_task taskDefinitions taskType with
        | NoProperty | InheritedProperty =>
            (Thrown (Error "Cannot read properties of undefined"), w)
        | OwnProperty taskDefinition =>
            match retryPolicy taskDefinition with
            | None => (Thrown (Error "Cannot read properties of undefined"), w)
            | Some policy =>
                let delay := backoff_delay policy count in
                let w1 :=
                  wait (setTimeout_delay delay) (record_event (Sleep delay) w) in
                match execute fuel' taskType parameters
                        (retryExecutionId count (originalExecutionId retryState))
                        w1 with
                | (Thrown e, w2) =>
                    retryExecution fuel' taskType parameters
                      {| attemptsRemaining := remaining;
                         lastError := e;
                         retryCount := count;
                         originalExecutionId := originalExecutionId retryState |}
                      w2
                | r => r
                end
            end
        end
  end.

End WithRegistry.

Definition world0 : world := {| clock := 0; invocations := 0; trace := [] |}.

(** The backoff waits of a trace, in order. *)
Definition sleeps (t : list event) : list Z :=
  flat_map (fun e => match e with Sleep d => [d] | Invoke _ _ _ => [] end) t.

(** The execution ids the handler was called with, in order. *)
Definition invoked_ids (t : list event) : list string :=
  flat_map (fun e => match e with Invoke _ i _ => [i] | Sleep _ => [] end) t.

(** What [await] makes of a settlement. *)
Definition settle (s : settlement) : outcome value :=
  match s with
  | Resolved v => Returned v
  | Rejected e => Thrown e
  end.

(** The guard of the [catch] block of [execute]:
    [taskDefinition.retryPolicy && this.shouldRetry(...)]. *)
Definition retries (def : TaskDefinition) (e : error) : bool :=
  match retryPolicy def with
  | Some policy => shouldRetry policy e
  | None => false
  end.

End Executor.

(* ===================================================================== *)
(** ** models/task-history.js *)
(* ===================================================================== *)

Module History.
Import Js.

(** What [executeTask] hands to [saveTaskHistory].  [startTime] and
    [endTime] are the ISO-8601 strings of [toISOString]; they are kept as
    the epoch milliseconds they spell, on which [>] agrees with the
    comparison of the strings. *)
Record ExecutionRecord := {
  executionId : string;
  taskType : string;
  parameters : gmap string value;
  startTime : Z;
  endTime : Z;
  duration : Z;
  success : bool;
  result : value;
  error : option string
}.

(** A stored entry: the record, spread, with [id] and [createdAt]. *)
Record HistoryEntry := {
  record : ExecutionRecord;
  id : string;
  createdAt : Z
}.

(** The size [taskHistoryArray] is cut back to. *)
Definition capacity : nat := 1000.

(** [saveTaskHistory]: [now] is [Date.now()] and [rnd] the random suffix of
    the id.  Returns the saved entry and the new [taskHistoryArray]. *)
Definition saveTaskHistory (now : Z) (rnd : string)
    (historyEntry : ExecutionRecord) (taskHistoryArray : list HistoryEntry)
  : HistoryEntry * list HistoryEntry :=
  let entry :=
    {| record := historyEntry;
       id := "history-" ++ pretty now ++ "-" ++ rnd;
       createdAt := now |} in
  let pushed := (taskHistoryArray ++ [entry])%list in
  let len := Z.of_nat (length pushed) in
  (entry,
   if (Z.of_nat capacity <? len)%Z
   then slice pushed (len - Z.of_nat capacity) len
   else pushed).

(** The fields a query sorts by. *)
Inductive sortKey := startTimeKey | endTimeKey | durationKey.

Definition field (sortBy : sortKey) (entry : HistoryEntry) : Z :=
  match sortBy with
  | startTimeKey => startTime (record entry)
  | endTimeKey => endTime (record entry)
  | durationKey => duration (record entry)
  end.

Record QueryOptions := {
  limit : option Z;
  offset : option Z;
  sortBy : option sortKey;
  sortOrder : option string
}.

Record Pagination := {
  total : Z;
  pageLimit : Z;
  pageOffset : Z;
  hasMore : bool
}.

Record QueryResult := {
  history : list HistoryEntry;
  pagination : Pagination
}.

(** [sortOrder.toLowerCase() === 'desc'] *)
Definition descending (sortOrder : string) : bool :=
  String.eqb (toLowerCase sortOrder) "desc".

(** The comparison function handed to [sort]. *)
Definition comparefn (sortBy : sortKey) (sortOrder : string)
    (a b : HistoryEntry) : Z :=
  let aValue := field sortBy a in
  let bValue := field sortBy b in
  if descending sortOrder
  then (if (bValue >? aValue)%Z then 1 else -1)%Z
  else (if (aValue >? bValue)%Z then 1 else -1)%Z.

(** The order a sorted answer is in: by [sortBy], falling when the sort
    order is [desc] and rising otherwise. *)
Definition ordered (sortBy : sortKey) (sortOrder : string)
    (a b : HistoryEntry) : Prop :=
  if descending sortOrder
  then (field sortBy b <= field sortBy a)%Z
  else (field sortBy a <= field sortBy b)%Z.

(** [taskType ? taskHistoryArray.filter(...) : taskHistoryArray] *)
Definition filteredHistory (taskType : option string)
    (taskHistoryArray : list HistoryEntry) : list HistoryEntry :=
  match taskType with
  | Some t =>
      if String.eqb t "" then taskHistoryArray
      else List.filter (fun entry => String.eqb (History.taskType (record entry)) t)
             taskHistoryArray
  | None => taskHistoryArray
  end.

(** [getTaskHistory].  [sort] works in place: with a task type it sorts the
    fresh array [filter] made, without one it sorts [taskHistoryArray]
    itself.  Returns the answer and [taskHistoryArray] as the call leaves
    it. *)
Definition getTaskHistory (taskType : option string) (options : QueryOptions)
    (taskHistoryArray : list HistoryEntry)
  : QueryResult * list HistoryEntry :=
  let limit := default 10%Z (limit options) in
  let offset := default 0%Z (offset options) in
  let sortBy := default startTimeKey (sortBy options) in
  let sortOrder := default "desc" (sortOrder options) in
  let sorted :=
    sort (comparefn sortBy sortOrder) (filteredHistory taskType taskHistoryArray) in
  let paginatedHistory := slice sorted offset (offset + limit) in
  ({| history := paginatedHistory;
      pagination :=
        {| total := Z.of_nat (length sorted);
           pageLimit := limit;
           pageOffset := offset;
           hasMore := (offset + limit <? Z.of_nat (length sorted))%Z |} |},
   if truthy_string taskType then taskHistoryArray else sorted).

End History.

(* ===================================================================== *)
(** ** scheduler.js *)
(* ===================================================================== *)

Module Scheduler.
Import Js.

(** A job made by [cron.schedule]; [stop()] clears [running]. *)
Record CronJob := {
  jobTaskType : string;
  jobExpression : string;
  running : bool
}.

Definition stop (job : CronJob) : CronJob :=
  {| jobTaskType := jobTaskType job;
     jobExpression := jobExpression job;
     running := false |}.

(** What [eventEmitter.emit] sent. *)
Inductive lifecycle :=
| taskStart (taskType executionId : string)
| taskSuccess (taskType executionId : string)
| taskFailure (taskType executionId : string) (error : string).

(** The closure state of [setupScheduler], the module state of
    task-history.js, and the jobs [node-cron] holds.  A job handle is the
    position of the job in [cronJobs]. *)
Record state := {
  world : Executor.world;
  draws : nat;                          (* calls of Math.random so far *)
  taskHistoryArray : list History.HistoryEntry;
  scheduledJobs : gmap string nat;
  cronJobs : list CronJob;
  ready : bool;
  emitted : list lifecycle
}.

Definition set_world (w : Executor.world) (s : state) : state :=
  {| world := w; draws := draws s; taskHistoryArray := taskHistoryArray s;
     scheduledJobs := scheduledJobs s; cronJobs := cronJobs s;
     ready := ready s; emitted := emitted s |}.

Definition set_draws (n : nat) (s : state) : state :=
  {| world := world s; draws := n; taskHistoryArray := taskHistoryArray s;
     scheduledJobs := scheduledJobs s; cronJobs := cronJobs s;
     ready := ready s; emitted := emitted s |}.

Definition set_history (h : list History.HistoryEntry) (s : state) : state :=
  {| world := world s; draws := draws s; taskHistoryArray := h;
     scheduledJobs := scheduledJobs s; cronJobs := cronJobs s;
     ready := ready s; emitted := emitted s |}.

Definition set_jobs (m : gmap string nat) (js : list CronJob) (s : state) : state :=
  {| world := world s; draws := draws s; taskHistoryArray := taskHistoryArray s;
     scheduledJobs := m; cronJobs := js;
     ready := ready s; emitted := emitted s |}.

Definition set_ready (b : bool) (s : state) : state :=
  {| world := world s; draws := draws s; taskHistoryArray := taskHistoryArray s;
     scheduledJobs := scheduledJobs s; cronJobs := cronJobs s;
     ready := b; emitted := emitted s |}.

Definition emit (e : lifecycle) (s : state) : state :=
  {| world := world s; draws := draws s; taskHistoryArray := taskHistoryArray s;
     scheduledJobs := scheduledJobs s; cronJobs := cronJobs s;
     ready := ready s; emitted := emitted s ++ [e] |}.

(** The state [setupScheduler] starts from. *)
Definition state0 : state :=
  {| world := Executor.world0; draws := 0; taskHistoryArray := [];
     scheduledJobs := ∅; cronJobs := []; ready := false; emitted := [] |}.

Definition InvalidCronExpression (cronExpression taskType : string) : error :=
  Error ("Invalid cron expression: " ++ cronExpression ++ " for task " ++ taskType).

(** The success envelope of [executeTask]. *)
Record Envelope := {
  envExecutionId : string;
  envSuccess : bool;
  envStartTime : Z;
  envEndTime : Z;
  envDuration : Z;
  envResult : value
}.

Section WithEnvironment.
(** [cron.validate] and the suffixes [Math.random] yields, by draw. *)
Variable cron_validate : string -> bool.
Variable random_suffix : nat -> string.
Variable taskDefinitions : Executor.registry.

(** [saveTaskHistory], on the state. *)
Definition save (historyEntry : History.ExecutionRecord) (s : state) : state :=
  let '(_, h) :=
    History.saveTaskHistory (Executor.clock (world s)) (random_suffix (draws s))
      historyEntry (taskHistoryArray s) in
  set_draws (S (draws s)) (set_history h s).

(** [executeTask] *)
Definition executeTask (fuel : nat) (taskType : string)
    (parameters : gmap string value) (s : state)
  : Executor.outcome Envelope * state :=
  let startTime := Executor.clock (world s) in
  let executionId :=
    "exec-" ++ pretty startTime ++ "-" ++ random_suffix (draws s) in
  let s1 := emit (taskStart taskType executionId) (set_draws (S (draws s)) s) in
  match Executor.execute taskDefinitions fuel taskType parameters executionId
          (world s1) with
  | (Executor.Returned result, w) =>
      let endTime := Executor.clock w in
      let duration := (endTime - startTime)%Z in
      let s2 :=
        save {| History.executionId := executionId;
                History.taskType := taskType;
                History.parameters := parameters;
                History.startTime := startTime;
                History.endTime := endTime;
                History.duration := duration;
                History.success := true;
                History.result := if truthy result then result else VObj "{}";
                History.error := None |} (set_world w s1) in
      (Executor.Returned
         {| envExecutionId := executionId; envSuccess := true;
            envStartTime := startTime; envEndTime := endTime;
            envDuration := duration; envResult := result |},
       emit (taskSuccess taskType executionId) s2)
  | (Executor.Thrown e, w) =>
      let endTime := Executor.clock w in
      let duration := (endTime - startTime)%Z in
      let s2 :=
        save {| History.executionId := executionId;
                History.taskType := taskType;
                History.parameters := parameters;
                History.startTime := startTime;
                History.endTime := endTime;
                History.duration := duration;
                History.success := false;
                History.result := VNull;
                History.error := Some (message e) |} (set_world w s1) in
      (Executor.Thrown e, emit (taskFailure taskType executionId (message e)) s2)
  | (Executor.Pending, w) => (Executor.Pending, set_world w s1)
  | (Executor.OutOfFuel, w) => (Executor.OutOfFuel, set_world w s1)
  end.

(** [if (scheduledJobs.has(taskType)) scheduledJobs.get(taskType).stop()]:
    the jobs, the one the table holds for [taskType] stopped. *)
Definition stop_previous (taskType : string) (s : state) : list CronJob :=
  match scheduledJobs s !! taskType with
  | Some previous => alter stop previous (cronJobs s)
  | None => cronJobs s
  end.

(** [scheduleTask] *)
Definition scheduleTask (taskType cronExpression : string) (s : state)
  : Executor.outcome bool * state :=
  if negb (Executor.has_task taskDefinitions taskType)
  then (Executor.Thrown (Executor.UnknownTaskType taskType), s)
  else
    if negb (cron_validate cronExpression)
    then (Executor.Thrown (InvalidCronExpression cronExpression taskType), s)
    else
      let stopped := stop_previous taskType s in
      let job :=
        {| jobTaskType := taskType;
           jobExpression := cronExpression;
           running := true |} in
      (Executor.Returned true,
       set_jobs (<[taskType := length stopped]> (scheduledJobs s))
                (stopped ++ [job])%list s).

(** A tick of the job with handle [i]: a running job calls
    [executeTask(taskType, {})] and swallows what it throws; a stopped job
    does nothing. *)
Definition tick (fuel : nat) (i : nat) (s : state) : state :=
  match cronJobs s !! i with
  | Some job =>
      if running job then snd (executeTask fuel (jobTaskType job) ∅ s) else s
  | None => s
  end.

(** The [forEach] of [initialize]: it stops at the first [scheduleTask]
    that throws. *)
Fixpoint schedule_all (entries : Executor.registry) (s : state)
  : Executor.outcome unit * state :=
  match entries with
  | [] => (Executor.Returned tt, s)
  | (taskType, definition) :: rest =>
      if truthy_string (Executor.cronSchedule definition)
      then
        match scheduleTask taskType
                (default "" (Executor.cronSchedule definition)) s with
        | (Executor.Returned _, s') => schedule_all rest s'
        | (Executor.Thrown e, s') => (Executor.Thrown e, s')
        | (Executor.Pending, s') => (Executor.Pending, s')
        | (Executor.OutOfFuel, s') => (Executor.OutOfFuel, s')
        end
      else schedule_all rest s
  end.

(** [initialize] *)
Definition initialize (s : state) : Executor.outcome unit * state :=
  match schedule_all taskDefinitions s with
  | (Executor.Returned _, s') => (Executor.Returned tt, set_ready true s')
  | r => r
  end.

(** [shutdown] *)
Definition shutdown (s : state) : state :=
  set_ready false (set_jobs ∅ (stop <$> cronJobs s) s).

(** [isReady] *)
Definition isReady (s : state) : bool := ready s.

(** A sequence of [scheduleTask] calls; a call that throws leaves the
    caller to go on. *)
Definition schedule_calls (calls : list (string * string)) (s : state) : state :=
  foldl (fun s c => snd (scheduleTask c.1 c.2 s)) s calls.

(** The running jobs of a task type. *)
Definition live (taskType : string) (s : state) : list CronJob :=
  List.filter (fun job => running job && String.eqb (jobTaskType job) taskType)
    (cronJobs s).

End WithEnvironment.

(** The [(taskType, cronSchedule)] pairs [initialize] passes to
    [scheduleTask], in order. *)
Definition cron_entries (entries : Executor.registry) : list (string * string) :=
  flat_map (fun entry =>
              if truthy_string (Executor.cronSchedule entry.2)
              then [(entry.1, default "" (Executor.cronSchedule entry.2))]
              else []) entries.

(** Whether [initialize] can schedule an entry: it carries no cron
    expression, or one that [cron.validate] accepts. *)
Definition schedulable (cron_validate : string -> bool)
    (entry : string * Executor.TaskDefinition) : bool :=
  if truthy_string (Executor.cronSchedule entry.2)
  then cron_validate (default "" (Executor.cronSchedule entry.2))
  else true.

(** The schedule table and the jobs agree: the running jobs are the jobs
    the table points to, each under its own task type. *)
Definition consistent (s : state) : Prop :=
  (forall i job,
      cronJobs s !! i = Some job -> running job = true ->
      scheduledJobs s !! jobTaskType job = Some i) /\
  (forall taskType i,
      scheduledJobs s !! taskType = Some i ->
      exists job, cronJobs s !! i = Some job /\
                  jobTaskType job = taskType /\ running job = true).

End Scheduler.

(* ===================================================================== *)
(** ** Inputs the statements below are evaluated on *)
(* ===================================================================== *)

Module Examples.
Import Js Executor.

(** A handler that rejects with the same error, 5 ms after every call. *)
Definition always_rejects (msg : string) : object -> string -> nat -> promise :=
  fun _ _ _ => Some (5%Z, Rejected (Error msg)).

(** A handler that resolves 5 ms after every call. *)
Definition always_resolves : object -> string -> nat -> promise :=
  fun _ _ _ => Some (5%Z, Resolved (VStr "done")).

(** A handler that never settles. *)
Definition never_settles : object -> string -> nat -> promise :=
  fun _ _ _ => None.

Definition task (h : object -> string -> nat -> promise)
    (s : option schema) (t : option Z) (p : option RetryPolicy)
  : TaskDefinition :=
  {| description := "example"; handler := h; cronSchedule := None;
     parametersSchema := s; defaultParameters := ∅; timeoutMs := t;
     retryPolicy := p |}.

(** [maxRetries: 3, baseDelayMs: 1000, maxDelayMs: 30000], every error
    retryable. *)
Definition three_retries : RetryPolicy :=
  {| maxRetries := Some 3%Z; baseDelayMs := Some 1000%Z;
     maxDelayMs := Some 30000%Z; retryableErrors := None |}.

(** The same, retrying only errors that mention a connection. *)
Definition three_retries_on_connection : RetryPolicy :=
  {| maxRetries := Some 3%Z; baseDelayMs := Some 1000%Z;
     maxDelayMs := Some 30000%Z;
     retryableErrors := Some [PString "connection"] |}.


(** [maxRetries: 1] and nothing else. *)
Definition one_retry : RetryPolicy :=
  {| maxRetries := Some 1%Z; baseDelayMs := None; maxDelayMs := None;
     retryableErrors := None |}.

(** A task whose handler always fails, every error retryable. *)
Definition flaky_registry : registry :=
  [("flaky", task (always_rejects "connection reset") None (Some 300000%Z)
               (Some three_retries))].



(** A task whose schema rejects every parameter object. *)
Definition rejects_all : schema := ZodType (fun _ => Some "Required").

Definition strict_registry : registry :=
  [("strict", task always_resolves (Some rejects_all) None (Some one_retry))].

Definition strict_no_retry_registry : registry :=
  [("strict", task always_resolves (Some rejects_all) None
                (Some three_retries_on_connection))].

(** A task with no [timeoutMs] whose handler hangs, and one with a
    deadline of 50 ms whose handler needs 80 ms. *)
Definition slow_handler : object -> string -> nat -> promise :=
  fun _ _ _ => Some (80%Z, Resolved (VStr "late")).

Definition hanging_registry : registry :=
  [("hang", task never_settles None None None);
   ("slow", task slow_handler None (Some 50%Z) None);
   ("quick", task always_resolves None (Some 50%Z) None)].

(** A handler that hangs when it is called for the first time and
    resolves after 5 ms from then on, under a deadline of 50 ms and with
    one retry for whatever error. *)
Definition hangs_once : object -> string -> nat -> promise :=
  fun _ _ calls =>
    match calls with
    | O => None
    | S _ => Some (5%Z, Resolved (VStr "done"))
    end.

Definition slow_start_registry : registry :=
  [("slow-start", task hangs_once None (Some 50%Z) (Some one_retry))].

(** [timeoutMs: 3000000000], more than a timer can hold. *)
Definition patient_registry : registry :=
  [("patient", task always_resolves None (Some 3000000000%Z) None)].


(** The record of the [n]-th execution of a task "noop", started at
    millisecond [n]. *)
Definition record_at (n : nat) : History.ExecutionRecord :=
  {| History.executionId := "exec-" ++ pretty n;
     History.taskType := "noop";
     History.parameters := ∅;
     History.startTime := Z.of_nat n;
     History.endTime := Z.of_nat n;
     History.duration := 0;
     History.success := true;
     History.result := VObj "{}";
     History.error := None |}.

(** [taskHistoryArray] after the records 0, 1, ..., [n - 1] were saved in
    that order. *)
Definition saved_in_order (n : nat) : list History.HistoryEntry :=
  foldl (fun h i => snd (History.saveTaskHistory (Z.of_nat i) "k3j9x2a" (record_at i) h))
    [] (seq 0 n).

(** [getTaskHistory()]: no task type, no options. *)
Definition no_options : History.QueryOptions :=
  {| History.limit := None; History.offset := None;
     History.sortBy := None; History.sortOrder := None |}.

(** The start times of the stored entries, in the order of the array. *)
Definition start_times (h : list History.HistoryEntry) : list Z :=
  map (fun e => History.startTime (History.record e)) h.

(** [Math.random], always the same. *)
Definition fixed_suffix : nat -> string := fun _ => "k3j9x2a".

(** [cron.validate], accepting the expressions of five fields used below. *)
Definition five_fields (cronExpression : string) : bool :=
  (String.eqb cronExpression "0 0 * * *" ||
   String.eqb cronExpression "0 6 * * *" ||
   String.eqb cronExpression "*/5 * * * *")%bool.

Definition cron_task (c : string) : TaskDefinition :=
  {| description := "example"; handler := always_resolves;
     cronSchedule := Some c; parametersSchema := None;
     defaultParameters := ∅; timeoutMs := None; retryPolicy := None |}.

(** Two tasks with good schedules, then one with a bad one, then a good
    one. *)
Definition cron_registry : registry :=
  [("daily", cron_task "0 0 * * *");
   ("morning", cron_task "0 6 * * *");
   ("broken", cron_task "every day");
   ("often", cron_task "*/5 * * * *")].

Definition good_cron_registry : registry :=
  [("daily", cron_task "0 0 * * *");
   ("manual", task always_resolves None None None);
   ("morning", cron_task "0 6 * * *")].

End Examples.

(* ===================================================================== *)
(** ** The public API of scheduler.js and what drives it *)
(* ===================================================================== *)

Module Api.
Import Js.

(** What can happen to a scheduler once [setupScheduler] has returned: a
    call of one of the functions it returns, or a tick of a cron job. *)
Inductive step :=
| CallScheduleTask (taskType cronExpression : string)
| CallExecuteTask (fuel : nat) (taskType : string) (parameters : gmap string value)
| CallGetHistory (taskType : option string) (options : History.QueryOptions)
| CallShutdown
| Tick (fuel : nat) (job : nat).

Section WithEnvironment.
Variable cron_validate : string -> bool.
Variable random_suffix : nat -> string.
Variable taskDefinitions : Executor.registry.

(** [getHistory]: [getTaskHistory], on the state. *)
Definition getHistory (taskType : option string) (options : History.QueryOptions)
    (s : Scheduler.state) : History.QueryResult * Scheduler.state :=
  let '(answer, h) :=
    History.getTaskHistory taskType options (Scheduler.taskHistoryArray s) in
  (answer, Scheduler.set_history h s).

(** [setupScheduler]: the state once [initialize().catch(...)] has run. *)
Definition setupScheduler : Scheduler.state :=
  snd (Scheduler.initialize cron_validate taskDefinitions Scheduler.state0).

(** The state a step leaves; what a call returns or throws is dropped. *)
Definition perform (s : Scheduler.state) (c : step) : Scheduler.state :=
  match c with
  | CallScheduleTask taskType cronExpression =>
      snd (Scheduler.scheduleTask cron_validate taskDefinitions
             taskType cronExpression s)
  | CallExecuteTask fuel taskType parameters =>
      snd (Scheduler.executeTask random_suffix taskDefinitions
             fuel taskType parameters s)
  | CallGetHistory taskType options => snd (getHistory taskType options s)
  | CallShutdown => Scheduler.shutdown s
  | Tick fuel job => Scheduler.tick random_suffix taskDefinitions fuel job s
  end.

Definition perform_all (steps : list step) (s : Scheduler.state) : Scheduler.state :=
  foldl perform s steps.

End WithEnvironment.

(** The job [scheduleTask] installs. *)
Definition job_of (taskType cronExpression : string) : Scheduler.CronJob :=
  {| Scheduler.jobTaskType := taskType;
     Scheduler.jobExpression := cronExpression;
     Scheduler.running := true |}.

(** The entry [saveTaskHistory] makes of a record at time [now] with the
    random suffix [rnd]. *)
Definition entry_of (save : Z * string * History.ExecutionRecord)
  : History.HistoryEntry :=
  {| History.record := save.2;
     History.id := "history-" ++ pretty save.1.1 ++ "-" ++ save.1.2;
     History.createdAt := save.1.1 |}.

(** The options of a query for one page. *)
Definition page_options (offset limit : Z) (sortBy : option History.sortKey)
    (sortOrder : option string) : History.QueryOptions :=
  {| History.limit := Some limit; History.offset := Some offset;
     History.sortBy := sortBy; History.sortOrder := sortOrder |}.

(** [taskHistoryArray] after a run of [saveTaskHistory] calls, each with
    its time, its random suffix and its record. *)
Definition save_all (saves : list (Z * string * History.ExecutionRecord))
    (taskHistoryArray : list History.HistoryEntry) : list History.HistoryEntry :=
  foldl (fun h save => snd (History.saveTaskHistory save.1.1 save.1.2 save.2 h))
    taskHistoryArray saves.

End Api.

(* ===================================================================== *)
(** ** routes/tasks.js and routes/history.js *)
(* ===================================================================== *)

Module Routes.
Import Js.

(** The [lastExecution] object of the status route. *)
Record LastExecution := {
  lastExecutionId : string;
  lastStartTime : Z;
  lastEndTime : Z;
  lastSuccess : bool;
  lastDuration : Z
}.

(** What a route handler sends or returns. *)
Inductive payload :=
| ErrorBody (message : string)
| ExecutionBody (executionId taskType status : string) (startTime : Z)
| EntryBody (entry : History.HistoryEntry)
| StatusBody (taskType : string) (cronSchedule : option string)
    (lastExecution : option LastExecution) (nextExecution : option Z)
| ScheduledBody (status taskType cronExpression : string) (nextExecution : Z).

Record reply := {
  statusCode : Z;
  body : payload
}.

Section WithEnvironment.
Variable cron_validate : string -> bool.
Variable random_suffix : nat -> string.
Variable taskDefinitions : Executor.registry.
(** [cronParser.parseExpression(e)] and [interval.next()], at a given
    time: the message of what it throws, or the next time. *)
Variable cron_parse : string -> Z -> string + Z.

(** [POST /api/v1/tasks/:taskType]; [parameters] is the field of the body,
    [{}] when absent. *)
Definition executeRoute (fuel : nat) (taskType : string)
    (parameters : option (gmap string value)) (s : Scheduler.state)
  : Executor.outcome reply * Scheduler.state :=
  if negb (Executor.has_task taskDefinitions taskType)
  then
    (Executor.Returned
       {| statusCode := 404;
          body := ErrorBody ("Task type '" ++ taskType ++ "' not found") |}, s)
  else
    match Scheduler.executeTask random_suffix taskDefinitions fuel taskType
            (default ∅ parameters) s with
    | (Executor.Returned executionResult, s') =>
        (Executor.Returned
           {| statusCode := 200;
              body := ExecutionBody (Scheduler.envExecutionId executionResult)
                        taskType "pending"
                        (Scheduler.envStartTime executionResult) |}, s')
    | (Executor.Thrown e, s') =>
        (Executor.Returned
           {| statusCode := 500;
              body := ErrorBody ("Failed to execute task: " ++ message e) |}, s')
    | (Executor.Pending, s') => (Executor.Pending, s')
    | (Executor.OutOfFuel, s') => (Executor.OutOfFuel, s')
    end.

(** [{ limit: n }] *)
Definition only_limit (n : Z) : History.QueryOptions :=
  {| History.limit := Some n; History.offset := None;
     History.sortBy := None; History.sortOrder := None |}.

(** [GET /api/v1/tasks/:taskType/status] *)
Definition statusRoute (taskType : string) (s : Scheduler.state)
  : reply * Scheduler.state :=
  if negb (Executor.has_task taskDefinitions taskType)
  then
    ({| statusCode := 404;
        body := ErrorBody ("Task type '" ++ taskType ++ "' not found") |}, s)
  else
      let cronSchedule :=
        Executor.property_cronSchedule (Executor.get_task taskDefinitions taskType) in
      let '(answer, s') := Api.getHistory (Some taskType) (only_limit 1) s in
      let nextExecution :=
        if truthy_string cronSchedule
        then match cron_parse (default "" cronSchedule)
                     (Executor.clock (Scheduler.world s)) with
             | inr next => Some next
             | inl _ => None
             end
        else None in
      ({| statusCode := 200;
          body :=
            StatusBody taskType
              (if truthy_string cronSchedule then cronSchedule else None)
              (match History.history answer with
               | entry :: _ =>
                   Some {| lastExecutionId := History.executionId (History.record entry);
                           lastStartTime := History.startTime (History.record entry);
                           lastEndTime := History.endTime (History.record entry);
                           lastSuccess := History.success (History.record entry);
                           lastDuration := History.duration (History.record entry) |}
               | [] => None
               end)
              nextExecution |}, s').

(** [POST /api/v1/tasks/:taskType/schedule] *)
Definition scheduleRoute (taskType cronExpression : string) (s : Scheduler.state)
  : reply * Scheduler.state :=
  if negb (Executor.has_task taskDefinitions taskType)
  then
    ({| statusCode := 404;
        body := ErrorBody ("Task type '" ++ taskType ++ "' not found") |}, s)
  else
    match cron_parse cronExpression (Executor.clock (Scheduler.world s)) with
    | inl reason =>
        ({| statusCode := 400;
            body := ErrorBody ("Invalid cron expression: " ++ reason) |}, s)
    | inr nextExecution =>
        match Scheduler.scheduleTask cron_validate taskDefinitions
                taskType cronExpression s with
        | (Executor.Thrown e, s') =>
            ({| statusCode := 500;
                body := ErrorBody ("Failed to schedule task: " ++ message e) |}, s')
        | (_, s') =>
            ({| statusCode := 200;
                body := ScheduledBody "success" taskType cronExpression
                          nextExecution |}, s')
        end
    end.

(** [GET /api/v1/history/:executionId] *)
Definition executionRoute (executionId : string) (s : Scheduler.state)
  : reply * Scheduler.state :=
  let '(answer, s') := Api.getHistory None (only_limit 1000) s in
  match List.find (fun entry =>
                     String.eqb (History.executionId (History.record entry))
                       executionId)
          (History.history answer) with
  | None =>
      ({| statusCode := 404;
          body := ErrorBody ("Execution with ID '" ++ executionId ++ "' not found") |},
       s')
  | Some execution => ({| statusCode := 200; body := EntryBody execution |}, s')
  end.

End WithEnvironment.

End Routes.

(* ===================================================================== *)
(** ** utils/auth.js *)
(* ===================================================================== *)

Module Auth.
Import Js.

(** [s.slice(n)] on a string, for [n >= 0]. *)
Fixpoint string_drop (n : nat) (s : string) : string :=
  match n, s with
  | O, _ => s
  | S n', String _ s' => string_drop n' s'
  | S _, EmptyString => EmptyString
  end.

(** What the middleware does with a request: it lets it through with
    [request.user] set, or it sends a reply. *)
Inductive verdict :=
| Authenticated (user : gmap string value)
| Refused (statusCode : Z) (message : string).

(** [request.user] for the API key. *)
Definition system_user : gmap string value :=
  <["id" := VStr "system"]>
    (<["role" := VStr "system"]> (<["isSystem" := VBool true]> ∅)).

Section WithConfig.
(** [config.auth.apiKey], [config.auth.secret], and [jwt.verify]: the
    decoded payload, or [None] when it throws. *)
Variable apiKey : string.
Variable secret : string.
Variable jwt_verify : string -> string -> option (gmap string value).

(** [authMiddleware], on the [authorization] header. *)
Definition authMiddleware (authorization : option string) : verdict :=
  if negb (truthy_string authorization)
  then Refused 401 "Authorization header missing"
  else
    let authHeader := default "" authorization in
    if String.prefix "Bearer " authHeader
    then
      let token := string_drop 7 authHeader in
      if String.eqb token apiKey then Authenticated system_user
      else match jwt_verify token secret with
           | Some decoded => Authenticated decoded
           | None => Refused 401 "Invalid token"
           end
    else Refused 401 "Invalid authorization header format".

End WithConfig.

End Auth.

(* ===================================================================== *)
(** ** utils/error-handler.js *)
(* ===================================================================== *)

Module ErrorHandler.
Import Js.

(** The fields of an error that [errorHandler] reads. *)
Record ApiError := {
  errMessage : string;
  errStatusCode : option Z;
  errCode : option string;
  validation : option (list string);
  validationContext : option string
}.

Record ErrorReply := {
  replyStatus : Z;
  replyMessage : string;
  replyCode : option string;
  replyErrors : option (list string);
  replyContext : option string
}.

(** [errorHandler] *)
Definition errorHandler (error : ApiError) : ErrorReply :=
  if (match validation error with Some _ => true | None => false end
      || truthy_string (validationContext error))%bool
  then {| replyStatus := 400; replyMessage := "Validation error";
          replyCode := None;
          replyErrors := Some (default [] (validation error));
          replyContext := validationContext error |}
  else if (match errStatusCode error with Some c => (c =? 401)%Z | None => false end
           || includes (errMessage error) "unauthorized")%bool
  then {| replyStatus := 401;
          replyMessage := "Unauthorized: Authentication required";
          replyCode := Some "UNAUTHORIZED";
          replyErrors := None; replyContext := None |}
  else if (match errStatusCode error with Some c => (c =? 403)%Z | None => false end
           || includes (errMessage error) "forbidden")%bool
  then {| replyStatus := 403;
          replyMessage := "Forbidden: Insufficient permissions";
          replyCode := Some "FORBIDDEN";
          replyErrors := None; replyContext := None |}
  else if (match errStatusCode error with Some c => (c =? 404)%Z | None => false end
           || includes (errMessage error) "not found")%bool
  then {| replyStatus := 404; replyMessage := "Resource not found";
          replyCode := Some "NOT_FOUND";
          replyErrors := None; replyContext := None |}
  else {| replyStatus := or_default (errStatusCode error) 500;
          replyMessage := if String.eqb (errMessage error) ""
                          then "Internal server error" else errMessage error;
          replyCode := Some (if truthy_string (errCode error)
                             then default "" (errCode error)
                             else "INTERNAL_ERROR");
          replyErrors := None; replyContext := None |}.

End ErrorHandler.

(* ===================================================================== *)
(** ** tasks/index.js *)
(* ===================================================================== *)

Module Tasks.
Import Js Executor.

(** A RegExp literal [/word/i] for a lower-case ASCII [word]. *)
Definition regexp_i (word : string) : errorPattern :=
  PRegExp (fun s => includes (toLowerCase s) word).

Section WithHandlers.
(** The three handlers, and how the three zod schemas parse. *)
Variables subscriptionRunner emailDigestProcessor cleanupTasks
  : object -> string -> nat -> promise.
Variables subscriptionSchema digestSchema cleanupSchema : object -> option string.

(** [loadTasks] *)
Definition loadTasks : registry :=
  [("run-subscriptions",
    {| description := "Process all active subscriptions to check for new matches";
       handler := subscriptionRunner;
       cronSchedule := Some "0 0 * * *";
       parametersSchema := Some (ZodType subscriptionSchema);
       defaultParameters := <["batchSize" := VNum 10]> ∅;
       timeoutMs := Some 300000%Z;
       retryPolicy :=
         Some {| maxRetries := Some 3%Z;
                 baseDelayMs := Some 1000%Z;
                 maxDelayMs := Some 30000%Z;
                 retryableErrors :=
                   Some [PString "timeout"; PString "connection";
                         regexp_i "database"; regexp_i "network"] |} |});
   ("email-digest",
    {| description := "Generate and send email digests for user notifications";
       handler := emailDigestProcessor;
       cronSchedule := Some "0 6 * * *";
       parametersSchema := Some (ZodType digestSchema);
       defaultParameters :=
         <["timezone" := VStr "UTC"]> (<["batchSize" := VNum 50]> ∅);
       timeoutMs := Some 600000%Z;
       retryPolicy :=
         Some {| maxRetries := Some 3%Z;
                 baseDelayMs := Some 5000%Z;
                 maxDelayMs := Some 60000%Z;
                 retryableErrors :=
                   Some [PString "timeout"; PString "connection";
                         regexp_i "email service"] |} |});
   ("cleanup",
    {| description := "Clean up old notifications, logs, and temporary files";
       handler := cleanupTasks;
       cronSchedule := Some "0 2 * * 0";
       parametersSchema := Some (ZodType cleanupSchema);
       defaultParameters :=
         <["notificationRetentionDays" := VNum 90]>
           (<["logRetentionDays" := VNum 30]>
              (<["tempFileRetentionDays" := VNum 7]> ∅));
       timeoutMs := Some 1800000%Z;
       retryPolicy :=
         Some {| maxRetries := Some 2%Z;
                 baseDelayMs := Some 10000%Z;
                 maxDelayMs := Some 120000%Z;
                 retryableErrors := Some [PString "database"; PString "storage"] |} |})].

End WithHandlers.

End Tasks.

(* ===================================================================== *)
(** ** More inputs *)
(* ===================================================================== *)

Module MoreExamples.
Import Js Executor.

(** [maxRetries: 3] with an empty [retryableErrors]. *)
Definition nothing_retryable : RetryPolicy :=
  {| maxRetries := Some 3%Z; baseDelayMs := None; maxDelayMs := None;
     retryableErrors := Some [] |}.

Definition disabled_task : TaskDefinition :=
  Examples.task (Examples.always_rejects "connection reset") None None
    (Some nothing_retryable).

Definition disabled_registry : registry := [("flaky", disabled_task)].

(** A handler that loses its connection once and then succeeds. *)
Definition recovers : object -> string -> nat -> promise :=
  fun _ _ calls =>
    match calls with
    | O => Some (5%Z, Rejected (Error "connection lost"))
    | S _ => Some (7%Z, Resolved (VStr "synced"))
    end.

Definition recovering_task : TaskDefinition :=
  Examples.task recovers None (Some 300000%Z)
    (Some Examples.three_retries_on_connection).

Definition recovering_registry : registry := [("sync", recovering_task)].


End MoreExamples.

(* ===================================================================== *)
(** ** The execution engine *)
(* ===================================================================== *)

Section ExecutorFacts.
Import Js Executor.

Lemma get_task_own reg taskType def :
  lookup_task reg taskType = Some def -> get_task reg taskType = OwnProperty def.
Proof. unfold get_task. now intros ->. Qed.

Lemma has_task_own reg taskType :
  is_Some (lookup_task reg taskType) -> has_task reg taskType = true.
Proof. intros [d H]. unfold has_task. now rewrite (get_task_own _ _ _ H). Qed.

Lemma inherited_spec taskType :
  existsb (String.eqb taskType) object_prototype_keys = true <->
  In taskType object_prototype_keys.
Proof.
  rewrite existsb_exists. split.
  - intros (k & Hin & Heq). apply String.eqb_eq in Heq. now subst k.
  - intros Hin. exists taskType. split; [exact Hin|apply String.eqb_refl].
Qed.

Lemma get_task_none reg taskType :
  lookup_task reg taskType = None -> ~ In taskType object_prototype_keys ->
  get_task reg taskType = NoProperty.
Proof.
  intros Hl Hn. unfold get_task. rewrite Hl.
  destruct (existsb _ _) eqn:E; [|reflexivity].
  apply inherited_spec in E. contradiction.
Qed.

Lemma get_task_inherited reg taskType :
  lookup_task reg taskType = None -> In taskType object_prototype_keys ->
  get_task reg taskType = InheritedProperty.
Proof.
  intros Hl Hin. unfold get_task. rewrite Hl.
  apply inherited_spec in Hin. now rewrite Hin.
Qed.

Lemma has_task_known reg taskType :
  has_task reg taskType = true <->
  is_Some (lookup_task reg taskType) \/ In taskType object_prototype_keys.
Proof.
  unfold has_task, get_task.
  destruct (lookup_task reg taskType) as [d|].
  - split; [left; eauto|reflexivity].
  - destruct (existsb _ _) eqn:E.
    + apply inherited_spec in E. split; [now right|reflexivity].
    + split; [discriminate|]. intros [[d Hd]|Hin]; [discriminate|].
      apply inherited_spec in Hin. congruence.
Qed.

Lemma has_task_false reg taskType :
  has_task reg taskType = false <-> get_task reg taskType = NoProperty.
Proof.
  unfold has_task. destruct (get_task reg taskType); split; congruence.
Qed.

Lemma setTimeout_delay_in_range ms :
  (1 <= ms <= 2147483647)%Z -> setTimeout_delay ms = ms.
Proof.
  intros H. unfold setTimeout_delay.
  assert (E1 : (ms <? 1)%Z = false) by (apply Z.ltb_ge; lia).
  assert (E2 : (2147483647 <? ms)%Z = false) by (apply Z.ltb_ge; lia).
  now rewrite E1, E2.
Qed.

Lemma setTimeout_delay_positive ms : (1 <= setTimeout_delay ms)%Z.
Proof.
  unfold setTimeout_delay. destruct (ms <? 1)%Z eqn:E1; cbn; [lia|].
  destruct (2147483647 <? ms)%Z; [lia|]. apply Z.ltb_ge in E1. lia.
Qed.

Lemma race_with_timer (hp : promise) (D : Z) (s : settlement) :
  Promise_race [Some (D, s); hp] =
  match hp with
  | Some (t, hs) => if (t <? D)%Z then Some (t, hs) else Some (D, s)
  | None => Some (D, s)
  end.
Proof.
  unfold Promise_race; simpl.
  destruct hp as [[t hs]|]; reflexivity.
Qed.

Lemma attempt_invalid taskType def params id w e :
  validateParameters def params = Some e ->
  attempt taskType def params id w = (Thrown e, w).
Proof. intros H. unfold attempt. now rewrite H. Qed.

Lemma attempt_valid taskType def params id w :
  validateParameters def params = None ->
  attempt taskType def params id w =
  let merged := params ∪ defaultParameters def in
  let w1 := invoked (record_event (Invoke taskType id merged) w) in
  let fires := setTimeout_delay (deadline def) in
  match handler def merged id (invocations w) with
  | Some (t, hs) =>
      if (t <? fires)%Z
      then (settle hs, wait t w1)
      else (Thrown (ExecutionTimeout taskType (deadline def)), wait fires w1)
  | None =>
      (Thrown (ExecutionTimeout taskType (deadline def)), wait fires w1)
  end.
Proof.
  intros H. unfold attempt. rewrite H. cbv zeta.
  rewrite race_with_timer.
  destruct (handler def _ id (invocations w)) as [[t hs]|]; [|reflexivity].
  destruct (t <? setTimeout_delay (deadline def))%Z; [|reflexivity].
  destruct hs; reflexivity.
Qed.

(** The timer decides: the handler never settles, or not before the timer
    fires. *)
Lemma attempt_times_out taskType def params id w :
  validateParameters def params = None ->
  let executionPromise :=
    handler def (params ∪ defaultParameters def) id (invocations w) in
  (executionPromise = None \/
   exists t hs, executionPromise = Some (t, hs) /\
                (setTimeout_delay (deadline def) <= t)%Z) ->
  attempt taskType def params id w =
  (Thrown (ExecutionTimeout taskType (deadline def)),
   wait (setTimeout_delay (deadline def))
     (invoked (record_event
                 (Invoke taskType id (params ∪ defaultParameters def)) w))).
Proof.
  intros Hv executionPromise Hlate.
  rewrite (attempt_valid _ _ _ _ _ Hv). cbv zeta. fold executionPromise.
  destruct Hlate as [-> | (t & hs & -> & Ht)]; [reflexivity|].
  assert (E : (t <? setTimeout_delay (deadline def))%Z = false)
    by (apply Z.ltb_ge; lia).
  now rewrite E.
Qed.

(** The handler decides: it settles before the timer fires. *)
Lemma attempt_in_time taskType def params id w t hs :
  validateParameters def params = None ->
  handler def (params ∪ defaultParameters def) id (invocations w) = Some (t, hs) ->
  (t < setTimeout_delay (deadline def))%Z ->
  attempt taskType def params id w =
  (settle hs,
   wait t (invoked (record_event
                      (Invoke taskType id (params ∪ defaultParameters def)) w))).
Proof.
  intros Hv Hh Ht.
  rewrite (attempt_valid _ _ _ _ _ Hv). cbv zeta. rewrite Hh.
  apply Z.ltb_lt in Ht. now rewrite Ht.
Qed.

(** An attempt never waits for a backoff: it leaves the sleeps alone. *)
Lemma sleeps_app t1 t2 : sleeps (t1 ++ t2) = (sleeps t1 ++ sleeps t2)%list.
Proof. unfold sleeps. apply flat_map_app. Qed.

Lemma attempt_sleeps taskType def params id w :
  sleeps (trace (snd (attempt taskType def params id w))) = sleeps (trace w).
Proof.
  unfold attempt.
  destruct (validateParameters def params); [reflexivity|].
  cbv zeta.
  destruct (Promise_race _) as [[t [v|e]]|]; simpl;
    rewrite sleeps_app; simpl; apply app_nil_r.
Qed.

Lemma execute_unknown reg fuel taskType params id w :
  get_task reg taskType = NoProperty ->
  execute reg (S fuel) taskType params id w =
  (Thrown (UnknownTaskType taskType), w).
Proof. intros H. simpl. now rewrite H. Qed.

Lemma execute_inherited reg fuel taskType params id w :
  get_task reg taskType = InheritedProperty ->
  execute reg (S fuel) taskType params id w = (Thrown HandlerNotAFunction, w).
Proof. intros H. simpl. now rewrite H. Qed.

Lemma execute_thrown_no_retry reg fuel taskType def params id w e w' :
  lookup_task reg taskType = Some def ->
  attempt taskType def params id w = (Thrown e, w') ->
  retries def e = false ->
  execute reg (S fuel) taskType params id w = (Thrown e, w').
Proof.
  intros Hl Ha Hr. simpl. rewrite (get_task_own _ _ _ Hl), Ha.
  unfold retries in Hr.
  destruct (retryPolicy def) as [policy|]; [|reflexivity].
  now rewrite Hr.
Qed.

Lemma execute_thrown_retry reg fuel taskType def policy n params id w e w' :
  lookup_task reg taskType = Some def ->
  attempt taskType def params id w = (Thrown e, w') ->
  retryPolicy def = Some policy ->
  shouldRetry policy e = true ->
  maxRetries policy = Some n ->
  execute reg (S fuel) taskType params id w =
  retryExecution reg fuel taskType params
    {| attemptsRemaining := n; lastError := e; retryCount := 0;
       originalExecutionId := id |} w'.
Proof.
  intros Hl Ha Hp Hr Hn. simpl.
  rewrite (get_task_own _ _ _ Hl), Ha, Hp, Hr, Hn. reflexivity.
Qed.

Lemma execute_returned reg fuel taskType def params id w v w' :
  lookup_task reg taskType = Some def ->
  attempt taskType def params id w = (Returned v, w') ->
  execute reg (S fuel) taskType params id w = (Returned v, w').
Proof. intros Hl Ha. simpl. now rewrite (get_task_own _ _ _ Hl), Ha. Qed.

Lemma shouldRetry_positive policy e :
  shouldRetry policy e = true ->
  exists n, maxRetries policy = Some n /\ (0 < n)%Z.
Proof.
  unfold shouldRetry. destruct (maxRetries policy) as [n|]; [|discriminate].
  destruct (n <=? 0)%Z eqn:E; [discriminate|].
  intros _. exists n. split; [reflexivity|]. lia.
Qed.

End ExecutorFacts.

Section ExecutorClaims.
Import Js Executor.



(** C10, as the code has it.  The value handed to [setTimeout] is
    [timeoutMs] when that is set and not 0, and 300000 otherwise, and the
    timeout error names it.  The timer fires after that many milliseconds
    when the value lies between 1 and 2^31 - 1, and after 1 ms when it
    does not; a handler that has settled before the timer fires decides
    the attempt, and otherwise the attempt fails with the timeout error
    when the timer fires. *)
Theorem C10_default_deadline taskType def params id w :
  validateParameters def params = None ->
  let D := match timeoutMs def with
           | Some t => if (t =? 0)%Z then 300000%Z else t
           | None => 300000%Z
           end in
  let fires := if ((D <? 1) || (2147483647 <? D))%Z then 1%Z else D in
  let w1 := invoked (record_event
                       (Invoke taskType id (params ∪ defaultParameters def)) w) in
  deadline def = D /\
  ((1 <= D <= 2147483647)%Z -> fires = D) /\
  (timeoutMs def = None \/ timeoutMs def = Some 0%Z -> fires = 300000%Z) /\
  attempt taskType def params id w =
    match handler def (params ∪ defaultParameters def) id (invocations w) with
    | Some (t, hs) =>
        if (t <? fires)%Z
        then (settle hs, wait t w1)
        else (Thrown (ExecutionTimeout taskType D), wait fires w1)
    | None => (Thrown (ExecutionTimeout taskType D), wait fires w1)
    end.
Proof.
  intros Hv D fires w1.
  assert (HD : deadline def = D) by reflexivity.
  assert (HF : setTimeout_delay D = fires) by reflexivity.
  split; [exact HD|]. split; [|split].
  - intros HR. rewrite <- HF. now apply setTimeout_delay_in_range.
  - intros Hunset. subst fires D. destruct Hunset as [-> | ->]; reflexivity.
  - rewrite (attempt_valid _ _ _ _ _ Hv). cbv zeta. rewrite HD, HF. reflexivity.
Qed.

Lemma C10_default_deadline_witness :
  validateParameters (Examples.task Examples.never_settles None None None) ∅ = None /\
  attempt "hang" (Examples.task Examples.never_settles None None None)
    ∅ "exec-1" world0 =
  (Thrown (Error "Task hang timed out after 300000ms"),
   {| clock := 300000; invocations := 1;
      trace := [Invoke "hang" "exec-1" (∅ ∪ ∅)] |}).
Proof.
  split; [reflexivity|].
  pose proof (C10_default_deadline "hang"
                (Examples.task Examples.never_settles None None None)
                ∅ "exec-1" world0 eq_refl) as (_ & _ & _ & H).
  rewrite H. reflexivity.
Defined.

(** C10, as stated, fails for a [timeoutMs] that is set to more than a
    timer can hold: with [timeoutMs: 3000000000] the deadline is not
    3000000000 ms but 1 ms, and a handler that needs 5 ms is timed out. *)
Lemma C10_counterexample :
  lookup_task Examples.patient_registry "patient" =
    Some (Examples.task Examples.always_resolves None (Some 3000000000%Z) None) /\
  Examples.always_resolves ∅ "exec-1" 0 = Some (5%Z, Resolved (VStr "done")) /\
  execute Examples.patient_registry 1 "patient" ∅ "exec-1" world0 =
  (Thrown (Error "Task patient timed out after 3000000000ms"),
   {| clock := 1; invocations := 1;
      trace := [Invoke "patient" "exec-1" (∅ ∪ ∅)] |}).
Proof. split; [reflexivity|]. split; reflexivity. Qed.

(** C5, as the code has it.  The handler runs under a deadline race
    against a timer that fires [fires] milliseconds after the call:
    [timeoutMs || 300000] when that lies between 1 and 2^31 - 1, and 1
    otherwise.  When the handler has not settled before the timer fires (it
    settles then or later, with whatever result, or never) the timer
    decides: the attempt fails with the timeout error at that moment, the
    handler having been invoked and nothing undoing that; its late
    settlement has no part in the outcome.  When it settles before the
    timer fires its settlement decides.  [execute] fails with the timeout
    error when its [catch] block does not retry it; when the retry policy
    accepts it, the timeout is handed to [retryExecution] like any other
    error, and [execute] answers what the retries answer. *)
Theorem C5_deadline_race reg fuel taskType def params id w :
  lookup_task reg taskType = Some def ->
  validateParameters def params = None ->
  let executionPromise :=
    handler def (params ∪ defaultParameters def) id (invocations w) in
  let w1 := invoked (record_event
                       (Invoke taskType id (params ∪ defaultParameters def)) w) in
  let timeout := ExecutionTimeout taskType (deadline def) in
  let fires := if ((deadline def <? 1) || (2147483647 <? deadline def))%Z
               then 1%Z else deadline def in
  ((1 <= deadline def <= 2147483647)%Z -> fires = deadline def) /\
  ((executionPromise = None \/
    exists t hs, executionPromise = Some (t, hs) /\ (fires <= t)%Z) ->
   attempt taskType def params id w = (Thrown timeout, wait fires w1) /\
   (retries def timeout = false ->
    execute reg (S fuel) taskType params id w = (Thrown timeout, wait fires w1)) /\
   (forall policy n,
      retryPolicy def = Some policy ->
      shouldRetry policy timeout = true ->
      maxRetries policy = Some n ->
      execute reg (S fuel) taskType params id w =
      retryExecution reg fuel taskType params
        {| attemptsRemaining := n; lastError := timeout; retryCount := 0;
           originalExecutionId := id |} (wait fires w1))) /\
  (forall t hs,
     executionPromise = Some (t, hs) -> (t < fires)%Z ->
     attempt taskType def params id w = (settle hs, wait t w1)).
Proof.
  intros Hl Hv executionPromise w1 timeout fires.
  assert (HF : setTimeout_delay (deadline def) = fires) by reflexivity.
  split; [|split].
  - intros HR. rewrite <- HF. now apply setTimeout_delay_in_range.
  - intros Hlate.
    assert (Hat : attempt taskType def params id w = (Thrown timeout, wait fires w1)).
    { rewrite <- HF. apply attempt_times_out; [exact Hv|]. rewrite HF. exact Hlate. }
    split; [exact Hat|]. split.
    + intros Hr. eapply execute_thrown_no_retry; eauto.
    + intros policy n Hp Hr Hn. eapply execute_thrown_retry; eauto.
  - intros t hs Hs Ht. apply attempt_in_time; [exact Hv|exact Hs|].
    rewrite HF. exact Ht.
Qed.

Lemma C5_deadline_race_witness :
  execute Examples.hanging_registry 1 "slow" ∅ "exec-1" world0 =
    (Thrown (Error "Task slow timed out after 50ms"),
     {| clock := 50; invocations := 1;
        trace := [Invoke "slow" "exec-1" (∅ ∪ ∅)] |}) /\
  attempt "quick" (Examples.task Examples.always_resolves None (Some 50%Z) None)
    ∅ "exec-2" world0 =
  (Returned (VStr "done"),
   wait 5 (invoked (record_event (Invoke "quick" "exec-2" (∅ ∪ ∅)) world0))).
Proof.
  pose proof (C5_deadline_race Examples.hanging_registry 0 "slow"
                (Examples.task Examples.slow_handler None (Some 50%Z) None)
                ∅ "exec-1" world0 eq_refl eq_refl) as (_ & Hlate & _).
  destruct Hlate as (_ & Hx & _).
  { right. exists 80%Z, (Resolved (VStr "late")). split; [reflexivity|]. discriminate. }
  specialize (Hx eq_refl).
  pose proof (C5_deadline_race Examples.hanging_registry 0 "quick"
                (Examples.task Examples.always_resolves None (Some 50%Z) None)
                ∅ "exec-2" world0 eq_refl eq_refl) as (_ & _ & Hquick).
  specialize (Hquick 5%Z (Resolved (VStr "done")) eq_refl eq_refl).
  split; [rewrite Hx; reflexivity|exact Hquick].
Defined.

(** C5, as stated, fails for a timeout that the retry policy accepts: a
    handler that hangs at its first call is timed out after 50 ms, but
    [execute] does not fail with the timeout error; it waits for the
    backoff, calls the handler again, and returns what that call resolves
    with. *)
Lemma C5_counterexample :
  Examples.hangs_once ∅ "exec-1" 0 = None /\
  execute Examples.slow_start_registry 3 "slow-start" ∅ "exec-1" world0 =
  (Returned (VStr "done"),
   {| clock := 1055; invocations := 2;
      trace := [Invoke "slow-start" "exec-1" (∅ ∪ ∅); Sleep 1000;
                Invoke "slow-start" "retry-1-exec-1" (∅ ∪ ∅)] |}).
Proof. split; [reflexivity|]. vm_compute. reflexivity. Qed.

(** A chain every attempt of which throws a retryable error: each
    re-invocation of [execute] fails in its own [catch] block and opens a
    new chain there, with [attemptsRemaining] back at [maxRetries] and
    [retryCount] back at 0.  No amount of fuel lets it answer, and with
    fuel [f] it has slept [f / 2] times, each time for the first delay. *)
Lemma nested_chain_never_ends reg taskType def policy n params :
  lookup_task reg taskType = Some def ->
  retryPolicy def = Some policy ->
  maxRetries policy = Some n -> (0 < n)%Z ->
  (forall id w, exists e,
      fst (attempt taskType def params id w) = Thrown e /\
      shouldRetry policy e = true) ->
  forall fuel,
    (forall id w,
        fst (execute reg fuel taskType params id w) = OutOfFuel /\
        sleeps (trace (snd (execute reg fuel taskType params id w))) =
        (sleeps (trace w) ++ repeat (backoff_delay policy 1) (Nat.div2 fuel))%list) /\
    (forall e id w,
        let rs := {| attemptsRemaining := n; lastError := e; retryCount := 0;
                     originalExecutionId := id |} in
        fst (retryExecution reg fuel taskType params rs w) = OutOfFuel /\
        sleeps (trace (snd (retryExecution reg fuel taskType params rs w))) =
        (sleeps (trace w) ++ repeat (backoff_delay policy 1) (Nat.div2 (S fuel)))%list).
Proof.
  intros Hl Hp Hn Hpos Hfail.
  induction fuel as [|fuel [IHe IHr]].
  - split; intros; simpl; rewrite app_nil_r; auto.
  - split.
    + intros id w.
      destruct (Hfail id w) as (e & Ha & Hr).
      destruct (attempt taskType def params id w) as [o w'] eqn:Ea.
      simpl in Ha; subst o.
      rewrite (execute_thrown_retry reg fuel taskType def policy n params id w e w'
                 Hl Ea Hp Hr Hn).
      destruct (IHr e id w') as [H1 H2]. split; [exact H1|].
      rewrite H2.
      pose proof (attempt_sleeps taskType def params id w) as Hs.
      rewrite Ea in Hs. simpl in Hs. now rewrite Hs.
    + intros e id w rs.
      assert (Hgt : (n <=? 0)%Z = false) by (apply Z.leb_gt; lia).
      cbn [retryExecution]. subst rs. cbn [attemptsRemaining retryCount originalExecutionId].
      rewrite Hgt, (get_task_own _ _ _ Hl), Hp.
      set (d := backoff_delay policy (0 + 1)).
      set (w1 := wait (setTimeout_delay d) (record_event (Sleep d) w)).
      destruct (IHe (retryExecutionId (0 + 1) id) w1) as [H1 H2].
      destruct (execute reg fuel taskType params (retryExecutionId (0 + 1) id) w1)
        as [o w2] eqn:Ee.
      simpl in H1, H2. subst o. cbn [fst snd]. split; [reflexivity|].
      rewrite H2. subst w1. cbn [trace wait record_event].
      rewrite sleeps_app. cbn [sleeps flat_map].
      rewrite <- app_assoc. reflexivity.
Qed.

(** C1. With [maxRetries = 3] and a handler that fails with a retryable
    error on every attempt, [execute] does not stop after three retries:
    whatever the fuel it has not answered, and it has by then slept half as
    many times as it had fuel, always for the first delay of 1000 ms (each
    retry opens a chain of its own, so [retryCount] never passes 1 and
    [attemptsRemaining] never reaches 0). *)
Theorem C1_retry_chain_unbounded :
  forall fuel,
    fst (execute Examples.flaky_registry fuel "flaky" ∅ "exec-1" world0) = OutOfFuel /\
    sleeps (trace (snd (execute Examples.flaky_registry fuel "flaky" ∅ "exec-1" world0)))
    = repeat 1000%Z (Nat.div2 fuel).
Proof.
  intros fuel.
  pose proof (nested_chain_never_ends Examples.flaky_registry "flaky"
                (Examples.task (Examples.always_rejects "connection reset") None
                   (Some 300000%Z) (Some Examples.three_retries))
                Examples.three_retries 3%Z ∅ eq_refl eq_refl eq_refl eq_refl) as H.
  destruct (H (fun id w => ex_intro _ (Error "connection reset") (conj eq_refl eq_refl))
              fuel) as [He _].
  destruct (He "exec-1" world0) as [H1 H2]. split; [exact H1|exact H2].
Qed.

(** C4, as the code has it.  A schema mismatch makes [execute] fail with
    the validation error, the handler not called and no retry made,
    whenever the guard of the [catch] block does not hold for that error:
    the definition has no retry policy, or [shouldRetry] refuses the error
    ([maxRetries] unset or not positive, or [retryableErrors] set and none
    of its patterns matching the message).  When the guard holds, so in
    particular with a positive [maxRetries] and [retryableErrors] unset, the
    validation error is handed to [retryExecution] like any other. *)
Theorem C4_invalid_parameters reg fuel taskType def parse params id w reason :
  lookup_task reg taskType = Some def ->
  parametersSchema def = Some (ZodType parse) ->
  parse params = Some reason ->
  (retries def (InvalidParameters reason) = false ->
   execute reg (S fuel) taskType params id w =
   (Thrown (InvalidParameters reason), w)) /\
  (forall policy n,
     retryPolicy def = Some policy ->
     shouldRetry policy (InvalidParameters reason) = true ->
     maxRetries policy = Some n ->
     execute reg (S fuel) taskType params id w =
     retryExecution reg fuel taskType params
       {| attemptsRemaining := n; lastError := InvalidParameters reason;
          retryCount := 0; originalExecutionId := id |} w).
Proof.
  intros Hl Hs Hparse.
  assert (Hv : validateParameters def params = Some (InvalidParameters reason)).
  { unfold validateParameters. now rewrite Hs, Hparse. }
  pose proof (attempt_invalid taskType def params id w _ Hv) as Ha.
  split.
  - intros Hr. eapply execute_thrown_no_retry; eauto.
  - intros policy n Hp Hr Hn. eapply execute_thrown_retry; eauto.
Qed.

Lemma C4_invalid_parameters_witness :
  execute Examples.strict_no_retry_registry 1 "strict" ∅ "exec-1" world0 =
  (Thrown (Error "Invalid parameters for task: Required"), world0).
Proof.
  apply (C4_invalid_parameters Examples.strict_no_retry_registry 0 "strict"
           (Examples.task Examples.always_resolves (Some Examples.rejects_all) None
              (Some Examples.three_retries_on_connection))
           (fun _ => Some "Required") ∅ "exec-1" world0 "Required"
           eq_refl eq_refl eq_refl).
  reflexivity.
Defined.

(** C4, as stated, fails: with [maxRetries: 1] and [retryableErrors]
    unset, a call whose parameters the schema rejects sleeps for a backoff
    and validates again, and has not failed with the validation error. *)
Lemma C4_counterexample :
  fst (execute Examples.strict_registry 4 "strict" ∅ "exec-1" world0) = OutOfFuel /\
  sleeps (trace (snd (execute Examples.strict_registry 4 "strict" ∅ "exec-1" world0)))
    = [1000%Z; 1000%Z] /\
  fst (execute Examples.strict_registry 4 "strict" ∅ "exec-1" world0)
    <> Thrown (InvalidParameters "Required").
Proof.
  split; [reflexivity|]. split; [reflexivity|]. discriminate.
Qed.




End ExecutorClaims.

(* ===================================================================== *)
(** ** The history store *)
(* ===================================================================== *)

Section HistoryFacts.
Import Js.

Lemma slice_suffix {A} (l : list A) (c : nat) :
  c < length l ->
  slice l (Z.of_nat (length l) - Z.of_nat c) (Z.of_nat (length l)) =
  skipn (length l - c) l.
Proof.
  intros Hc. unfold slice, slice_index.
  assert (E1 : (Z.of_nat (length l) - Z.of_nat c <? 0)%Z = false)
    by (apply Z.ltb_ge; lia).
  assert (E2 : (Z.of_nat (length l) <? 0)%Z = false) by (apply Z.ltb_ge; lia).
  rewrite E1, E2.
  rewrite !Z.min_l by lia.
  replace (Z.to_nat (Z.of_nat (length l) - Z.of_nat c)) with (length l - c) by lia.
  apply firstn_all2. rewrite length_skipn. lia.
Qed.

Lemma slice_page {A} (l : list A) (offset limit : Z) :
  (0 <= offset)%Z -> (0 <= limit)%Z ->
  slice l offset (offset + limit) =
  firstn (Z.to_nat limit) (skipn (Z.to_nat offset) l).
Proof.
  intros Ho Hl. unfold slice, slice_index.
  assert (E1 : (offset <? 0)%Z = false) by (apply Z.ltb_ge; lia).
  assert (E2 : (offset + limit <? 0)%Z = false) by (apply Z.ltb_ge; lia).
  rewrite E1, E2.
  destruct (Z_le_gt_dec (Z.of_nat (length l)) offset) as [Hge | Hlt].
  - rewrite !Z.min_r by lia. rewrite Nat2Z.id.
    rewrite !skipn_all2 by lia. now rewrite !firstn_nil.
  - rewrite (Z.min_l offset) by lia.
    destruct (Z_le_gt_dec (offset + limit) (Z.of_nat (length l))) as [Hin | Hout].
    + rewrite Z.min_l by lia. f_equal. lia.
    + rewrite Z.min_r by lia.
      rewrite !firstn_all2; [reflexivity | |]; rewrite length_skipn; lia.
Qed.

(** [saveTaskHistory] appends, then keeps the last [capacity] entries. *)
Lemma saveTaskHistory_spec now rnd r h :
  let entry := {| History.record := r;
                  History.id := "history-" ++ pretty now ++ "-" ++ rnd;
                  History.createdAt := now |} in
  History.saveTaskHistory now rnd r h =
  (entry, skipn (length h + 1 - History.capacity) (h ++ [entry])).
Proof.
  intros entry. unfold History.saveTaskHistory. fold entry. cbv zeta. f_equal.
  destruct (Z.of_nat History.capacity <? Z.of_nat (length (h ++ [entry])))%Z eqn:E.
  - apply Z.ltb_lt in E. rewrite slice_suffix by lia.
    rewrite length_app. reflexivity.
  - apply Z.ltb_ge in E. rewrite length_app in E. cbn [length] in E.
    replace (length h + 1 - History.capacity) with 0 by lia. reflexivity.
Qed.

Lemma saveTaskHistory_bounded now rnd r h :
  length h <= History.capacity ->
  length (snd (History.saveTaskHistory now rnd r h)) <= History.capacity.
Proof.
  intros H. rewrite saveTaskHistory_spec. cbn [snd].
  rewrite length_skipn, length_app. cbn [length]. lia.
Qed.

Section SortFacts.
Context {A : Type} (comparefn : A -> A -> Z) (R : A -> A -> Prop).
Hypothesis before : forall x y, (comparefn x y <= 0)%Z -> R x y.
Hypothesis after : forall x y, (0 < comparefn x y)%Z -> R y x.

Lemma sort_insert_perm x l : Permutation (sort_insert comparefn x l) (x :: l).
Proof.
  induction l as [|y l IH]; simpl; [reflexivity|].
  destruct (comparefn x y <=? 0)%Z; [reflexivity|].
  rewrite IH. apply perm_swap.
Qed.

Lemma sort_perm l : Permutation (sort comparefn l) l.
Proof.
  induction l as [|x l IH]; simpl; [reflexivity|].
  unfold sort in *. rewrite sort_insert_perm. now constructor.
Qed.

Lemma sort_insert_hd x y l :
  R y x -> HdRel R y l -> HdRel R y (sort_insert comparefn x l).
Proof.
  intros Hyx Hl. destruct l as [|z l]; simpl; [now constructor|].
  destruct (comparefn x z <=? 0)%Z; constructor; [assumption|].
  now inversion Hl.
Qed.

Lemma sort_insert_sorted x l :
  Sorted R l -> Sorted R (sort_insert comparefn x l).
Proof.
  induction 1 as [|y l Hs IH Hhd]; simpl; [repeat constructor|].
  destruct (comparefn x y <=? 0)%Z eqn:E.
  - apply Z.leb_le in E. repeat constructor; auto.
  - apply Z.leb_gt in E. constructor; [assumption|].
    apply sort_insert_hd; auto.
Qed.

Lemma sort_sorted l : Sorted R (sort comparefn l).
Proof.
  induction l as [|x l IH]; simpl; [constructor|].
  now apply sort_insert_sorted.
Qed.
End SortFacts.

End HistoryFacts.

Section HistoryClaims.
Import Js.

Lemma comparefn_before sortBy sortOrder x y :
  (History.comparefn sortBy sortOrder x y <= 0)%Z ->
  History.ordered sortBy sortOrder x y.
Proof.
  unfold History.comparefn, History.ordered.
  destruct (History.descending sortOrder); rewrite Z.gtb_ltb;
    match goal with |- context [(?a <? ?b)%Z] => destruct (Z.ltb_spec0 a b) end;
    lia.
Qed.

Lemma comparefn_after sortBy sortOrder x y :
  (0 < History.comparefn sortBy sortOrder x y)%Z ->
  History.ordered sortBy sortOrder y x.
Proof.
  unfold History.comparefn, History.ordered.
  destruct (History.descending sortOrder); rewrite Z.gtb_ltb;
    match goal with |- context [(?a <? ?b)%Z] => destruct (Z.ltb_spec0 a b) end;
    lia.
Qed.

(** A query for one task type sorts the array [filter] made and leaves
    [taskHistoryArray] as it was. *)
Lemma getTaskHistory_filtered_keeps t options store :
  t <> "" ->
  snd (History.getTaskHistory (Some t) options store) = store.
Proof.
  intros Ht. unfold History.getTaskHistory. cbn [snd truthy_string].
  apply String.eqb_neq in Ht. now rewrite Ht.
Qed.

(** C7, as the code has it.  A query with a non-negative [limit] and
    [offset] answers from the entries whose [taskType] equals the one
    asked for (from all entries when none is asked for, or the empty
    string): these are sorted by the field [sortBy] names, falling when
    [sortOrder] reads [desc] in whatever case and rising otherwise, and
    only then cut to the page, the [limit] entries from position [offset]
    on; [total] counts all the matching entries, and [hasMore] holds
    exactly when [offset + limit < total].  The defaults are 10, 0,
    [startTime] and [desc]. *)
Theorem C7_query taskType options store :
  let limit := default 10%Z (History.limit options) in
  let offset := default 0%Z (History.offset options) in
  let key entry :=
    match History.sortBy options with
    | None | Some History.startTimeKey => History.startTime (History.record entry)
    | Some History.endTimeKey => History.endTime (History.record entry)
    | Some History.durationKey => History.duration (History.record entry)
    end in
  let falling :=
    match History.sortOrder options with
    | None => true
    | Some sortOrder => String.eqb (toLowerCase sortOrder) "desc"
    end in
  let answer := fst (History.getTaskHistory taskType options store) in
  let matching := History.filteredHistory taskType store in
  (0 <= limit)%Z -> (0 <= offset)%Z ->
  (forall t, taskType = Some t -> t <> "" ->
     forall e, In e matching <->
               In e store /\ History.taskType (History.record e) = t) /\
  (taskType = None \/ taskType = Some "" -> matching = store) /\
  exists sorted,
    Permutation sorted matching /\
    Sorted (fun a b => if falling then (key b <= key a)%Z else (key a <= key b)%Z)
      sorted /\
    History.history answer =
      firstn (Z.to_nat limit) (skipn (Z.to_nat offset) sorted) /\
    (Z.of_nat (length (History.history answer)) <= limit)%Z /\
    History.total (History.pagination answer) = Z.of_nat (length matching) /\
    (History.hasMore (History.pagination answer) = true <->
     (offset + limit < Z.of_nat (length matching))%Z).
Proof.
  intros limit offset key falling answer matching Hl Ho.
  set (sortBy := default History.startTimeKey (History.sortBy options)).
  set (sortOrder := default "desc" (History.sortOrder options)).
  split; [|split].
  - intros t -> Ht e. subst matching. unfold History.filteredHistory.
    apply String.eqb_neq in Ht. rewrite Ht.
    rewrite filter_In, String.eqb_eq. reflexivity.
  - intros [-> | ->]; reflexivity.
  - exists (sort (History.comparefn sortBy sortOrder) matching).
    pose proof (sort_perm (History.comparefn sortBy sortOrder) matching) as Hperm.
    assert (Hlen : length (sort (History.comparefn sortBy sortOrder) matching)
                   = length matching) by (apply Permutation_length, Hperm).
    split; [exact Hperm|].
    split.
    { assert (Hs : Sorted (History.ordered sortBy sortOrder)
                     (sort (History.comparefn sortBy sortOrder) matching))
        by (apply sort_sorted; [apply comparefn_before | apply comparefn_after]).
      assert (Hkey : forall e, History.field sortBy e = key e).
      { intros e. subst sortBy key. cbv beta.
        destruct (History.sortBy options) as [[| |]|]; reflexivity. }
      assert (Hfalling : History.descending sortOrder = falling).
      { subst sortOrder falling. destruct (History.sortOrder options); reflexivity. }
      revert Hs. apply Sorted_ind; [constructor|].
      intros a l Hsl IH Hhd. constructor; [exact IH|].
      destruct Hhd as [|b l' Hab]; constructor.
      unfold History.ordered in Hab. rewrite Hfalling, !Hkey in Hab. exact Hab. }
    subst answer. unfold History.getTaskHistory.
    fold limit offset sortBy sortOrder matching. cbn [fst History.history
      History.pagination History.total History.hasMore].
    rewrite slice_page by assumption.
    split; [reflexivity|]. split.
    + rewrite length_firstn. lia.
    + rewrite Hlen. split; [reflexivity|]. apply Z.ltb_lt.
Qed.

Lemma C7_query_witness :
  Examples.start_times
    (History.history
       (fst (History.getTaskHistory (Some "noop")
               {| History.limit := Some 2%Z; History.offset := Some 1%Z;
                  History.sortBy := None; History.sortOrder := None |}
               (Examples.saved_in_order 5)))) = [3%Z; 2%Z] /\
  History.total
    (History.pagination
       (fst (History.getTaskHistory (Some "noop")
               {| History.limit := Some 2%Z; History.offset := Some 1%Z;
                  History.sortBy := None; History.sortOrder := None |}
               (Examples.saved_in_order 5)))) = 5%Z /\
  Examples.start_times
    (History.history
       (fst (History.getTaskHistory None
               {| History.limit := Some 2%Z; History.offset := Some 1%Z;
                  History.sortBy := Some History.endTimeKey;
                  History.sortOrder := Some "asc" |}
               (rev (Examples.saved_in_order 5))))) = [1%Z; 2%Z] /\
  exists sorted,
    Sorted (fun a b =>
              (History.endTime (History.record a) <=
               History.endTime (History.record b))%Z) sorted /\
    History.history
      (fst (History.getTaskHistory None
              {| History.limit := Some 2%Z; History.offset := Some 1%Z;
                 History.sortBy := Some History.endTimeKey;
                 History.sortOrder := Some "asc" |}
              (rev (Examples.saved_in_order 5)))) =
    firstn 2 (skipn 1 sorted).
Proof.
  pose proof (C7_query (Some "noop")
                {| History.limit := Some 2%Z; History.offset := Some 1%Z;
                   History.sortBy := None; History.sortOrder := None |}
                (Examples.saved_in_order 5)) as H.
  cbv zeta in H. cbn [default History.limit History.offset from_option id] in H.
  destruct (H ltac:(lia) ltac:(lia)) as (_ & _ & sorted & _ & _ & Hpage & _ & Htotal & _).
  split; [reflexivity|]. split; [exact Htotal|]. split; [reflexivity|].
  pose proof (C7_query None
                {| History.limit := Some 2%Z; History.offset := Some 1%Z;
                   History.sortBy := Some History.endTimeKey;
                   History.sortOrder := Some "asc" |}
                (rev (Examples.saved_in_order 5))) as H'.
  cbv zeta in H'.
  cbn [default History.limit History.offset History.sortBy History.sortOrder
       from_option id] in H'.
  destruct (H' ltac:(lia) ltac:(lia))
    as (_ & _ & rising & _ & Hrising & Hpage' & _).
  exists rising. split; [exact Hrising|exact Hpage'].
Defined.

(** C7, as stated, fails for a negative [limit]: [slice] counts a negative
    end from the end of the array, so a query with [limit = -1] on four
    entries is answered with three of them, and with [hasMore] set. *)
Lemma C7_counterexample :
  Examples.start_times
    (History.history
       (fst (History.getTaskHistory None
               {| History.limit := Some (-1)%Z; History.offset := None;
                  History.sortBy := None; History.sortOrder := None |}
               (Examples.saved_in_order 4)))) = [3%Z; 2%Z; 1%Z] /\
  ~ (Z.of_nat
       (length
          (History.history
             (fst (History.getTaskHistory None
                     {| History.limit := Some (-1)%Z; History.offset := None;
                        History.sortBy := None; History.sortOrder := None |}
                     (Examples.saved_in_order 4))))) <= -1)%Z /\
  History.hasMore
    (History.pagination
       (fst (History.getTaskHistory None
               {| History.limit := Some (-1)%Z; History.offset := None;
                  History.sortBy := None; History.sortOrder := None |}
               (Examples.saved_in_order 4)))) = true.
Proof.
  split; [reflexivity|]. split; [|reflexivity].
  vm_compute. intros H. apply H. reflexivity.
Qed.

(** C3. A read is not harmless: [getTaskHistory] without a task type sorts
    [taskHistoryArray] itself.  Two entries saved one after the other are
    stored newest first after it; and when a full store has been read, the
    next [saveTaskHistory] evicts the entry that was saved last and keeps
    the one that was saved first. *)
Theorem C3_read_reorders_store :
  Examples.start_times (Examples.saved_in_order 2) = [0%Z; 1%Z] /\
  Examples.start_times
    (snd (History.getTaskHistory None Examples.no_options
            (Examples.saved_in_order 2))) = [1%Z; 0%Z] /\
  Examples.start_times (Examples.saved_in_order 1000) =
    map Z.of_nat (seq 0 1000) /\
  Examples.start_times
    (snd (History.saveTaskHistory 1000 "k3j9x2a" (Examples.record_at 1000)
            (snd (History.getTaskHistory None Examples.no_options
                    (Examples.saved_in_order 1000))))) =
    (map Z.of_nat (rev (seq 0 999)) ++ [1000%Z])%list.
Proof.
  split; [reflexivity|]. split; [reflexivity|].
  split; vm_compute; reflexivity.
Qed.

End HistoryClaims.

(* ===================================================================== *)
(** ** The scheduler controller *)
(* ===================================================================== *)

Section SchedulerFacts.
Import Js.
Import Scheduler.
Variable cron_validate : string -> bool.
Variable random_suffix : nat -> string.
Variable taskDefinitions : Executor.registry.

Lemma scheduleTask_unknown taskType cronExpression s :
  Executor.has_task taskDefinitions taskType = false ->
  scheduleTask cron_validate taskDefinitions taskType cronExpression s =
  (Executor.Thrown (Executor.UnknownTaskType taskType), s).
Proof. intros H. unfold scheduleTask. now rewrite H. Qed.

Lemma scheduleTask_invalid taskType cronExpression s :
  Executor.has_task taskDefinitions taskType = true ->
  cron_validate cronExpression = false ->
  scheduleTask cron_validate taskDefinitions taskType cronExpression s =
  (Executor.Thrown (InvalidCronExpression cronExpression taskType), s).
Proof. intros H Hc. unfold scheduleTask. now rewrite H, Hc. Qed.

Lemma scheduleTask_valid taskType cronExpression s :
  Executor.has_task taskDefinitions taskType = true ->
  cron_validate cronExpression = true ->
  scheduleTask cron_validate taskDefinitions taskType cronExpression s =
  (Executor.Returned true,
   set_jobs (<[taskType := length (stop_previous taskType s)]> (scheduledJobs s))
     (stop_previous taskType s ++
      [{| jobTaskType := taskType; jobExpression := cronExpression;
          running := true |}])%list s).
Proof. intros H Hc. unfold scheduleTask. now rewrite H, Hc. Qed.

(** A call of [scheduleTask] either throws and changes nothing, or
    installs the job. *)
Lemma scheduleTask_cases taskType cronExpression s :
  snd (scheduleTask cron_validate taskDefinitions taskType cronExpression s) = s \/
  (Executor.has_task taskDefinitions taskType = true /\
   cron_validate cronExpression = true).
Proof.
  unfold scheduleTask.
  destruct (Executor.has_task taskDefinitions taskType); [|now left].
  destruct (cron_validate cronExpression); [right; eauto | now left].
Qed.

Lemma length_stop_previous taskType s :
  length (stop_previous taskType s) = length (cronJobs s).
Proof.
  unfold stop_previous.
  destruct (scheduledJobs s !! taskType); [apply length_alter|reflexivity].
Qed.

(** After [stop_previous], a job that still runs is a job of another task
    type, and was there before. *)
Lemma stop_previous_running taskType s i job :
  consistent s ->
  stop_previous taskType s !! i = Some job -> running job = true ->
  cronJobs s !! i = Some job /\ jobTaskType job <> taskType.
Proof.
  intros [Ha Hb] Hi Hr. unfold stop_previous in Hi.
  destruct (scheduledJobs s !! taskType) as [previous|] eqn:Ep.
  - destruct (decide (previous = i)) as [->|Hne].
    + rewrite list_lookup_alter_eq in Hi.
      destruct (cronJobs s !! i); simpl in Hi; [|discriminate].
      injection Hi as <-. discriminate.
    + rewrite list_lookup_alter_ne in Hi by assumption.
      split; [assumption|]. intros Ht.
      pose proof (Ha i job Hi Hr) as Hm. rewrite Ht, Ep in Hm. congruence.
  - split; [assumption|]. intros Ht.
    pose proof (Ha i job Hi Hr) as Hm. rewrite Ht, Ep in Hm. discriminate.
Qed.

Lemma scheduleTask_consistent taskType cronExpression s :
  consistent s ->
  consistent (snd (scheduleTask cron_validate taskDefinitions taskType cronExpression s)).
Proof.
  intros Hc.
  destruct (scheduleTask_cases taskType cronExpression s) as [-> | [Hd Hv]];
    [assumption|].
  rewrite (scheduleTask_valid _ _ _ Hd Hv). cbn [snd].
  pose proof (stop_previous_running taskType s) as Hrun.
  destruct Hc as [Ha Hb].
  split; cbn [cronJobs scheduledJobs set_jobs].
  - intros i job Hi Hr.
    apply lookup_snoc_Some in Hi as [[Hlt Hi] | [-> <-]].
    + destruct (Hrun i job (conj Ha Hb) Hi Hr) as [Hj Hne].
      rewrite lookup_insert_ne by congruence. now apply Ha.
    + cbn [jobTaskType]. apply lookup_insert_eq.
  - intros t i Hi.
    destruct (decide (taskType = t)) as [<-|Hne].
    + rewrite lookup_insert_eq in Hi. injection Hi as <-.
      eexists. split; [apply list_lookup_middle; reflexivity|]. split; reflexivity.
    + rewrite lookup_insert_ne in Hi by assumption.
      destruct (Hb t i Hi) as (job & Hj & Ht & Hr).
      exists job. split; [|split; assumption].
      apply lookup_app_l_Some. unfold stop_previous.
      destruct (scheduledJobs s !! taskType) as [previous|] eqn:Ep; [|assumption].
      rewrite list_lookup_alter_ne; [assumption|].
      intros ->. destruct (Hb taskType i Ep) as (job' & Hj' & Ht' & _). congruence.
Qed.

Lemma state0_consistent : consistent state0.
Proof.
  split.
  - intros i job H. discriminate.
  - intros t i H. cbn in H. rewrite lookup_empty in H. discriminate.
Qed.

Lemma schedule_calls_consistent calls s :
  consistent s ->
  consistent (schedule_calls cron_validate taskDefinitions calls s).
Proof.
  revert s. induction calls as [|[t c] calls IH]; intros s Hs; [assumption|].
  apply IH. now apply scheduleTask_consistent.
Qed.

Lemma scheduleTask_ready taskType cronExpression s :
  ready (snd (scheduleTask cron_validate taskDefinitions taskType cronExpression s))
  = ready s.
Proof.
  destruct (scheduleTask_cases taskType cronExpression s) as [-> | [Hd Hv]];
    [reflexivity|].
  now rewrite (scheduleTask_valid _ _ _ Hd Hv).
Qed.

Lemma schedule_calls_ready calls s :
  ready (schedule_calls cron_validate taskDefinitions calls s) = ready s.
Proof.
  revert s. induction calls as [|[t c] calls IH]; intros s; [reflexivity|].
  cbn [schedule_calls foldl]. unfold schedule_calls in IH. rewrite IH.
  apply scheduleTask_ready.
Qed.

(** A list in which the elements that satisfy [P] all sit at one position
    has at most one of them. *)
Lemma filter_at_most_one {A} (P : A -> bool) (l : list A) :
  (forall i j x y, l !! i = Some x -> l !! j = Some y ->
                   P x = true -> P y = true -> i = j) ->
  length (List.filter P l) <= 1.
Proof.
  induction l as [|a l IH]; intros H; [simpl; lia|].
  assert (Hl : length (List.filter P l) <= 1).
  { apply IH. intros i j x y Hi Hj Hx Hy.
    assert (S i = S j) by (eapply H; eauto). lia. }
  simpl. destruct (P a) eqn:Ea; [|assumption].
  destruct (List.filter P l) as [|y rest] eqn:Ef; [simpl; lia|].
  assert (Hy : In y (List.filter P l)) by (rewrite Ef; now left).
  apply filter_In in Hy as [Hin Hy].
  apply list_elem_of_In, list_elem_of_lookup in Hin as [j Hj].
  assert (0 = S j) by (eapply (H 0 (S j) a y); eauto). lia.
Qed.

Lemma filter_none {A} (P : A -> bool) (l : list A) :
  (forall x, In x l -> P x = false) -> List.filter P l = [].
Proof.
  induction l as [|a l IH]; intros H; [reflexivity|].
  simpl. rewrite (H a) by now left. apply IH. intros x Hx. apply H. now right.
Qed.

Lemma live_at_most_one taskType s :
  consistent s -> length (live taskType s) <= 1.
Proof.
  intros [Ha _]. unfold live. apply filter_at_most_one.
  intros i j x y Hi Hj Hx Hy.
  apply andb_true_iff in Hx as [Hx Htx]. apply andb_true_iff in Hy as [Hy Hty].
  apply String.eqb_eq in Htx, Hty.
  pose proof (Ha i x Hi Hx) as H1. pose proof (Ha j y Hj Hy) as H2.
  rewrite Htx in H1. rewrite Hty in H2. congruence.
Qed.

Lemma live_scheduled taskType s i :
  consistent s -> scheduledJobs s !! taskType = Some i ->
  exists job, cronJobs s !! i = Some job /\ live taskType s = [job].
Proof.
  intros Hc Hi. pose proof (live_at_most_one taskType s Hc) as Hlen.
  destruct Hc as [Ha Hb]. destruct (Hb taskType i Hi) as (job & Hj & Ht & Hr).
  exists job. split; [assumption|].
  assert (Hin : In job (live taskType s)).
  { unfold live. apply filter_In. split.
    - apply list_elem_of_In, list_elem_of_lookup. eauto.
    - rewrite Hr, Ht, String.eqb_refl. reflexivity. }
  destruct (live taskType s) as [|x [|y rest]]; simpl in *; [tauto| |lia].
  destruct Hin as [->|[]]. reflexivity.
Qed.

(** What a successful rescheduling does to the job it replaces. *)
Lemma reschedule_replaces taskType cronExpression s previous :
  consistent s ->
  scheduledJobs s !! taskType = Some previous ->
  Executor.has_task taskDefinitions taskType = true ->
  cron_validate cronExpression = true ->
  let s' := snd (scheduleTask cron_validate taskDefinitions taskType cronExpression s) in
  (exists old, cronJobs s !! previous = Some old /\ running old = true /\
               cronJobs s' !! previous = Some (stop old)) /\
  (forall fuel, tick random_suffix taskDefinitions fuel previous s' = s') /\
  scheduledJobs s' !! taskType = Some (length (cronJobs s)) /\
  live taskType s' =
    [{| jobTaskType := taskType; jobExpression := cronExpression; running := true |}].
Proof.
  intros Hc Hp Hd Hv s'. subst s'.
  rewrite (scheduleTask_valid _ _ _ Hd Hv). cbn [snd].
  destruct (proj2 Hc taskType previous Hp) as (old & Ho & Ht & Hr).
  assert (Hstopped : stop_previous taskType s !! previous = Some (stop old)).
  { unfold stop_previous. rewrite Hp, list_lookup_alter_eq, Ho. reflexivity. }
  assert (Hnew : (stop_previous taskType s ++
                  [{| jobTaskType := taskType; jobExpression := cronExpression;
                      running := true |}])%list !! previous = Some (stop old))
    by (now apply lookup_app_l_Some).
  split; [|split; [|split]].
  - exists old. cbn [cronJobs set_jobs]. auto.
  - intros fuel. unfold tick. cbn [cronJobs set_jobs]. rewrite Hnew. reflexivity.
  - cbn [scheduledJobs set_jobs]. rewrite lookup_insert_eq, length_stop_previous.
    reflexivity.
  - unfold live. cbn [cronJobs set_jobs]. rewrite List.filter_app.
    rewrite filter_none.
    + simpl. now rewrite String.eqb_refl.
    + intros x Hx. apply list_elem_of_In, list_elem_of_lookup in Hx as [i Hi].
      destruct (running x) eqn:Ex; [|reflexivity].
      destruct (stop_previous_running taskType s i x Hc Hi Ex) as [_ Hne].
      apply String.eqb_neq in Hne. now rewrite Hne.
Qed.

Lemma lookup_task_in reg taskType definition :
  In (taskType, definition) reg -> is_Some (Executor.lookup_task reg taskType).
Proof.
  induction reg as [|[k d] reg IH]; intros H; [destruct H|].
  simpl. destruct (String.eqb k taskType) eqn:E; [eauto|].
  destruct H as [H|H]; [|auto].
  injection H as -> ->. now rewrite String.eqb_refl in E.
Qed.

(** As long as every expression is valid, the [forEach] of [initialize] is
    the sequence of [scheduleTask] calls for the entries that carry one. *)
Lemma schedule_all_valid entries s :
  (forall e, In e entries -> is_Some (Executor.lookup_task taskDefinitions e.1)) ->
  forallb (schedulable cron_validate) entries = true ->
  schedule_all cron_validate taskDefinitions entries s =
  (Executor.Returned tt,
   schedule_calls cron_validate taskDefinitions (cron_entries entries) s).
Proof.
  revert s. induction entries as [|[t d] entries IH]; intros s Hin Hok;
    [reflexivity|].
  simpl in Hok. apply andb_true_iff in Hok as [Hx Hrest].
  assert (Hin' : forall e, In e entries ->
                 is_Some (Executor.lookup_task taskDefinitions e.1))
    by (intros e He; apply Hin; now right).
  cbn [schedule_all cron_entries flat_map]. unfold schedulable in Hx. cbn [snd fst] in *.
  destruct (truthy_string (Executor.cronSchedule d)).
  - rewrite (scheduleTask_valid t _ s (has_task_own _ _ (Hin (t, d) (or_introl eq_refl))) Hx).
    rewrite IH by assumption. cbn [app schedule_calls foldl fst snd].
    rewrite (scheduleTask_valid t _ s (has_task_own _ _ (Hin (t, d) (or_introl eq_refl))) Hx).
    reflexivity.
  - rewrite IH by assumption. reflexivity.
Qed.

(** The [forEach] stops at the first entry whose expression is invalid,
    with what the entries before it installed. *)
Lemma schedule_all_invalid pre taskType definition post s :
  (forall e, In e (pre ++ (taskType, definition) :: post)%list ->
             is_Some (Executor.lookup_task taskDefinitions e.1)) ->
  forallb (schedulable cron_validate) pre = true ->
  schedulable cron_validate (taskType, definition) = false ->
  schedule_all cron_validate taskDefinitions (pre ++ (taskType, definition) :: post)%list s =
  (Executor.Thrown
     (InvalidCronExpression (default "" (Executor.cronSchedule definition)) taskType),
   schedule_calls cron_validate taskDefinitions (cron_entries pre) s).
Proof.
  revert s. induction pre as [|[t d] pre IH]; intros s Hin Hok Hbad.
  - cbn [app schedule_all cron_entries flat_map schedule_calls foldl].
    unfold schedulable in Hbad. cbn [snd fst] in Hbad.
    destruct (truthy_string (Executor.cronSchedule definition)); [|discriminate].
    rewrite scheduleTask_invalid; [reflexivity| |assumption].
    apply has_task_own, (Hin (taskType, definition)). now left.
  - simpl in Hok. apply andb_true_iff in Hok as [Hx Hrest].
    assert (Hin' : forall e, In e (pre ++ (taskType, definition) :: post)%list ->
                   is_Some (Executor.lookup_task taskDefinitions e.1))
      by (intros e He; apply Hin; now right).
    cbn [app schedule_all cron_entries flat_map]. unfold schedulable in Hx.
    cbn [snd fst] in *.
    destruct (truthy_string (Executor.cronSchedule d)).
    + rewrite (scheduleTask_valid t _ s (has_task_own _ _ (Hin (t, d) (or_introl eq_refl))) Hx).
      rewrite IH by assumption. cbn [app schedule_calls foldl fst snd].
      rewrite (scheduleTask_valid t _ s (has_task_own _ _ (Hin (t, d) (or_introl eq_refl))) Hx).
      reflexivity.
    + rewrite IH by assumption. reflexivity.
Qed.

Lemma first_unschedulable (entries : Executor.registry) :
  forallb (schedulable cron_validate) entries = false ->
  exists pre x post,
    entries = (pre ++ x :: post)%list /\
    forallb (schedulable cron_validate) pre = true /\
    schedulable cron_validate x = false.
Proof.
  induction entries as [|a entries IH]; intros H; [discriminate|].
  simpl in H. destruct (schedulable cron_validate a) eqn:Ea.
  - destruct (IH H) as (pre & x & post & -> & Hpre & Hx).
    exists (a :: pre), x, post. simpl. rewrite Ea. auto.
  - exists [], a, entries. auto.
Qed.

End SchedulerFacts.

Section SchedulerClaims.
Import Js.
Import Scheduler.

(** C8. After any sequence of [scheduleTask] calls a task type has at most
    one running job, the one the schedule table holds for it.  Scheduling a
    task type that has an entry stops the job of that entry, whose ticks do
    nothing from then on, and leaves the new job as the only running job of
    the type. *)
Theorem C8_one_live_entry cron_validate random_suffix taskDefinitions
    calls taskType cronExpression :
  let s := schedule_calls cron_validate taskDefinitions calls state0 in
  let s' := snd (scheduleTask cron_validate taskDefinitions taskType cronExpression s) in
  length (live taskType s) <= 1 /\
  (forall i, scheduledJobs s !! taskType = Some i ->
             exists job, cronJobs s !! i = Some job /\ live taskType s = [job]) /\
  (forall previous,
     scheduledJobs s !! taskType = Some previous ->
     is_Some (Executor.lookup_task taskDefinitions taskType) ->
     cron_validate cronExpression = true ->
     (exists old, cronJobs s !! previous = Some old /\ running old = true /\
                  cronJobs s' !! previous = Some (stop old)) /\
     (forall fuel, tick random_suffix taskDefinitions fuel previous s' = s') /\
     scheduledJobs s' !! taskType = Some (length (cronJobs s)) /\
     live taskType s' =
       [{| jobTaskType := taskType; jobExpression := cronExpression;
           running := true |}]).
Proof.
  intros s s'.
  assert (Hc : consistent s)
    by (apply schedule_calls_consistent, state0_consistent).
  split; [now apply live_at_most_one|].
  split; [intros i Hi; now apply live_scheduled|].
  intros previous Hp Hd Hv.
  apply reschedule_replaces; auto using has_task_own.
Qed.

Lemma C8_one_live_entry_witness :
  scheduledJobs
    (schedule_calls Examples.five_fields Examples.cron_registry
       [("daily", "0 0 * * *")] state0) !! "daily" = Some 0 /\
  live "daily"
    (snd (scheduleTask Examples.five_fields Examples.cron_registry "daily" "0 6 * * *"
            (schedule_calls Examples.five_fields Examples.cron_registry
               [("daily", "0 0 * * *")] state0))) =
  [{| jobTaskType := "daily"; jobExpression := "0 6 * * *"; running := true |}].
Proof.
  split; [reflexivity|].
  pose proof (C8_one_live_entry Examples.five_fields Examples.fixed_suffix
                Examples.cron_registry [("daily", "0 0 * * *")] "daily" "0 6 * * *")
    as (_ & _ & H).
  destruct (H 0 eq_refl (ex_intro _ _ eq_refl) eq_refl) as (_ & _ & _ & Hlive).
  exact Hlive.
Defined.

(** C9, as the code has it.  [initialize] passes every entry that carries
    a [cronSchedule] to [scheduleTask], in order.  When every expression is
    valid it returns with [ready] set, the state being what those calls
    made of it.  At the first invalid expression it fails with the error of
    [scheduleTask], [ready] still false and the state what the calls for
    the entries before it made of it: their jobs are installed and
    running.  So [ready] is set exactly when every expression is valid.
    The failure stops there: [setupScheduler] catches it and returns its
    API over that same state, a scheduler that is not ready. *)
Theorem C9_initialize cron_validate taskDefinitions :
  (forallb (schedulable cron_validate) taskDefinitions = true ->
   initialize cron_validate taskDefinitions state0 =
   (Executor.Returned tt,
    set_ready true
      (schedule_calls cron_validate taskDefinitions
         (cron_entries taskDefinitions) state0))) /\
  (forall pre taskType definition post,
     taskDefinitions = (pre ++ (taskType, definition) :: post)%list ->
     forallb (schedulable cron_validate) pre = true ->
     schedulable cron_validate (taskType, definition) = false ->
     let installed :=
       schedule_calls cron_validate taskDefinitions (cron_entries pre) state0 in
     initialize cron_validate taskDefinitions state0 =
       (Executor.Thrown
          (InvalidCronExpression
             (default "" (Executor.cronSchedule definition)) taskType),
        installed) /\
     ready installed = false /\
     consistent installed /\
     Api.setupScheduler cron_validate taskDefinitions = installed /\
     isReady (Api.setupScheduler cron_validate taskDefinitions) = false) /\
  (ready (snd (initialize cron_validate taskDefinitions state0)) = true <->
   forallb (schedulable cron_validate) taskDefinitions = true).
Proof.
  assert (Hin : forall e, In e taskDefinitions ->
                is_Some (Executor.lookup_task taskDefinitions e.1)).
  { intros [t d] He. now apply lookup_task_in with d. }
  assert (Hgood : forallb (schedulable cron_validate) taskDefinitions = true ->
     initialize cron_validate taskDefinitions state0 =
     (Executor.Returned tt,
      set_ready true
        (schedule_calls cron_validate taskDefinitions
           (cron_entries taskDefinitions) state0))).
  { intros Hok. unfold initialize. now rewrite schedule_all_valid. }
  assert (Hbad : forall pre taskType definition post,
     taskDefinitions = (pre ++ (taskType, definition) :: post)%list ->
     forallb (schedulable cron_validate) pre = true ->
     schedulable cron_validate (taskType, definition) = false ->
     initialize cron_validate taskDefinitions state0 =
       (Executor.Thrown
          (InvalidCronExpression
             (default "" (Executor.cronSchedule definition)) taskType),
        schedule_calls cron_validate taskDefinitions (cron_entries pre) state0)).
  { intros pre taskType definition post Heq Hpre Hx. unfold initialize.
    rewrite Heq at 2. rewrite schedule_all_invalid; auto.
    rewrite <- Heq. exact Hin. }
  split; [exact Hgood|]. split.
  - intros pre taskType definition post Heq Hpre Hx installed.
    assert (Hready : ready installed = false)
      by (subst installed; now rewrite schedule_calls_ready).
    assert (Hsetup : Api.setupScheduler cron_validate taskDefinitions = installed)
      by (unfold Api.setupScheduler; now rewrite (Hbad pre taskType definition post)).
    split; [now apply Hbad with post|]. split; [exact Hready|]. split.
    + apply schedule_calls_consistent, state0_consistent.
    + split; [exact Hsetup|]. unfold isReady. now rewrite Hsetup.
  - split.
    + intros Hr.
      destruct (forallb (schedulable cron_validate) taskDefinitions) eqn:E;
        [reflexivity|].
      destruct (first_unschedulable cron_validate _ E) as (pre & [t d] & post & Heq & Hpre & Hx).
      rewrite (Hbad pre t d post Heq Hpre Hx) in Hr. cbn [snd] in Hr.
      rewrite schedule_calls_ready in Hr. discriminate.
    + intros Hok. now rewrite Hgood.
Qed.

Lemma C9_initialize_witness :
  ready (snd (initialize Examples.five_fields Examples.good_cron_registry state0)) = true /\
  fst (initialize Examples.five_fields Examples.cron_registry state0) =
    Executor.Thrown (Error "Invalid cron expression: every day for task broken") /\
  cronJobs (snd (initialize Examples.five_fields Examples.cron_registry state0)) =
    [{| jobTaskType := "daily"; jobExpression := "0 0 * * *"; running := true |};
     {| jobTaskType := "morning"; jobExpression := "0 6 * * *"; running := true |}] /\
  ready (snd (initialize Examples.five_fields Examples.cron_registry state0)) = false.
Proof.
  destruct (C9_initialize Examples.five_fields Examples.good_cron_registry)
    as (Hgood & _ & _).
  destruct (C9_initialize Examples.five_fields Examples.cron_registry)
    as (_ & Hbad & _).
  specialize (Hbad [("daily", Examples.cron_task "0 0 * * *");
                    ("morning", Examples.cron_task "0 6 * * *")]
                   "broken" (Examples.cron_task "every day")
                   [("often", Examples.cron_task "*/5 * * * *")]
                   eq_refl eq_refl eq_refl).
  cbv zeta in Hbad. destruct Hbad as (Hthrown & Hready & _).
  rewrite (Hgood eq_refl), Hthrown.
  split; [reflexivity|]. split; [reflexivity|]. split; [reflexivity|exact Hready].
Defined.

(** C9, as stated, fails where it says that the whole startup fails: with
    an invalid expression in the registry [initialize] fails, but
    [setupScheduler] returns all the same, and the scheduler it returns,
    not ready, runs the jobs installed so far, schedules a task and
    executes one. *)
Lemma C9_counterexample :
  fst (initialize Examples.five_fields Examples.cron_registry state0) =
    Executor.Thrown (Error "Invalid cron expression: every day for task broken") /\
  isReady (Api.setupScheduler Examples.five_fields Examples.cron_registry) = false /\
  cronJobs (Api.setupScheduler Examples.five_fields Examples.cron_registry) =
    [{| jobTaskType := "daily"; jobExpression := "0 0 * * *"; running := true |};
     {| jobTaskType := "morning"; jobExpression := "0 6 * * *"; running := true |}] /\
  fst (scheduleTask Examples.five_fields Examples.cron_registry "often" "*/5 * * * *"
         (Api.setupScheduler Examples.five_fields Examples.cron_registry)) =
    Executor.Returned true /\
  (exists envelope,
     fst (executeTask Examples.fixed_suffix Examples.cron_registry 1 "daily" ∅
            (Api.setupScheduler Examples.five_fields Examples.cron_registry)) =
     Executor.Returned envelope).
Proof.
  split; [reflexivity|]. split; [reflexivity|]. split; [reflexivity|].
  split; [reflexivity|]. eexists. reflexivity.
Qed.

(** C2, as the code has it.  For a task type for which the registry has
    no property, neither of its own nor inherited from [Object.prototype],
    [executeTask] fails with the unknown-type error, and it records the
    failure like any other: one entry is put at the end of the history
    array, with [success] false and the message of the error, and when
    the array then holds more than 1000 entries its first one is
    dropped. *)
Theorem C2_unknown_task_type random_suffix taskDefinitions fuel taskType
    parameters s :
  Executor.lookup_task taskDefinitions taskType = None ->
  ~ In taskType object_prototype_keys ->
  let now := Executor.clock (world s) in
  let failure :=
    {| History.executionId := "exec-" ++ pretty now ++ "-" ++ random_suffix (draws s);
       History.taskType := taskType;
       History.parameters := parameters;
       History.startTime := now;
       History.endTime := now;
       History.duration := 0;
       History.success := false;
       History.result := VNull;
       History.error := Some ("Unknown task type: " ++ taskType) |} in
  let entry :=
    {| History.record := failure;
       History.id := "history-" ++ pretty now ++ "-" ++ random_suffix (S (draws s));
       History.createdAt := now |} in
  let run := executeTask random_suffix taskDefinitions (S fuel) taskType parameters s in
  fst run = Executor.Thrown (Executor.UnknownTaskType taskType) /\
  taskHistoryArray (snd run) =
    (skipn (length (taskHistoryArray s) + 1 - History.capacity) (taskHistoryArray s)
     ++ [entry])%list.
Proof.
  intros Hl Hproto now failure entry run. subst run.
  unfold executeTask.
  cbn [world emit set_draws draws].
  rewrite (execute_unknown taskDefinitions fuel taskType parameters _ _
             (get_task_none _ _ Hl Hproto)).
  cbn [fst snd]. split; [reflexivity|].
  unfold save. cbn [world set_world emit set_draws draws taskHistoryArray Executor.clock].
  fold now. rewrite Z.sub_diag.
  rewrite saveTaskHistory_spec.
  cbn [taskHistoryArray emit set_draws set_history message Executor.UnknownTaskType].
  fold failure. fold entry.
  rewrite skipn_app.
  assert (Hcap : 1 <= History.capacity) by (unfold History.capacity; lia).
  replace (length (taskHistoryArray s) + 1 - History.capacity
           - length (taskHistoryArray s)) with 0 by lia.
  reflexivity.
Qed.

Lemma C2_unknown_task_type_witness :
  map (fun e => (History.taskType (History.record e),
                 History.success (History.record e),
                 History.error (History.record e)))
    (taskHistoryArray
       (snd (executeTask Examples.fixed_suffix Examples.flaky_registry 1
               "missing-type" ∅ state0))) =
  [("missing-type", false, Some "Unknown task type: missing-type")].
Proof.
  destruct (C2_unknown_task_type Examples.fixed_suffix Examples.flaky_registry 0
              "missing-type" ∅ state0 eq_refl) as [_ H].
  - cbn. intuition discriminate.
  - rewrite H. reflexivity.
Defined.

(** C2, as stated, fails: the call for a task type that the registry does
    not have leaves a record in a history that was empty. *)
Lemma C2_counterexample :
  Executor.lookup_task Examples.flaky_registry "missing-type" = None /\
  ~ In "missing-type" object_prototype_keys /\
  fst (executeTask Examples.fixed_suffix Examples.flaky_registry 1
         "missing-type" ∅ state0) =
    Executor.Thrown (Error "Unknown task type: missing-type") /\
  taskHistoryArray state0 = [] /\
  length (taskHistoryArray
            (snd (executeTask Examples.fixed_suffix Examples.flaky_registry 1
                    "missing-type" ∅ state0))) = 1.
Proof.
  split; [reflexivity|]. split; [cbn; intuition discriminate|].
  split; [reflexivity|]. split; reflexivity.
Qed.

End SchedulerClaims.

(* ===================================================================== *)
(** ** More on the execution engine *)
(* ===================================================================== *)

Section ExecutorMore.
Import Js Executor.

Lemma execute_attempt_no_retry reg fuel taskType def params id w :
  lookup_task reg taskType = Some def ->
  (forall e, retries def e = false) ->
  execute reg (S fuel) taskType params id w = attempt taskType def params id w.
Proof.
  intros Hl Hr. cbn [execute]. rewrite (get_task_own _ _ _ Hl).
  destruct (attempt taskType def params id w) as [[v|e| |] w']; try reflexivity.
  specialize (Hr e). unfold retries in Hr.
  destruct (retryPolicy def) as [policy|]; [|reflexivity].
  now rewrite Hr.
Qed.

(** X1. Retrying is switched off for a task that has no retry policy, or
    whose policy has no positive [maxRetries], or whose [retryableErrors]
    is the empty array: [execute] is then one attempt and its outcome,
    whatever the handler does. *)
Theorem X1_retries_disabled reg fuel taskType def params id w :
  lookup_task reg taskType = Some def ->
  (retryPolicy def = None \/
   exists policy,
     retryPolicy def = Some policy /\
     (maxRetries policy = None \/
      (exists n, maxRetries policy = Some n /\ (n <= 0)%Z) \/
      retryableErrors policy = Some [])) ->
  execute reg (S fuel) taskType params id w = attempt taskType def params id w.
Proof.
  intros Hl Hoff. apply execute_attempt_no_retry; [assumption|].
  intros e. unfold retries.
  destruct Hoff as [-> | (policy & -> & Hp)]; [reflexivity|].
  unfold shouldRetry.
  destruct Hp as [-> | [(n & -> & Hn) | Hempty]]; [reflexivity| |].
  - apply Z.leb_le in Hn. now rewrite Hn.
  - rewrite Hempty. destruct (maxRetries policy) as [n|]; [|reflexivity].
    now destruct (n <=? 0)%Z.
Qed.

Lemma X1_retries_disabled_witness :
  execute MoreExamples.disabled_registry 1 "flaky" ∅ "exec-1" world0 =
  (Thrown (Error "connection reset"),
   {| clock := 5; invocations := 1; trace := [Invoke "flaky" "exec-1" ∅] |}).
Proof.
  rewrite (X1_retries_disabled MoreExamples.disabled_registry 0 "flaky"
             MoreExamples.disabled_task ∅ "exec-1" world0 eq_refl).
  - reflexivity.
  - right. eexists. split; [reflexivity|]. right. right. reflexivity.
Defined.

(** X2. When the parameters pass validation and the handler settles before
    the timer of the deadline fires, with a value or with an error the
    policy does not retry, [execute] answers with that settlement after one
    invocation and no backoff.  The timer fires after the deadline when
    that lies between 1 and 2^31 - 1 ms, and after 1 ms otherwise.  The
    handler was given the explicit parameters laid over the defaults: a
    key of the call wins, a key only the defaults have is filled in. *)
Theorem X2_single_attempt reg fuel taskType def params id w t hs :
  lookup_task reg taskType = Some def ->
  validateParameters def params = None ->
  handler def (params ∪ defaultParameters def) id (invocations w) = Some (t, hs) ->
  let fires := if ((deadline def <? 1) || (2147483647 <? deadline def))%Z
               then 1%Z else deadline def in
  (t < fires)%Z ->
  (forall e, hs = Rejected e -> retries def e = false) ->
  execute reg (S fuel) taskType params id w =
    (settle hs,
     wait t (invoked (record_event
                        (Invoke taskType id (params ∪ defaultParameters def)) w))) /\
  forall k,
    (params ∪ defaultParameters def) !! k =
    match params !! k with
    | Some v => Some v
    | None => defaultParameters def !! k
    end.
Proof.
  intros Hl Hv Hh fires Ht Hr. split.
  - pose proof (attempt_in_time taskType def params id w t hs Hv Hh Ht) as Ha.
    destruct hs as [v|e]; cbn [settle] in *.
    + eapply execute_returned; eauto.
    + eapply execute_thrown_no_retry; eauto.
  - intros k. rewrite lookup_union.
    destruct (params !! k), (defaultParameters def !! k); reflexivity.
Qed.

Lemma X2_single_attempt_witness :
  fst (execute Examples.hanging_registry 1 "quick" ∅ "exec-1" world0) =
  Returned (VStr "done").
Proof.
  pose proof (X2_single_attempt Examples.hanging_registry 0 "quick"
                (Examples.task Examples.always_resolves None (Some 50%Z) None)
                ∅ "exec-1" world0 5%Z (Resolved (VStr "done"))
                eq_refl eq_refl eq_refl eq_refl) as [H _].
  - intros e He. discriminate.
  - rewrite H. reflexivity.
Defined.

(** X3. A first attempt that fails with a retryable error and a retry that
    succeeds, both before the timer of the deadline fires: [execute]
    returns the value of the retry, having slept once, for the first
    backoff delay as a timer takes it (1 ms when it is below 1 or above
    2^31 - 1), and having called the handler twice, the second time under
    the id [retry-1-<executionId>]. *)
Theorem X3_retry_then_success reg fuel taskType def policy params id w t1 e t2 v :
  lookup_task reg taskType = Some def ->
  validateParameters def params = None ->
  retryPolicy def = Some policy ->
  let merged := params ∪ defaultParameters def in
  let fires := if ((deadline def <? 1) || (2147483647 <? deadline def))%Z
               then 1%Z else deadline def in
  let delay := backoff_delay policy 1 in
  let slept := if ((delay <? 1) || (2147483647 <? delay))%Z then 1%Z else delay in
  handler def merged id (invocations w) = Some (t1, Rejected e) ->
  (t1 < fires)%Z ->
  shouldRetry policy e = true ->
  handler def merged (retryExecutionId 1 id) (S (invocations w)) =
    Some (t2, Resolved v) ->
  (t2 < fires)%Z ->
  execute reg (S (S (S fuel))) taskType params id w =
  (Returned v,
   {| clock := (clock w + Z.max 0 t1 + slept + Z.max 0 t2)%Z;
      invocations := S (S (invocations w));
      trace := (trace w ++ [Invoke taskType id merged;
                            Sleep (backoff_delay policy 1);
                            Invoke taskType (retryExecutionId 1 id) merged])%list |}).
Proof.
  intros Hl Hv Hp merged fires delay slept H1 Ht1 Hr H2 Ht2.
  change fires with (setTimeout_delay (deadline def)) in Ht1, Ht2.
  change slept with (setTimeout_delay (backoff_delay policy 1)).
  subst delay. clear fires slept.
  destruct (shouldRetry_positive policy e Hr) as (n & Hn & Hpos).
  pose proof (attempt_in_time taskType def params id w t1 (Rejected e) Hv H1 Ht1)
    as Ha.
  cbn [settle] in Ha.
  rewrite (execute_thrown_retry reg (S (S fuel)) taskType def policy n params id w
             e _ Hl Ha Hp Hr Hn).
  assert (Hgt : (n <=? 0)%Z = false) by (apply Z.leb_gt; lia).
  cbn [retryExecution attemptsRemaining retryCount originalExecutionId].
  rewrite Hgt, (get_task_own _ _ _ Hl), Hp.
  change (0 + 1)%Z with 1%Z.
  set (w1 := wait (setTimeout_delay (backoff_delay policy 1)) (record_event _ _)).
  pose proof (attempt_in_time taskType def params (retryExecutionId 1 id) w1 t2
                (Resolved v) Hv H2 Ht2) as Hb.
  cbn [settle] in Hb.
  rewrite (execute_returned reg fuel taskType def params _ w1 v _ Hl Hb).
  pose proof (setTimeout_delay_positive (backoff_delay policy 1)) as Hd.
  f_equal. subst w1. unfold wait, invoked, record_event. cbn.
  rewrite (Z.max_r 0 (setTimeout_delay (backoff_delay policy 1))) by lia.
  f_equal. rewrite <- !app_assoc. reflexivity.
Qed.

Lemma X3_retry_then_success_witness :
  fst (execute MoreExamples.recovering_registry 3 "sync" ∅ "exec-1" world0) =
  Returned (VStr "synced").
Proof.
  rewrite (X3_retry_then_success MoreExamples.recovering_registry 0 "sync"
             MoreExamples.recovering_task Examples.three_retries_on_connection
             ∅ "exec-1" world0 5%Z (Error "connection lost") 7%Z (VStr "synced")
             eq_refl eq_refl eq_refl eq_refl eq_refl eq_refl eq_refl eq_refl).
  reflexivity.
Defined.



End ExecutorMore.

(* ===================================================================== *)
(** ** More on the scheduler controller *)
(* ===================================================================== *)

Section SchedulerMore.
Import Js.
Import Scheduler.

Lemma consistent_frame s s' :
  scheduledJobs s' = scheduledJobs s -> cronJobs s' = cronJobs s ->
  consistent s -> consistent s'.
Proof. unfold consistent. intros -> ->. trivial. Qed.

Lemma live_frame taskType s s' :
  cronJobs s' = cronJobs s -> live taskType s' = live taskType s.
Proof. unfold live. now intros ->. Qed.

(** [executeTask] touches the world, the random draws, the history and
    the emitted events, and nothing else. *)
Lemma executeTask_frame random_suffix taskDefinitions fuel taskType parameters s :
  let s' := snd (executeTask random_suffix taskDefinitions fuel taskType parameters s) in
  scheduledJobs s' = scheduledJobs s /\ cronJobs s' = cronJobs s /\
  ready s' = ready s.
Proof.
  unfold executeTask.
  destruct (Executor.execute _ _ _ _ _ _) as [[v|e| |] w]; cbn; auto.
Qed.

Lemma executeTask_history_bounded random_suffix taskDefinitions fuel taskType
    parameters s :
  length (taskHistoryArray s) <= History.capacity ->
  length (taskHistoryArray
            (snd (executeTask random_suffix taskDefinitions fuel taskType parameters s)))
  <= History.capacity.
Proof.
  intros H. unfold executeTask.
  destruct (Executor.execute _ _ _ _ _ _) as [[v|e| |] w];
    cbn [snd emit taskHistoryArray set_world]; try exact H;
    unfold save;
    match goal with |- context [History.saveTaskHistory ?a ?b ?c ?d] =>
      pose proof (saveTaskHistory_bounded a b c d) as Hb;
      destruct (History.saveTaskHistory a b c d) as [x h] end;
    cbn in *; auto.
Qed.

(** X5. When [execute] returns a value, [executeTask] returns the success
    envelope, with [duration = endTime - startTime], after appending one
    entry to the history that says so (the result replaced by [{}] when it
    is falsy) and emitting [taskStart] and then [taskSuccess]. *)
Theorem X5_executeTask_success random_suffix taskDefinitions fuel taskType
    parameters s v w' :
  let executionId :=
    "exec-" ++ pretty (Executor.clock (world s)) ++ "-" ++ random_suffix (draws s) in
  let startTime := Executor.clock (world s) in
  let endTime := Executor.clock w' in
  let entry :=
    {| History.record :=
         {| History.executionId := executionId;
            History.taskType := taskType;
            History.parameters := parameters;
            History.startTime := startTime;
            History.endTime := endTime;
            History.duration := endTime - startTime;
            History.success := true;
            History.result := if truthy v then v else VObj "{}";
            History.error := None |};
       History.id := "history-" ++ pretty endTime ++ "-" ++ random_suffix (S (draws s));
       History.createdAt := endTime |} in
  Executor.execute taskDefinitions fuel taskType parameters executionId (world s)
    = (Executor.Returned v, w') ->
  let run := executeTask random_suffix taskDefinitions fuel taskType parameters s in
  fst run =
    Executor.Returned
      {| envExecutionId := executionId; envSuccess := true;
         envStartTime := startTime; envEndTime := endTime;
         envDuration := endTime - startTime; envResult := v |} /\
  taskHistoryArray (snd run) =
    (skipn (length (taskHistoryArray s) + 1 - History.capacity) (taskHistoryArray s)
     ++ [entry])%list /\
  emitted (snd run) =
    (emitted s ++ [taskStart taskType executionId;
                   taskSuccess taskType executionId])%list /\
  world (snd run) = w'.
Proof.
  intros executionId startTime endTime entry Hrun run. subst run.
  unfold executeTask. cbn [world emit set_draws draws].
  fold executionId. rewrite Hrun. cbn [fst snd].
  split; [reflexivity|].
  unfold save. cbn [world set_world emit set_draws draws taskHistoryArray].
  rewrite saveTaskHistory_spec.
  cbn [taskHistoryArray emit set_draws set_history emitted world].
  fold startTime endTime. fold entry.
  assert (Hcap : 1 <= History.capacity) by (unfold History.capacity; lia).
  rewrite skipn_app.
  replace (length (taskHistoryArray s) + 1 - History.capacity
           - length (taskHistoryArray s)) with 0 by lia.
  split; [reflexivity|]. split; [|reflexivity].
  cbn [emitted set_world emit set_draws]. now rewrite <- app_assoc.
Qed.

Lemma X5_executeTask_success_witness :
  map (fun e => (History.executionId (History.record e),
                 History.success (History.record e),
                 History.duration (History.record e),
                 History.result (History.record e)))
    (taskHistoryArray
       (snd (executeTask Examples.fixed_suffix Examples.hanging_registry 1
               "quick" ∅ state0))) =
  [("exec-0-k3j9x2a", true, 5%Z, VStr "done")].
Proof.
  destruct (X5_executeTask_success Examples.fixed_suffix Examples.hanging_registry 1
              "quick" ∅ state0 (VStr "done")
              {| Executor.clock := 5; Executor.invocations := 1;
                 Executor.trace := [Executor.Invoke "quick" "exec-0-k3j9x2a" ∅] |}
              eq_refl) as (_ & H & _).
  rewrite H. reflexivity.
Defined.

(** X6. When [execute] throws, whatever the error, [executeTask] throws
    the same error after appending one entry to the history with
    [success] false, a null result and the message of the error, and
    emitting [taskStart] and then [taskFailure]. *)
Theorem X6_executeTask_failure random_suffix taskDefinitions fuel taskType
    parameters s e w' :
  let executionId :=
    "exec-" ++ pretty (Executor.clock (world s)) ++ "-" ++ random_suffix (draws s) in
  let startTime := Executor.clock (world s) in
  let endTime := Executor.clock w' in
  let entry :=
    {| History.record :=
         {| History.executionId := executionId;
            History.taskType := taskType;
            History.parameters := parameters;
            History.startTime := startTime;
            History.endTime := endTime;
            History.duration := endTime - startTime;
            History.success := false;
            History.result := VNull;
            History.error := Some (message e) |};
       History.id := "history-" ++ pretty endTime ++ "-" ++ random_suffix (S (draws s));
       History.createdAt := endTime |} in
  Executor.execute taskDefinitions fuel taskType parameters executionId (world s)
    = (Executor.Thrown e, w') ->
  let run := executeTask random_suffix taskDefinitions fuel taskType parameters s in
  fst run = Executor.Thrown e /\
  taskHistoryArray (snd run) =
    (skipn (length (taskHistoryArray s) + 1 - History.capacity) (taskHistoryArray s)
     ++ [entry])%list /\
  emitted (snd run) =
    (emitted s ++ [taskStart taskType executionId;
                   taskFailure taskType executionId (message e)])%list /\
  world (snd run) = w'.
Proof.
  intros executionId startTime endTime entry Hrun run. subst run.
  unfold executeTask. cbn [world emit set_draws draws].
  fold executionId. rewrite Hrun. cbn [fst snd].
  split; [reflexivity|].
  unfold save. cbn [world set_world emit set_draws draws taskHistoryArray].
  rewrite saveTaskHistory_spec.
  cbn [taskHistoryArray emit set_draws set_history emitted world].
  fold startTime endTime. fold entry.
  assert (Hcap : 1 <= History.capacity) by (unfold History.capacity; lia).
  rewrite skipn_app.
  replace (length (taskHistoryArray s) + 1 - History.capacity
           - length (taskHistoryArray s)) with 0 by lia.
  split; [reflexivity|]. split; [|reflexivity].
  cbn [emitted set_world emit set_draws]. now rewrite <- app_assoc.
Qed.

Lemma X6_executeTask_failure_witness :
  map (fun e => (History.success (History.record e),
                 History.duration (History.record e),
                 History.error (History.record e)))
    (taskHistoryArray
       (snd (executeTask Examples.fixed_suffix Examples.hanging_registry 1
               "slow" ∅ state0))) =
  [(false, 50%Z, Some "Task slow timed out after 50ms")].
Proof.
  destruct (X6_executeTask_failure Examples.fixed_suffix Examples.hanging_registry 1
              "slow" ∅ state0 (Error "Task slow timed out after 50ms")
              {| Executor.clock := 50; Executor.invocations := 1;
                 Executor.trace := [Executor.Invoke "slow" "exec-0-k3j9x2a" ∅] |}
              eq_refl) as (_ & H & _).
  rewrite H. reflexivity.
Defined.

(** X7. A cron tick never changes the schedule: whether the task returns,
    throws or is not even registered any more, the schedule table, the
    jobs and the readiness flag are after the tick what they were before,
    so the job that ticked is still the live job of its type. *)
Theorem X7_tick_keeps_schedule random_suffix taskDefinitions fuel i s :
  let s' := tick random_suffix taskDefinitions fuel i s in
  scheduledJobs s' = scheduledJobs s /\
  cronJobs s' = cronJobs s /\
  ready s' = ready s /\
  forall taskType, live taskType s' = live taskType s.
Proof.
  intros s'.
  assert (H : scheduledJobs s' = scheduledJobs s /\ cronJobs s' = cronJobs s /\
              ready s' = ready s).
  { subst s'. unfold tick. destruct (cronJobs s !! i) as [job|]; [|auto].
    destruct (running job); [|auto]. apply executeTask_frame. }
  destruct H as (H1 & H2 & H3). repeat split; try assumption.
  intros taskType. now apply live_frame.
Qed.

Lemma shutdown_consistent s : consistent (shutdown s).
Proof.
  unfold shutdown. split; cbn [cronJobs scheduledJobs set_ready set_jobs].
  - intros i job Hi Hr. rewrite list_lookup_fmap in Hi.
    destruct (cronJobs s !! i); cbn in Hi; [|discriminate].
    injection Hi as <-. discriminate.
  - intros t i Hi. rewrite lookup_empty in Hi. discriminate.
Qed.

(** X8. [shutdown] stops every job, empties the schedule table and clears
    the readiness flag: no task type has a live job afterwards, every tick
    is without effect, the history is kept, and shutting down again
    changes nothing. *)
Theorem X8_shutdown random_suffix taskDefinitions s :
  let s' := shutdown s in
  scheduledJobs s' = ∅ /\
  isReady s' = false /\
  (forall taskType, live taskType s' = []) /\
  (forall fuel i, tick random_suffix taskDefinitions fuel i s' = s') /\
  taskHistoryArray s' = taskHistoryArray s /\
  consistent s' /\
  shutdown s' = s'.
Proof.
  intros s'. subst s'. unfold shutdown.
  split; [reflexivity|]. split; [reflexivity|]. split; [|split; [|split; [|split]]].
  - intros taskType. unfold live. cbn [cronJobs set_ready set_jobs].
    apply filter_none. intros x Hx. apply in_map_iff in Hx as (y & <- & _).
    reflexivity.
  - intros fuel i. unfold tick. cbn [cronJobs set_ready set_jobs].
    rewrite list_lookup_fmap. destruct (cronJobs s !! i); reflexivity.
  - reflexivity.
  - apply shutdown_consistent.
  - unfold set_ready, set_jobs. cbn. f_equal.
    rewrite <- list_fmap_compose. apply list_fmap_ext. intros ? ? _. reflexivity.
Qed.

Lemma schedule_all_consistent cron_validate taskDefinitions entries s :
  consistent s ->
  consistent (snd (schedule_all cron_validate taskDefinitions entries s)).
Proof.
  revert s. induction entries as [|[t d] entries IH]; intros s Hs; [assumption|].
  cbn [schedule_all].
  destruct (truthy_string (Executor.cronSchedule d)); [|now apply IH].
  pose proof (scheduleTask_consistent cron_validate taskDefinitions t
                (default "" (Executor.cronSchedule d)) s Hs) as Hc.
  destruct (scheduleTask cron_validate taskDefinitions t _ s) as [[b|e| |] s'];
    cbn [snd] in *; try assumption.
  now apply IH.
Qed.

Lemma schedule_all_history cron_validate taskDefinitions entries s :
  taskHistoryArray (snd (schedule_all cron_validate taskDefinitions entries s))
  = taskHistoryArray s.
Proof.
  revert s. induction entries as [|[t d] entries IH]; intros s; [reflexivity|].
  cbn [schedule_all].
  destruct (truthy_string (Executor.cronSchedule d)); [|apply IH].
  assert (Hh : taskHistoryArray
                 (snd (scheduleTask cron_validate taskDefinitions t
                         (default "" (Executor.cronSchedule d)) s))
               = taskHistoryArray s).
  { unfold scheduleTask.
    destruct (Executor.has_task taskDefinitions t); [|reflexivity].
    destruct (cron_validate _); reflexivity. }
  destruct (scheduleTask cron_validate taskDefinitions t _ s) as [[b|e| |] s'];
    cbn [snd] in *; try assumption.
  now rewrite IH.
Qed.

(** X9. Whatever is done to a scheduler after [setupScheduler] (calls of
    [scheduleTask], [executeTask], [getHistory] and [shutdown], and ticks
    of its jobs, in any order and with any arguments), the schedule table
    and the jobs agree, no task type has more than one running job, and
    the history holds at most 1000 entries. *)
Theorem X9_api_invariant cron_validate random_suffix taskDefinitions steps :
  let s :=
    Api.perform_all cron_validate random_suffix taskDefinitions steps
      (Api.setupScheduler cron_validate taskDefinitions) in
  consistent s /\
  (forall taskType, length (live taskType s) <= 1) /\
  length (taskHistoryArray s) <= History.capacity.
Proof.
  intros s.
  assert (H : consistent s /\ length (taskHistoryArray s) <= History.capacity).
  { subst s. unfold Api.perform_all.
    assert (H0 : consistent (Api.setupScheduler cron_validate taskDefinitions) /\
                 length (taskHistoryArray
                           (Api.setupScheduler cron_validate taskDefinitions))
                 <= History.capacity).
    { unfold Api.setupScheduler, initialize.
      pose proof (schedule_all_consistent cron_validate taskDefinitions
                    taskDefinitions state0 state0_consistent) as Hc.
      pose proof (schedule_all_history cron_validate taskDefinitions
                    taskDefinitions state0) as Hh.
      destruct (schedule_all cron_validate taskDefinitions taskDefinitions state0)
        as [[u|e| |] s0]; cbn [snd] in *;
        (split; [exact Hc | cbn [taskHistoryArray set_ready]; rewrite Hh; cbn; lia]). }
    revert H0. generalize (Api.setupScheduler cron_validate taskDefinitions).
    induction steps as [|c steps IH]; intros s0 [Hc Hh]; [auto|].
    cbn [foldl]. apply IH. destruct c as [t c|fuel t p|t o| |fuel i]; cbn [Api.perform].
    - split; [now apply scheduleTask_consistent|].
      destruct (scheduleTask_cases cron_validate taskDefinitions t c s0)
        as [-> | [Hd Hv]]; [assumption|].
      now rewrite (scheduleTask_valid _ _ _ _ _ Hd Hv).
    - destruct (executeTask_frame random_suffix taskDefinitions fuel t p s0)
        as (H1 & H2 & _).
      split; [now apply (consistent_frame s0)|].
      now apply executeTask_history_bounded.
    - unfold Api.getHistory.
      destruct (History.getTaskHistory t o (taskHistoryArray s0)) as [answer h] eqn:E.
      cbn [snd]. split; [now apply (consistent_frame s0)|].
      cbn [taskHistoryArray set_history].
      assert (Hhh : h = snd (History.getTaskHistory t o (taskHistoryArray s0)))
        by now rewrite E.
      rewrite Hhh. unfold History.getTaskHistory. cbn [snd].
      destruct (truthy_string t) eqn:Et; [assumption|].
      rewrite (Permutation_length (sort_perm _ _)).
      unfold History.filteredHistory. destruct t as [t|]; [|assumption].
      cbn in Et. apply negb_false_iff in Et. now rewrite Et.
    - split; [apply shutdown_consistent|assumption].
    - unfold tick. destruct (cronJobs s0 !! i) as [job|]; [|auto].
      destruct (running job); [|auto].
      destruct (executeTask_frame random_suffix taskDefinitions fuel
                  (jobTaskType job) ∅ s0) as (H1 & H2 & _).
      split; [now apply (consistent_frame s0)|].
      now apply executeTask_history_bounded. }
  destruct H as [Hc Hh]. split; [assumption|]. split; [|assumption].
  intros taskType. now apply live_at_most_one.
Qed.

End SchedulerMore.

Section ScheduleMore.
Import Js.
Import Scheduler.

Lemma filter_alter_same {A} (P : A -> bool) (f : A -> A) (l : list A) i :
  (forall x, l !! i = Some x -> P x = false /\ P (f x) = false) ->
  List.filter P (alter f i l) = List.filter P l.
Proof.
  revert i. induction l as [|a l IH]; intros i H; [reflexivity|].
  destruct i as [|i]; cbn.
  - destruct (H a eq_refl) as [-> ->]. reflexivity.
  - rewrite IH; [reflexivity|]. intros x Hx. now apply (H x).
Qed.

(** After a successful [scheduleTask] the new job is the only running job
    of its type, whether the type had an entry or not. *)
Lemma scheduleTask_live_new cron_validate taskDefinitions taskType cronExpression s :
  consistent s ->
  Executor.has_task taskDefinitions taskType = true ->
  cron_validate cronExpression = true ->
  live taskType
    (snd (scheduleTask cron_validate taskDefinitions taskType cronExpression s))
  = [Api.job_of taskType cronExpression].
Proof.
  intros Hc Hd Hv. rewrite (scheduleTask_valid _ _ _ _ _ Hd Hv). cbn [snd].
  unfold live. cbn [cronJobs set_jobs]. rewrite List.filter_app, filter_none.
  - cbn. now rewrite String.eqb_refl.
  - intros x Hx. apply list_elem_of_In, list_elem_of_lookup in Hx as [i Hi].
    destruct (running x) eqn:Ex; [|reflexivity].
    destruct (stop_previous_running taskType s i x Hc Hi Ex) as [_ Hne].
    apply String.eqb_neq in Hne. now rewrite Hne.
Qed.

(** A call of [scheduleTask] leaves the running jobs of every other task
    type as they were. *)
Lemma scheduleTask_live_other cron_validate taskDefinitions taskType cronExpression
    other s :
  consistent s -> other <> taskType ->
  live other
    (snd (scheduleTask cron_validate taskDefinitions taskType cronExpression s))
  = live other s.
Proof.
  intros Hc Hne.
  destruct (scheduleTask_cases cron_validate taskDefinitions taskType cronExpression s)
    as [-> | [Hd Hv]]; [reflexivity|].
  rewrite (scheduleTask_valid _ _ _ _ _ Hd Hv). cbn [snd].
  unfold live. cbn [cronJobs set_jobs]. rewrite List.filter_app.
  cbn [List.filter running jobTaskType].
  assert (E : String.eqb taskType other = false)
    by (apply String.eqb_neq; congruence).
  rewrite E. cbn. rewrite app_nil_r.
  unfold stop_previous.
  destruct (scheduledJobs s !! taskType) as [previous|] eqn:Ep; [|reflexivity].
  apply filter_alter_same. intros x Hx.
  destruct (proj2 Hc taskType previous Ep) as (job & Hj & Ht & _).
  assert (x = job) by congruence. subst x.
  cbn. rewrite Ht, E. split; [apply andb_false_r|reflexivity].
Qed.

Lemma schedule_calls_app cron_validate taskDefinitions calls1 calls2 s :
  schedule_calls cron_validate taskDefinitions (calls1 ++ calls2)%list s =
  schedule_calls cron_validate taskDefinitions calls2
    (schedule_calls cron_validate taskDefinitions calls1 s).
Proof. unfold schedule_calls. apply foldl_app. Qed.

Lemma schedule_calls_live_other cron_validate taskDefinitions calls other s :
  consistent s ->
  (forall call, In call calls -> call.1 <> other) ->
  live other (schedule_calls cron_validate taskDefinitions calls s) = live other s.
Proof.
  revert s. induction calls as [|[t c] calls IH]; intros s Hc Hno; [reflexivity|].
  cbn [schedule_calls foldl]. unfold schedule_calls in IH. rewrite IH.
  - apply scheduleTask_live_other; [assumption|].
    intros ->. now apply (Hno (t, c)); [left|].
  - now apply scheduleTask_consistent.
  - intros call Hin. apply Hno. now right.
Qed.

Lemma last_call_live cron_validate taskDefinitions before after
    taskType cronExpression s :
  consistent s ->
  Executor.has_task taskDefinitions taskType = true ->
  cron_validate cronExpression = true ->
  (forall call, In call after -> call.1 <> taskType) ->
  live taskType
    (schedule_calls cron_validate taskDefinitions
       (before ++ (taskType, cronExpression) :: after)%list s)
  = [Api.job_of taskType cronExpression].
Proof.
  intros Hc Hd Hv Hafter.
  rewrite schedule_calls_app.
  change ((taskType, cronExpression) :: after)
    with ([(taskType, cronExpression)] ++ after)%list.
  rewrite schedule_calls_app.
  assert (Hc1 : consistent (schedule_calls cron_validate taskDefinitions before s))
    by now apply schedule_calls_consistent.
  rewrite schedule_calls_live_other; [|now apply schedule_calls_consistent|assumption].
  cbn [schedule_calls foldl fst snd].
  now apply scheduleTask_live_new.
Qed.

(** X10. In a sequence of [scheduleTask] calls the last successful call
    for a task type decides: when no later call names the type, its only
    running job is the job of that call, with that call's expression.
    Calls for other types, and calls that fail, do not disturb it. *)
Theorem X10_last_call_wins cron_validate taskDefinitions before after
    taskType cronExpression s :
  consistent s ->
  is_Some (Executor.lookup_task taskDefinitions taskType) ->
  cron_validate cronExpression = true ->
  (forall call, In call after -> call.1 <> taskType) ->
  live taskType
    (schedule_calls cron_validate taskDefinitions
       (before ++ (taskType, cronExpression) :: after)%list s)
  = [Api.job_of taskType cronExpression].
Proof. intros Hc Hd Hv Hafter. apply last_call_live; auto using has_task_own. Qed.

Lemma X10_last_call_wins_witness :
  live "daily"
    (schedule_calls Examples.five_fields Examples.cron_registry
       [("daily", "0 0 * * *"); ("daily", "0 6 * * *");
        ("morning", "*/5 * * * *"); ("ghost", "0 0 * * *")] state0)
  = [Api.job_of "daily" "0 6 * * *"].
Proof.
  apply (X10_last_call_wins Examples.five_fields Examples.cron_registry
           [("daily", "0 0 * * *")]
           [("morning", "*/5 * * * *"); ("ghost", "0 0 * * *")]
           "daily" "0 6 * * *" state0 state0_consistent
           (ex_intro _ _ eq_refl) eq_refl).
  intros call [<- | [<- | []]]; discriminate.
Defined.

Lemma cron_entries_app (entries1 entries2 : Executor.registry) :
  cron_entries (entries1 ++ entries2)%list =
  (cron_entries entries1 ++ cron_entries entries2)%list.
Proof. unfold cron_entries. apply flat_map_app. Qed.

Lemma cron_entries_keys entries call :
  In call (cron_entries entries) -> In call.1 (map fst entries).
Proof.
  unfold cron_entries. rewrite in_flat_map. intros ([t d] & Hin & Hcall).
  cbn [fst snd] in Hcall.
  destruct (truthy_string (Executor.cronSchedule d)); [|destruct Hcall].
  destruct Hcall as [<- | []]. cbn. apply in_map_iff. exists (t, d). auto.
Qed.

(** X11. When [initialize] succeeds on a registry (whose task types are
    distinct, as the keys of an object are), every task that carries a
    [cronSchedule] has exactly one running job, with that expression, and
    a task that carries none has no running job. *)
Theorem X11_initialize_installs cron_validate taskDefinitions taskType definition :
  List.NoDup (map fst taskDefinitions) ->
  forallb (schedulable cron_validate) taskDefinitions = true ->
  In (taskType, definition) taskDefinitions ->
  live taskType (snd (initialize cron_validate taskDefinitions state0)) =
  if truthy_string (Executor.cronSchedule definition)
  then [Api.job_of taskType (default "" (Executor.cronSchedule definition))]
  else [].
Proof.
  intros Hnd Hok Hin.
  assert (Hreg : forall e, In e taskDefinitions ->
                 is_Some (Executor.lookup_task taskDefinitions e.1)).
  { intros [t d] He. now apply lookup_task_in with d. }
  unfold initialize. rewrite schedule_all_valid by assumption. cbn [snd].
  rewrite (live_frame taskType
             (schedule_calls cron_validate taskDefinitions
                (cron_entries taskDefinitions) state0)
             (set_ready true _)) by reflexivity.
  destruct (in_split _ _ Hin) as (pre & post & Heq).
  rewrite Heq in Hnd. rewrite map_app in Hnd. cbn [map fst] in Hnd.
  apply NoDup_remove_2 in Hnd.
  assert (Hpre : forall call, In call (cron_entries pre) -> call.1 <> taskType).
  { intros call Hc Heq'. apply Hnd, in_or_app. left. rewrite <- Heq'.
    now apply cron_entries_keys. }
  assert (Hpost : forall call, In call (cron_entries post) -> call.1 <> taskType).
  { intros call Hc Heq'. apply Hnd, in_or_app. right. rewrite <- Heq'.
    now apply cron_entries_keys. }
  rewrite Heq at 2.
  change ((taskType, definition) :: post) with ([(taskType, definition)] ++ post)%list.
  rewrite !cron_entries_app.
  destruct (truthy_string (Executor.cronSchedule definition)) eqn:Et.
  - assert (Hone : cron_entries [(taskType, definition)] =
                   [(taskType, default "" (Executor.cronSchedule definition))]).
    { unfold cron_entries. cbn. now rewrite Et. }
    rewrite Hone. cbn [app].
    apply last_call_live; auto using state0_consistent.
    apply has_task_own, (Hreg (taskType, definition) Hin).
    rewrite forallb_forall in Hok. specialize (Hok _ Hin).
    unfold schedulable in Hok. cbn [snd] in Hok. now rewrite Et in Hok.
  - assert (Hone : cron_entries [(taskType, definition)] = []).
    { unfold cron_entries. cbn. now rewrite Et. }
    rewrite Hone. cbn [app]. rewrite <- cron_entries_app.
    rewrite schedule_calls_live_other; [reflexivity|apply state0_consistent|].
    intros call Hc. rewrite cron_entries_app in Hc.
    apply in_app_or in Hc as [Hc|Hc]; auto.
Qed.

Lemma X11_initialize_installs_witness :
  live "morning"
    (snd (initialize Examples.five_fields Examples.good_cron_registry state0)) =
  [Api.job_of "morning" "0 6 * * *"] /\
  live "manual"
    (snd (initialize Examples.five_fields Examples.good_cron_registry state0)) = [].
Proof.
  assert (Hnd : List.NoDup (map fst Examples.good_cron_registry)).
  { repeat constructor; cbn; intuition discriminate. }
  split.
  - apply (X11_initialize_installs Examples.five_fields Examples.good_cron_registry
             "morning" (Examples.cron_task "0 6 * * *") Hnd eq_refl).
    cbn. tauto.
  - apply (X11_initialize_installs Examples.five_fields Examples.good_cron_registry
             "manual" (Examples.task Examples.always_resolves None None None)
             Hnd eq_refl).
    cbn. tauto.
Defined.

End ScheduleMore.

(* ===================================================================== *)
(** ** More on the history store *)
(* ===================================================================== *)

Section HistoryMore.
Import Js.

Lemma save_all_snoc saves save h :
  Api.save_all (saves ++ [save])%list h =
  snd (History.saveTaskHistory save.1.1 save.1.2 save.2 (Api.save_all saves h)).
Proof. unfold Api.save_all. now rewrite foldl_app. Qed.

(** X12. A store that is only appended to is a FIFO of capacity 1000:
    after any run of [saveTaskHistory] calls on an empty store it holds
    the entries of the last 1000 calls (of all of them when there were
    fewer), in the order of the calls. *)
Theorem X12_append_only_fifo saves :
  Api.save_all saves [] =
  skipn (length saves - History.capacity) (map Api.entry_of saves).
Proof.
  induction saves as [|save saves IH] using rev_ind; [reflexivity|].
  rewrite save_all_snoc, saveTaskHistory_spec, IH. cbn [snd].
  change {| History.record := save.2;
            History.id := "history-" ++ pretty save.1.1 ++ "-" ++ save.1.2;
            History.createdAt := save.1.1 |} with (Api.entry_of save).
  rewrite map_app. cbn [map].
  assert (Hlen : length (map Api.entry_of saves) = length saves)
    by apply length_map.
  rewrite length_skipn, Hlen, length_app. cbn [length].
  assert (Hcap : 1 <= History.capacity) by (unfold History.capacity; lia).
  replace (skipn (length saves - History.capacity) (map Api.entry_of saves)
           ++ [Api.entry_of save])%list
    with (skipn (length saves - History.capacity)
            (map Api.entry_of saves ++ [Api.entry_of save])).
  - rewrite skipn_skipn. f_equal. lia.
  - rewrite skipn_app. f_equal.
    replace (length saves - History.capacity - length (map Api.entry_of saves))
      with 0 by lia.
    reflexivity.
Qed.

(** X13. A read never adds or drops an entry: whatever the query,
    [taskHistoryArray] holds after [getTaskHistory] the entries it held
    before, possibly in another order. *)
Theorem X13_read_keeps_entries taskType options store :
  Permutation (snd (History.getTaskHistory taskType options store)) store.
Proof.
  unfold History.getTaskHistory. cbn [snd].
  destruct (truthy_string taskType) eqn:Et; [reflexivity|].
  assert (Hf : History.filteredHistory taskType store = store).
  { unfold History.filteredHistory. destruct taskType as [t|]; [|reflexivity].
    cbn in Et. apply negb_false_iff in Et. now rewrite Et. }
  rewrite Hf. apply sort_perm.
Qed.

Lemma firstn_plus {A} (a b : nat) (l : list A) :
  firstn (a + b) l = (firstn a l ++ firstn b (skipn a l))%list.
Proof.
  revert l. induction a as [|a IH]; intros l; [reflexivity|].
  destruct l as [|x l]; cbn.
  - now rewrite firstn_nil.
  - now rewrite IH.
Qed.

Lemma page_spec taskType store offset limit sortBy sortOrder :
  (0 <= offset)%Z -> (0 <= limit)%Z ->
  History.history
    (fst (History.getTaskHistory taskType
            (Api.page_options offset limit sortBy sortOrder) store)) =
  firstn (Z.to_nat limit)
    (skipn (Z.to_nat offset)
       (sort (History.comparefn (default History.startTimeKey sortBy)
                (default "desc" sortOrder))
          (History.filteredHistory taskType store))).
Proof.
  intros Ho Hl. unfold History.getTaskHistory, Api.page_options.
  cbn [fst History.history History.limit History.offset History.sortBy
       History.sortOrder default from_option id].
  now apply slice_page.
Qed.

(** X14. Pages fit together: on the same store and with the same filter
    and sort, the page of [a] entries at [offset] followed by the page of
    [b] entries at [offset + a] is the page of [a + b] entries at
    [offset]; paging with a growing offset neither skips nor repeats an
    entry. *)
Theorem X14_pages_compose taskType store offset a b sortBy sortOrder :
  (0 <= offset)%Z -> (0 <= a)%Z -> (0 <= b)%Z ->
  let page o l :=
    History.history
      (fst (History.getTaskHistory taskType
              (Api.page_options o l sortBy sortOrder) store)) in
  (page offset a ++ page (offset + a)%Z b)%list = page offset (a + b)%Z.
Proof.
  intros Ho Ha Hb page. subst page. cbv beta.
  rewrite !page_spec by lia.
  replace (Z.to_nat (a + b)) with (Z.to_nat a + Z.to_nat b) by lia.
  rewrite firstn_plus, skipn_skipn.
  replace (Z.to_nat (offset + a)) with (Z.to_nat a + Z.to_nat offset) by lia.
  reflexivity.
Qed.

Lemma X14_pages_compose_witness :
  Examples.start_times
    (History.history
       (fst (History.getTaskHistory None (Api.page_options 1 2 None None)
               (Examples.saved_in_order 6))) ++
     History.history
       (fst (History.getTaskHistory None (Api.page_options 3 2 None None)
               (Examples.saved_in_order 6)))) = [4%Z; 3%Z; 2%Z; 1%Z].
Proof.
  pose proof (X14_pages_compose None (Examples.saved_in_order 6) 1 2 2 None None
                ltac:(lia) ltac:(lia) ltac:(lia)) as H.
  cbv zeta beta in H. change (1 + 2)%Z with 3%Z in H. rewrite H. reflexivity.
Defined.

(** X15. The size of a page: with a non-negative [limit] and [offset] a
    query returns [min limit (max 0 (total - offset))] entries.  So a page
    that reports [hasMore] is full, a page that does not holds everything
    from [offset] on, and an [offset] at or past [total] gives an empty
    page. *)
Theorem X15_page_size taskType options store :
  let limit := default 10%Z (History.limit options) in
  let offset := default 0%Z (History.offset options) in
  let answer := fst (History.getTaskHistory taskType options store) in
  let total := History.total (History.pagination answer) in
  (0 <= limit)%Z -> (0 <= offset)%Z ->
  Z.of_nat (length (History.history answer)) =
    Z.min limit (Z.max 0 (total - offset)) /\
  (History.hasMore (History.pagination answer) = true ->
   Z.of_nat (length (History.history answer)) = limit) /\
  (History.hasMore (History.pagination answer) = false ->
   Z.of_nat (length (History.history answer)) = Z.max 0 (total - offset)) /\
  ((total <= offset)%Z -> History.history answer = []).
Proof.
  intros limit offset answer total Hl Ho.
  subst answer total. unfold History.getTaskHistory.
  fold limit offset.
  cbn [fst History.history History.pagination History.total History.hasMore].
  set (sorted := sort _ _).
  rewrite slice_page by assumption.
  assert (Hlen : Z.of_nat (length (firstn (Z.to_nat limit)
                                     (skipn (Z.to_nat offset) sorted))) =
                 Z.min limit (Z.max 0 (Z.of_nat (length sorted) - offset))).
  { rewrite length_firstn, length_skipn. lia. }
  split; [exact Hlen|]. split; [|split].
  - intros Hm. apply Z.ltb_lt in Hm. lia.
  - intros Hm. apply Z.ltb_ge in Hm. lia.
  - intros Hpast. apply length_zero_iff_nil. lia.
Qed.

Lemma X15_page_size_witness :
  length
    (History.history
       (fst (History.getTaskHistory (Some "noop") (Api.page_options 4 10 None None)
               (Examples.saved_in_order 6)))) = 2.
Proof.
  destruct (X15_page_size (Some "noop") (Api.page_options 4 10 None None)
              (Examples.saved_in_order 6) ltac:(cbn; lia) ltac:(cbn; lia))
    as (H & _).
  apply Nat2Z.inj. rewrite H. reflexivity.
Defined.

(** X16. A negative [limit] is not refused: [slice] counts it from the
    end, so with [offset] 0 and [limit = -k] the query returns the sorted
    entries without the last [k], and it always reports [hasMore]. *)
Theorem X16_negative_limit taskType store k sortBy sortOrder :
  (0 < k)%Z ->
  let answer :=
    fst (History.getTaskHistory taskType
           (Api.page_options 0 (- k) sortBy sortOrder) store) in
  let sorted :=
    sort (History.comparefn (default History.startTimeKey sortBy)
            (default "desc" sortOrder))
      (History.filteredHistory taskType store) in
  History.history answer = firstn (length sorted - Z.to_nat k) sorted /\
  History.hasMore (History.pagination answer) = true.
Proof.
  intros Hk answer sorted. subst answer.
  unfold History.getTaskHistory, Api.page_options.
  cbn [fst History.history History.pagination History.hasMore History.limit
       History.offset History.sortBy History.sortOrder default from_option id].
  fold sorted. split.
  - unfold slice, slice_index.
    assert (E1 : (0 <? 0)%Z = false) by reflexivity.
    assert (E2 : (0 + - k <? 0)%Z = true) by (apply Z.ltb_lt; lia).
    rewrite E1, E2. rewrite Z.min_l by lia. cbn [Z.to_nat skipn].
    f_equal. lia.
  - apply Z.ltb_lt. lia.
Qed.

Lemma X16_negative_limit_witness :
  Examples.start_times
    (History.history
       (fst (History.getTaskHistory None (Api.page_options 0 (-1) None None)
               (Examples.saved_in_order 4)))) = [3%Z; 2%Z; 1%Z].
Proof.
  destruct (X16_negative_limit None (Examples.saved_in_order 4) 1 None None
              ltac:(lia)) as [H _].
  change (- (1))%Z with (-1)%Z in H. rewrite H. reflexivity.
Defined.

End HistoryMore.

(* ===================================================================== *)
(** ** The routes, the authentication and the error handler *)
(* ===================================================================== *)

Section RoutesMore.
Import Js.
Import Scheduler.

(** What [executeTask] leaves in the history: one more entry, telling the
    outcome, when [execute] settles, and nothing otherwise. *)
Lemma executeTask_records random_suffix taskDefinitions fuel taskType parameters s :
  let run := executeTask random_suffix taskDefinitions fuel taskType parameters s in
  match fst run with
  | Executor.Returned _ | Executor.Thrown _ =>
      exists entry,
        taskHistoryArray (snd run) =
          (skipn (length (taskHistoryArray s) + 1 - History.capacity)
             (taskHistoryArray s) ++ [entry])%list /\
        History.taskType (History.record entry) = taskType /\
        History.success (History.record entry) =
          match fst run with Executor.Returned _ => true | _ => false end
  | _ => taskHistoryArray (snd run) = taskHistoryArray s
  end.
Proof.
  assert (Hcap : 1 <= History.capacity) by (unfold History.capacity; lia).
  cbv zeta. unfold executeTask.
  destruct (Executor.execute _ _ _ _ _ _) as [[v|e| |] w];
    cbn [fst snd]; try reflexivity;
    unfold save; rewrite saveTaskHistory_spec;
    cbn [taskHistoryArray emit set_draws set_history set_world];
    rewrite skipn_app;
    replace (length (taskHistoryArray s) + 1 - History.capacity
             - length (taskHistoryArray s)) with 0 by lia;
    eexists; (split; [reflexivity|]); split; reflexivity.
Qed.

(** X17. The execute route tests [taskDefinitions[taskType]] before it
    does anything else.  For a type for which the registry has no
    property, of its own or inherited, it answers 404 and the scheduler is
    untouched: no history entry, no event, no handler call.  For every
    other type it never throws: it answers 200 when [executeTask] returns
    and 500 when it throws, and in both cases the history has one more
    entry, for that type, whose [success] flag tells which.  A type that
    is not registered but names a member of [Object.prototype], such as
    [toString], passes the test: the route answers 500, with the message
    of the [TypeError] of calling a handler that is not there. *)
Theorem X17_execute_route random_suffix taskDefinitions fuel taskType parameters s :
  let run :=
    Routes.executeRoute random_suffix taskDefinitions fuel taskType parameters s in
  (Executor.lookup_task taskDefinitions taskType = None ->
   ~ In taskType object_prototype_keys ->
   run = (Executor.Returned
            {| Routes.statusCode := 404;
               Routes.body :=
                 Routes.ErrorBody ("Task type '" ++ taskType ++ "' not found") |},
          s)) /\
  (is_Some (Executor.lookup_task taskDefinitions taskType) \/
   In taskType object_prototype_keys ->
   (forall e, fst run <> Executor.Thrown e) /\
   forall answer,
     fst run = Executor.Returned answer ->
     (Routes.statusCode answer = 200%Z \/ Routes.statusCode answer = 500%Z) /\
     exists entry,
       taskHistoryArray (snd run) =
         (skipn (length (taskHistoryArray s) + 1 - History.capacity)
            (taskHistoryArray s) ++ [entry])%list /\
       History.taskType (History.record entry) = taskType /\
       History.success (History.record entry) =
         (Routes.statusCode answer =? 200)%Z) /\
  (Executor.lookup_task taskDefinitions taskType = None ->
   In taskType object_prototype_keys ->
   fuel <> 0 ->
   fst run =
   Executor.Returned
     {| Routes.statusCode := 500;
        Routes.body :=
          Routes.ErrorBody
            "Failed to execute task: taskDefinition.handler is not a function" |}).
Proof.
  intros run. subst run. unfold Routes.executeRoute. split; [|split].
  - intros Hl Hp. rewrite (proj2 (has_task_false _ _) (get_task_none _ _ Hl Hp)).
    reflexivity.
  - intros Hk. apply has_task_known in Hk. rewrite Hk. cbn [negb].
    pose proof (executeTask_records random_suffix taskDefinitions fuel taskType
                  (default ∅ parameters) s) as Hrec.
    cbv zeta in Hrec.
    destruct (executeTask random_suffix taskDefinitions fuel taskType
                (default ∅ parameters) s) as [[env|e| |] s'];
      cbn [fst snd] in *; (split; [discriminate|]); intros answer Ha;
      try discriminate; injection Ha as <-; cbn [Routes.statusCode];
      destruct Hrec as (entry & H1 & H2 & H3); split; eauto.
  - intros Hl Hp Hfuel. destruct fuel as [|fuel]; [congruence|].
    assert (Hk : Executor.has_task taskDefinitions taskType = true)
      by (apply has_task_known; now right).
    rewrite Hk. cbn [negb]. unfold executeTask.
    rewrite (execute_inherited taskDefinitions fuel taskType _ _ _
               (get_task_inherited _ _ Hl Hp)).
    reflexivity.
Qed.

Lemma X17_execute_route_witness :
  Routes.executeRoute Examples.fixed_suffix Examples.hanging_registry 1
    "missing-type" None state0 =
  (Executor.Returned
     {| Routes.statusCode := 404;
        Routes.body := Routes.ErrorBody "Task type 'missing-type' not found" |},
   state0) /\
  fst (Routes.executeRoute Examples.fixed_suffix Examples.hanging_registry 1
         "toString" None state0) =
  Executor.Returned
    {| Routes.statusCode := 500;
       Routes.body :=
         Routes.ErrorBody
           "Failed to execute task: taskDefinition.handler is not a function" |}.
Proof.
  split.
  - apply (X17_execute_route Examples.fixed_suffix Examples.hanging_registry 1
             "missing-type" None state0); [reflexivity|].
    cbn. intuition discriminate.
  - apply (X17_execute_route Examples.fixed_suffix Examples.hanging_registry 1
             "toString" None state0); [reflexivity| |discriminate].
    cbn. tauto.
Defined.

#[local] Set Warnings "-clear-no-such-hyp".

(** X18. The schedule route changes the schedule only when it answers
    200, which it does exactly when the registry has a property for the
    task type, of its own or inherited from [Object.prototype], and both
    validators accept the expression, cron-parser in the route and
    [cron.validate] in [scheduleTask]; the type then has the new job as
    its only running job.  It answers 404 for a type without a property,
    400 when cron-parser refuses the expression, and 500 when cron-parser
    accepts what [cron.validate] refuses. *)
Theorem X18_schedule_route cron_validate taskDefinitions cron_parse
    taskType cronExpression s :
  let run :=
    Routes.scheduleRoute cron_validate taskDefinitions cron_parse
      taskType cronExpression s in
  let known :=
    is_Some (Executor.lookup_task taskDefinitions taskType) \/
    In taskType object_prototype_keys in
  let parsed :=
    exists next, cron_parse cronExpression (Executor.clock (world s)) = inr next in
  (Routes.statusCode (fst run) = 200%Z <->
   known /\ parsed /\ cron_validate cronExpression = true) /\
  (Routes.statusCode (fst run) = 404%Z <-> ~ known) /\
  (Routes.statusCode (fst run) = 400%Z <-> known /\ ~ parsed) /\
  (Routes.statusCode (fst run) = 500%Z <->
   known /\ parsed /\ cron_validate cronExpression = false) /\
  (Routes.statusCode (fst run) <> 200%Z -> snd run = s) /\
  (Routes.statusCode (fst run) = 200%Z -> consistent s ->
   live taskType (snd run) = [Api.job_of taskType cronExpression]).
Proof.
  intros run known parsed. subst run known parsed.
  unfold Routes.scheduleRoute.
  destruct (Executor.has_task taskDefinitions taskType) eqn:El; cbn [negb].
  - pose proof (proj1 (has_task_known _ _) El) as Hk.
    destruct (cron_parse cronExpression (Executor.clock (world s)))
      as [reason|next] eqn:Ep.
    + cbn [fst snd Routes.statusCode].
      split; [|split; [|split; [|split; [|split]]]]; try naive_solver.
    + destruct (cron_validate cronExpression) eqn:Ev.
      * pose proof (scheduleTask_live_new cron_validate taskDefinitions taskType
                      cronExpression s) as Hlive.
        rewrite (scheduleTask_valid cron_validate taskDefinitions taskType
                   cronExpression s El Ev) in *.
        cbn [fst snd Routes.statusCode] in *.
        split; [|split; [|split; [|split; [|split]]]]; try naive_solver.
      * rewrite (scheduleTask_invalid cron_validate taskDefinitions taskType
                   cronExpression s El Ev).
        cbn [fst snd Routes.statusCode].
        split; [|split; [|split; [|split; [|split]]]]; try naive_solver.
  - assert (Hn : ~ (is_Some (Executor.lookup_task taskDefinitions taskType) \/
                    In taskType object_prototype_keys))
      by (intros Hk; apply has_task_known in Hk; congruence).
    cbn [fst snd Routes.statusCode].
    split; [|split; [|split; [|split; [|split]]]]; try naive_solver.
Qed.

Lemma X18_schedule_route_witness :
  live "daily"
    (snd (Routes.scheduleRoute Examples.five_fields Examples.cron_registry
            (fun _ now => inr (now + 60000)%Z) "daily" "*/5 * * * *" state0))
  = [Api.job_of "daily" "*/5 * * * *"] /\
  Routes.statusCode
    (fst (Routes.scheduleRoute Examples.five_fields Examples.cron_registry
            (fun _ now => inr (now + 60000)%Z) "constructor" "*/5 * * * *" state0))
  = 200%Z.
Proof.
  split.
  - destruct (X18_schedule_route Examples.five_fields Examples.cron_registry
                (fun _ now => inr (now + 60000)%Z) "daily" "*/5 * * * *" state0)
      as (_ & _ & _ & _ & _ & H).
    apply H; [reflexivity|apply state0_consistent].
  - destruct (X18_schedule_route Examples.five_fields Examples.cron_registry
                (fun _ now => inr (now + 60000)%Z) "constructor" "*/5 * * * *" state0)
      as (H & _).
    apply H. split; [right; cbn; tauto|].
    split; [eexists; reflexivity|reflexivity].
Defined.

End RoutesMore.

Section LookupRoutes.
Import Js.
Import Scheduler.

(** X19. The route for one execution finds what is stored: on a store
    within its capacity it answers 200, with a stored entry of that
    execution id, exactly when some stored entry has that id, and 404
    otherwise.  Its read has no task type, so it leaves the store with the
    same entries but sorted. *)
Theorem X19_execution_route executionId s :
  length (taskHistoryArray s) <= History.capacity ->
  let run := Routes.executionRoute executionId s in
  let has entry :=
    History.executionId (History.record entry) = executionId in
  ((exists entry, In entry (taskHistoryArray s) /\ has entry) ->
   exists entry,
     fst run = {| Routes.statusCode := 200; Routes.body := Routes.EntryBody entry |} /\
     In entry (taskHistoryArray s) /\ has entry) /\
  ((forall entry, In entry (taskHistoryArray s) -> ~ has entry) ->
   fst run =
   {| Routes.statusCode := 404;
      Routes.body :=
        Routes.ErrorBody ("Execution with ID '" ++ executionId ++ "' not found") |}) /\
  Permutation (taskHistoryArray (snd run)) (taskHistoryArray s).
Proof.
  intros Hcap run has.
  set (sorted := sort (History.comparefn History.startTimeKey "desc")
                   (taskHistoryArray s)).
  assert (Hperm : Permutation sorted (taskHistoryArray s)) by apply sort_perm.
  assert (Hpage : History.history
                    (fst (History.getTaskHistory None (Routes.only_limit 1000)
                            (taskHistoryArray s))) = sorted).
  { unfold History.getTaskHistory, Routes.only_limit.
    cbn [fst History.history History.limit History.offset History.sortBy
         History.sortOrder default from_option id History.filteredHistory].
    fold sorted. rewrite slice_page by lia. cbn [Z.to_nat skipn].
    apply firstn_all2. rewrite (Permutation_length Hperm).
    unfold History.capacity in Hcap. lia. }
  assert (Hstore : snd (History.getTaskHistory None (Routes.only_limit 1000)
                          (taskHistoryArray s)) = sorted) by reflexivity.
  subst run. unfold Routes.executionRoute, Api.getHistory.
  destruct (History.getTaskHistory None (Routes.only_limit 1000) (taskHistoryArray s))
    as [answer h] eqn:E.
  cbn [fst snd] in Hpage, Hstore. subst h. rewrite Hpage.
  destruct (find _ sorted) as [found|] eqn:Ef; cbn [fst snd].
  - apply find_some in Ef as [Hin Hid]. apply String.eqb_eq in Hid.
    split; [|split].
    + intros _. exists found. split; [reflexivity|]. split; [|exact Hid].
      now apply (Permutation_in _ Hperm).
    + intros Hnone. exfalso. apply (Hnone found); [|exact Hid].
      now apply (Permutation_in _ Hperm).
    + exact Hperm.
  - pose proof (find_none _ _ Ef) as Hnone.
    split; [|split].
    + intros (entry & Hin & Hid). exfalso.
      apply (Permutation_in _ (Permutation_sym Hperm)) in Hin.
      specialize (Hnone entry Hin). cbv beta in Hnone.
      apply String.eqb_neq in Hnone. now apply Hnone.
    + reflexivity.
    + exact Hperm.
Qed.

Lemma X19_execution_route_witness :
  exists entry,
    fst (Routes.executionRoute "exec-2"
           (set_history (Examples.saved_in_order 4) state0)) =
    {| Routes.statusCode := 200; Routes.body := Routes.EntryBody entry |} /\
    History.startTime (History.record entry) = 2%Z.
Proof.
  destruct (X19_execution_route "exec-2"
              (set_history (Examples.saved_in_order 4) state0)) as (H & _ & _).
  { apply Nat.leb_le. reflexivity. }
  destruct H as (entry & Hrun & Hin & Hid).
  { exists (Api.entry_of (2%Z, "k3j9x2a", Examples.record_at 2)).
    split; [|reflexivity]. right. right. left. reflexivity. }
  exists entry. split; [exact Hrun|].
  cbn in Hin. destruct Hin as [<- | [<- | [<- | [<- | []]]]];
    try discriminate Hid; reflexivity.
Defined.

Lemma ordered_desc_trans sortBy :
  Relations_1.Transitive (History.ordered sortBy "desc").
Proof.
  intros x y z. unfold History.ordered.
  change (History.descending "desc") with true. cbv iota. lia.
Qed.

(** X20. The status route reports the most recent execution: for a
    registered task type (not the empty string) [lastExecution] is null
    exactly when the history has no entry of that type, and otherwise it
    is taken from an entry of that type whose [startTime] no other entry
    of the type exceeds.  The store is left as it was. *)
Theorem X20_status_route taskDefinitions cron_parse taskType s :
  is_Some (Executor.lookup_task taskDefinitions taskType) ->
  taskType <> "" ->
  let run := Routes.statusRoute taskDefinitions cron_parse taskType s in
  let of_type entry := History.taskType (History.record entry) = taskType in
  snd run = s /\
  Routes.statusCode (fst run) = 200%Z /\
  exists cronSchedule lastExecution nextExecution,
    Routes.body (fst run) =
      Routes.StatusBody taskType cronSchedule lastExecution nextExecution /\
    match lastExecution with
    | None => forall entry, In entry (taskHistoryArray s) -> ~ of_type entry
    | Some last =>
        exists entry,
          In entry (taskHistoryArray s) /\ of_type entry /\
          Routes.lastExecutionId last = History.executionId (History.record entry) /\
          Routes.lastStartTime last = History.startTime (History.record entry) /\
          Routes.lastSuccess last = History.success (History.record entry) /\
          forall other,
            In other (taskHistoryArray s) -> of_type other ->
            (History.startTime (History.record other) <= Routes.lastStartTime last)%Z
    end.
Proof.
  intros [d Hl] Hne run of_type. subst run.
  unfold Routes.statusRoute.
  rewrite (has_task_own _ _ (ex_intro _ d Hl)), (get_task_own _ _ _ Hl).
  cbn [negb Executor.property_cronSchedule]. unfold Api.getHistory.
  set (matching := History.filteredHistory (Some taskType) (taskHistoryArray s)).
  set (sorted := sort (History.comparefn History.startTimeKey "desc") matching).
  assert (Hperm : Permutation sorted matching) by apply sort_perm.
  assert (Hsorted : Sorted (History.ordered History.startTimeKey "desc") sorted).
  { apply sort_sorted; [apply comparefn_before | apply comparefn_after]. }
  assert (Hmatch : forall e, In e matching <-> In e (taskHistoryArray s) /\ of_type e).
  { intros e. subst matching. unfold History.filteredHistory.
    apply String.eqb_neq in Hne. rewrite Hne.
    rewrite filter_In, String.eqb_eq. reflexivity. }
  assert (Hrun : History.getTaskHistory (Some taskType) (Routes.only_limit 1)
                   (taskHistoryArray s) =
                 ({| History.history := firstn 1 sorted;
                     History.pagination :=
                       {| History.total := Z.of_nat (length sorted);
                          History.pageLimit := 1; History.pageOffset := 0;
                          History.hasMore := (0 + 1 <? Z.of_nat (length sorted))%Z |} |},
                  taskHistoryArray s)).
  { unfold History.getTaskHistory, Routes.only_limit.
    cbn [History.limit History.offset History.sortBy History.sortOrder
         default from_option id truthy_string].
    fold matching. fold sorted. rewrite slice_page by lia.
    apply String.eqb_neq in Hne. rewrite Hne. reflexivity. }
  rewrite Hrun. cbn [fst snd Routes.statusCode Routes.body History.history].
  split; [now destruct s|]. split; [reflexivity|].
  do 3 eexists. split; [reflexivity|].
  destruct sorted as [|top rest] eqn:Es; cbn [firstn].
  - intros entry Hin Hty.
    assert (Hm : In entry matching) by (apply Hmatch; auto).
    apply (Permutation_in _ (Permutation_sym Hperm)) in Hm. destruct Hm.
  - assert (Htop : In top matching)
      by (apply (Permutation_in _ Hperm); now left).
    apply Hmatch in Htop as [Hin Hty].
    exists top. cbn [Routes.lastExecutionId Routes.lastStartTime Routes.lastSuccess].
    repeat split; try assumption.
    intros other Ho Hoty.
    assert (Hm : In other matching) by (apply Hmatch; auto).
    apply (Permutation_in _ (Permutation_sym Hperm)) in Hm.
    destruct Hm as [<- | Hrest]; [lia|].
    apply Sorted_StronglySorted in Hsorted; [|apply ordered_desc_trans].
    apply StronglySorted_inv in Hsorted as [_ Hall].
    rewrite List.Forall_forall in Hall. pose proof (Hall other Hrest) as Hord.
    unfold History.ordered in Hord.
    change (History.descending "desc") with true in Hord. exact Hord.
Qed.

Lemma X20_status_route_witness :
  exists cronSchedule last nextExecution,
    Routes.body
      (fst (Routes.statusRoute
              [("noop", Examples.task Examples.always_resolves None None None)]
              (fun _ now => inr (now + 60000)%Z) "noop"
              (set_history (Examples.saved_in_order 3) state0))) =
    Routes.StatusBody "noop" cronSchedule (Some last) nextExecution /\
    Routes.lastStartTime last = 2%Z.
Proof.
  destruct (X20_status_route
              [("noop", Examples.task Examples.always_resolves None None None)]
              (fun _ now => inr (now + 60000)%Z) "noop"
              (set_history (Examples.saved_in_order 3) state0)
              (ex_intro _ _ eq_refl))
    as (_ & _ & c & l & n & Hbody & _); [discriminate|].
  exists None, {| Routes.lastExecutionId := "exec-2"; Routes.lastStartTime := 2;
                  Routes.lastEndTime := 2; Routes.lastSuccess := true;
                  Routes.lastDuration := 0 |}, None.
  split; reflexivity.
Defined.

End LookupRoutes.

Section AuthAndErrors.
Import Js.

Lemma prefix_drop p s :
  String.prefix p s = true -> s = p ++ Auth.string_drop (String.length p) s.
Proof.
  revert s. induction p as [|c p IH]; intros s H; [reflexivity|].
  destruct s as [|c' s]; [discriminate|]. cbn in H.
  destruct (Ascii.ascii_dec c c') as [->|]; [|discriminate].
  change (String c' s = String c' (p ++ Auth.string_drop (String.length p) s)).
  f_equal. now apply IH.
Qed.

Lemma drop_append p s : Auth.string_drop (String.length p) (p ++ s) = s.
Proof.
  induction p as [|c p IH]; [reflexivity|].
  change (Auth.string_drop (String.length p) (p ++ s) = s). exact IH.
Qed.

Lemma prefix_append p s : String.prefix p (p ++ s) = true.
Proof.
  induction p as [|c p IH]; [now destruct s|].
  change (String.prefix (String c p) (String c (p ++ s)) = true).
  cbn [String.prefix]. destruct (Ascii.ascii_dec c c); [exact IH|congruence].
Qed.

(** X21. The middleware lets a request through only on a header of the
    form [Bearer <token>], and then only when the token is the API key,
    which makes the request the system user's, or a token [jwt.verify]
    accepts, which makes it the decoded user's.  The header [Bearer
    <apiKey>] always gets through as the system user, without the JWT
    check being consulted.  Every refusal is a 401. *)
Theorem X21_auth_middleware apiKey secret jwt_verify :
  Auth.authMiddleware apiKey secret jwt_verify (Some ("Bearer " ++ apiKey)) =
    Auth.Authenticated Auth.system_user /\
  (forall authorization user,
     Auth.authMiddleware apiKey secret jwt_verify authorization =
       Auth.Authenticated user ->
     exists token,
       authorization = Some ("Bearer " ++ token) /\
       ((token = apiKey /\ user = Auth.system_user) \/
        (token <> apiKey /\ jwt_verify token secret = Some user))) /\
  (forall authorization statusCode reason,
     Auth.authMiddleware apiKey secret jwt_verify authorization =
       Auth.Refused statusCode reason ->
     statusCode = 401%Z).
Proof.
  split; [|split].
  - unfold Auth.authMiddleware. cbn [truthy_string negb default from_option id].
    change (String.eqb ("Bearer " ++ apiKey) "") with false. cbn [negb].
    rewrite (prefix_append "Bearer " apiKey).
    change 7 with (String.length "Bearer ").
    rewrite (drop_append "Bearer " apiKey), String.eqb_refl. reflexivity.
  - intros authorization user. unfold Auth.authMiddleware.
    destruct (truthy_string authorization) eqn:Et; cbn [negb]; [|discriminate].
    destruct authorization as [h|]; [|discriminate].
    cbn [default from_option id].
    destruct (String.prefix "Bearer " h) eqn:Ep; [|discriminate].
    apply prefix_drop in Ep. change (String.length "Bearer ") with 7 in Ep.
    intros H. exists (Auth.string_drop 7 h). split; [now f_equal|].
    destruct (String.eqb (Auth.string_drop 7 h) apiKey) eqn:Ek.
    + apply String.eqb_eq in Ek. left. split; [assumption|congruence].
    + apply String.eqb_neq in Ek. right. split; [assumption|].
      destruct (jwt_verify _ secret); [congruence|discriminate].
  - intros authorization statusCode reason. unfold Auth.authMiddleware.
    destruct (negb (truthy_string authorization)); [congruence|].
    destruct (String.prefix _ _); [|congruence].
    destruct (String.eqb _ apiKey); [discriminate|].
    destruct (jwt_verify _ secret); [discriminate|congruence].
Qed.

Lemma X21_auth_middleware_witness :
  Auth.authMiddleware "development-api-key" "development-secret" (fun _ _ => None)
    (Some "Basic ZGV2OmRldg==") =
  Auth.Refused 401 "Invalid authorization header format".
Proof.
  destruct (X21_auth_middleware "development-api-key" "development-secret"
              (fun _ _ => None)) as (_ & _ & H).
  specialize (H (Some "Basic ZGV2OmRldg==") 401%Z
                "Invalid authorization header format" eq_refl).
  reflexivity.
Defined.

(** X22. The error handler always answers with a status that is not 0:
    400, 401, 403, 404, the error's own status code, or 500 when the error
    has none.  A validation error is answered 400 with its list of
    violations whatever its status code and message say; and outside
    those four classes the reply carries the error's own message, or
    "Internal server error" when that is empty. *)
Theorem X22_error_handler error :
  let answer := ErrorHandler.errorHandler error in
  ErrorHandler.replyStatus answer <> 0%Z /\
  (In (ErrorHandler.replyStatus answer) [400%Z; 401%Z; 403%Z; 404%Z; 500%Z] \/
   ErrorHandler.errStatusCode error = Some (ErrorHandler.replyStatus answer)) /\
  (forall violations,
     ErrorHandler.validation error = Some violations ->
     ErrorHandler.replyStatus answer = 400%Z /\
     ErrorHandler.replyErrors answer = Some violations) /\
  (~ In (ErrorHandler.replyStatus answer) [400%Z; 401%Z; 403%Z; 404%Z] ->
   ErrorHandler.replyMessage answer =
   if String.eqb (ErrorHandler.errMessage error) ""
   then "Internal server error" else ErrorHandler.errMessage error).
Proof.
  intros answer. subst answer. unfold ErrorHandler.errorHandler.
  assert (Hfixed : forall (r : ErrorHandler.ErrorReply) (c : Z),
            ErrorHandler.replyStatus r = c ->
            In c [400%Z; 401%Z; 403%Z; 404%Z] ->
            ErrorHandler.replyStatus r <> 0%Z /\
            (In (ErrorHandler.replyStatus r) [400%Z; 401%Z; 403%Z; 404%Z; 500%Z] \/
             ErrorHandler.errStatusCode error = Some (ErrorHandler.replyStatus r)) /\
            (~ In (ErrorHandler.replyStatus r) [400%Z; 401%Z; 403%Z; 404%Z] ->
             ErrorHandler.replyMessage r =
             if String.eqb (ErrorHandler.errMessage error) ""
             then "Internal server error" else ErrorHandler.errMessage error)).
  { intros r c -> Hc. split; [|split].
    - cbn in Hc. intros ->. intuition discriminate.
    - left. cbn in *. tauto.
    - intros Hn. now destruct Hn. }
  destruct (ErrorHandler.validation error) as [violations|] eqn:Ev.
  - cbn [orb].
    match goal with |- context [ErrorHandler.replyStatus ?r] =>
      destruct (Hfixed r _ eq_refl) as (H1 & H2 & H4); [cbn; tauto|] end.
    split; [exact H1|]. split; [exact H2|]. split; [|exact H4].
    intros v Hv. injection Hv as <-. split; reflexivity.
  - cbn [orb].
    destruct (truthy_string (ErrorHandler.validationContext error)).
    { match goal with |- context [ErrorHandler.replyStatus ?r] =>
        destruct (Hfixed r _ eq_refl) as (H1 & H2 & H4); [cbn; tauto|] end.
      split; [exact H1|]. split; [exact H2|]. split; [discriminate|exact H4]. }
    destruct (_ || includes (ErrorHandler.errMessage error) "unauthorized")%bool.
    { match goal with |- context [ErrorHandler.replyStatus ?r] =>
        destruct (Hfixed r _ eq_refl) as (H1 & H2 & H4); [cbn; tauto|] end.
      split; [exact H1|]. split; [exact H2|]. split; [discriminate|exact H4]. }
    destruct (_ || includes (ErrorHandler.errMessage error) "forbidden")%bool.
    { match goal with |- context [ErrorHandler.replyStatus ?r] =>
        destruct (Hfixed r _ eq_refl) as (H1 & H2 & H4); [cbn; tauto|] end.
      split; [exact H1|]. split; [exact H2|]. split; [discriminate|exact H4]. }
    destruct (_ || includes (ErrorHandler.errMessage error) "not found")%bool.
    { match goal with |- context [ErrorHandler.replyStatus ?r] =>
        destruct (Hfixed r _ eq_refl) as (H1 & H2 & H4); [cbn; tauto|] end.
      split; [exact H1|]. split; [exact H2|]. split; [discriminate|exact H4]. }
    cbn [ErrorHandler.replyStatus ErrorHandler.replyMessage ErrorHandler.replyErrors].
    unfold or_default.
    destruct (ErrorHandler.errStatusCode error) as [c|].
    + destruct (c =? 0)%Z eqn:Ec.
      * split; [discriminate|]. split; [left; cbn; tauto|].
        split; [discriminate|reflexivity].
      * apply Z.eqb_neq in Ec. split; [assumption|]. split; [now right|].
        split; [discriminate|reflexivity].
    + split; [discriminate|]. split; [left; cbn; tauto|].
      split; [discriminate|reflexivity].
Qed.

Lemma X22_error_handler_witness :
  ErrorHandler.replyStatus
    (ErrorHandler.errorHandler
       {| ErrorHandler.errMessage := "body must have required property";
          ErrorHandler.errStatusCode := Some 500%Z;
          ErrorHandler.errCode := None;
          ErrorHandler.validation := Some ["cronExpression"];
          ErrorHandler.validationContext := Some "body" |}) = 400%Z.
Proof.
  destruct (X22_error_handler
              {| ErrorHandler.errMessage := "body must have required property";
                 ErrorHandler.errStatusCode := Some 500%Z;
                 ErrorHandler.errCode := None;
                 ErrorHandler.validation := Some ["cronExpression"];
                 ErrorHandler.validationContext := Some "body" |})
    as (_ & _ & H & _).
  exact (proj1 (H ["cronExpression"] eq_refl)).
Defined.

End AuthAndErrors.

Section EndToEnd.
Import Js.
Import Scheduler.

(** X23. What [executeTask] records can be read back: when the history
    has no entry of a task type (not the empty string) and a call of
    [executeTask] for that type returns or throws, a following
    [getHistory] for the type finds exactly one entry, whose [success]
    flag tells whether the call returned, and reports a total of 1 and no
    further page. *)
Theorem X23_execute_then_query random_suffix taskDefinitions fuel taskType
    parameters s :
  taskType <> "" ->
  (forall entry, In entry (taskHistoryArray s) ->
                 History.taskType (History.record entry) <> taskType) ->
  let run := executeTask random_suffix taskDefinitions fuel taskType parameters s in
  (exists v, fst run = Executor.Returned v) \/ (exists e, fst run = Executor.Thrown e) ->
  let answer := fst (Api.getHistory (Some taskType) Examples.no_options (snd run)) in
  (exists entry,
     History.history answer = [entry] /\
     History.taskType (History.record entry) = taskType /\
     History.success (History.record entry) =
       match fst run with Executor.Returned _ => true | _ => false end) /\
  History.total (History.pagination answer) = 1%Z /\
  History.hasMore (History.pagination answer) = false.
Proof.
  intros Hne Hfresh run Hsettled answer.
  pose proof (executeTask_records random_suffix taskDefinitions fuel taskType
                parameters s) as Hrec.
  cbv zeta in Hrec. fold run in Hrec.
  assert (Hentry : exists entry,
             taskHistoryArray (snd run) =
               (skipn (length (taskHistoryArray s) + 1 - History.capacity)
                  (taskHistoryArray s) ++ [entry])%list /\
             History.taskType (History.record entry) = taskType /\
             History.success (History.record entry) =
               match fst run with Executor.Returned _ => true | _ => false end).
  { destruct Hsettled as [[v Hv] | [e He]].
    - rewrite Hv in Hrec. rewrite Hv. exact Hrec.
    - rewrite He in Hrec. rewrite He. exact Hrec. }
  destruct Hentry as (entry & Hstore & Hty & Hsucc).
  assert (Hmatch : History.filteredHistory (Some taskType)
                     (taskHistoryArray (snd run)) = [entry]).
  { unfold History.filteredHistory. apply String.eqb_neq in Hne as Hne'.
    rewrite Hne', Hstore, List.filter_app, filter_none.
    - cbn. rewrite Hty, String.eqb_refl. reflexivity.
    - intros x Hx. apply String.eqb_neq, Hfresh.
      assert (Hin : In x (firstn (length (taskHistoryArray s) + 1 - History.capacity)
                            (taskHistoryArray s) ++
                          skipn (length (taskHistoryArray s) + 1 - History.capacity)
                            (taskHistoryArray s)))
        by (apply in_or_app; now right).
      now rewrite firstn_skipn in Hin. }
  subst answer. unfold Api.getHistory.
  destruct (History.getTaskHistory (Some taskType) Examples.no_options
              (taskHistoryArray (snd run))) as [answer h] eqn:E.
  assert (Ha : answer = fst (History.getTaskHistory (Some taskType)
                               Examples.no_options (taskHistoryArray (snd run))))
    by now rewrite E.
  cbn [fst]. rewrite Ha. unfold History.getTaskHistory.
  cbn [fst History.history History.pagination History.total History.hasMore].
  rewrite Hmatch. cbn.
  split; [|split; reflexivity].
  exists entry. split; [reflexivity|]. split; assumption.
Qed.

Lemma X23_execute_then_query_witness :
  History.total
    (History.pagination
       (fst (Api.getHistory (Some "quick") Examples.no_options
               (snd (executeTask Examples.fixed_suffix Examples.hanging_registry 1
                       "quick" ∅ state0))))) = 1%Z.
Proof.
  destruct (X23_execute_then_query Examples.fixed_suffix Examples.hanging_registry 1
              "quick" ∅ state0) as (_ & H & _).
  - discriminate.
  - intros entry [].
  - left. eexists. reflexivity.
  - exact H.
Defined.

End EndToEnd.

Section ShippedTasks.
Import Js Executor.

(** X24. The three tasks of [loadTasks] list "timeout" (or nothing of the
    kind) among their retryable errors, but the error of the engine's own
    deadline reads "timed out": for each of them, a handler that has not
    settled within the task's [timeoutMs] makes [execute] fail with the
    timeout error at the first attempt, after 300000, 600000 and 1800000
    ms, without any retry. *)
Theorem X24_shipped_timeouts_not_retried
    subscriptionRunner emailDigestProcessor cleanupTasks
    subscriptionSchema digestSchema cleanupSchema
    fuel taskType def params id w :
  let reg :=
    Tasks.loadTasks subscriptionRunner emailDigestProcessor cleanupTasks
      subscriptionSchema digestSchema cleanupSchema in
  In (taskType, def) reg ->
  validateParameters def params = None ->
  (handler def (params ∪ defaultParameters def) id (invocations w) = None \/
   exists t hs,
     handler def (params ∪ defaultParameters def) id (invocations w) = Some (t, hs) /\
     (deadline def < t)%Z) ->
  In (taskType, deadline def)
     [("run-subscriptions", 300000%Z); ("email-digest", 600000%Z);
      ("cleanup", 1800000%Z)] /\
  execute reg (S fuel) taskType params id w =
  (Thrown (ExecutionTimeout taskType (deadline def)),
   wait (deadline def)
     (invoked (record_event
                 (Invoke taskType id (params ∪ defaultParameters def)) w))).
Proof.
  intros reg Hin Hv Hlate.
  assert (Hfires : setTimeout_delay (deadline def) = deadline def).
  { destruct Hin as [Heq | [Heq | [Heq | []]]]; injection Heq as <- <-; reflexivity. }
  pose proof (attempt_times_out taskType def params id w Hv) as Ha.
  cbv zeta in Ha. rewrite Hfires in Ha.
  assert (Hlate' :
    handler def (params ∪ defaultParameters def) id (invocations w) = None \/
    exists t hs,
      handler def (params ∪ defaultParameters def) id (invocations w) = Some (t, hs) /\
      (deadline def <= t)%Z).
  { destruct Hlate as [H | (t & hs & H & Ht)]; [now left|].
    right. exists t, hs. split; [exact H|lia]. }
  specialize (Ha Hlate'). clear Hfires Hlate Hlate'.
  destruct Hin as [Heq | [Heq | [Heq | []]]]; injection Heq as <- <-.
  - split; [cbn; tauto|].
    eapply execute_thrown_no_retry; [reflexivity|exact Ha|]. vm_compute. reflexivity.
  - split; [cbn; tauto|].
    eapply execute_thrown_no_retry; [reflexivity|exact Ha|]. vm_compute. reflexivity.
  - split; [cbn; tauto|].
    eapply execute_thrown_no_retry; [reflexivity|exact Ha|]. vm_compute. reflexivity.
Qed.

Lemma X24_shipped_timeouts_not_retried_witness :
  fst (execute
         (Tasks.loadTasks Examples.never_settles Examples.never_settles
            Examples.never_settles (fun _ => None) (fun _ => None) (fun _ => None))
         1 "email-digest" ∅ "exec-1" world0) =
  Thrown (Error "Task email-digest timed out after 600000ms").
Proof.
  destruct (X24_shipped_timeouts_not_retried
              Examples.never_settles Examples.never_settles Examples.never_settles
              (fun _ => None) (fun _ => None) (fun _ => None)
              0 "email-digest"
              {| description := "Generate and send email digests for user notifications";
                 handler := Examples.never_settles;
                 cronSchedule := Some "0 6 * * *";
                 parametersSchema := Some (ZodType (fun _ => None));
                 defaultParameters :=
                   <["timezone" := VStr "UTC"]> (<["batchSize" := VNum 50]> ∅);
                 timeoutMs := Some 600000%Z;
                 retryPolicy :=
                   Some {| maxRetries := Some 3%Z;
                           baseDelayMs := Some 5000%Z;
                           maxDelayMs := Some 60000%Z;
                           retryableErrors :=
                             Some [PString "timeout"; PString "connection";
                                   Tasks.regexp_i "email service"] |} |}
              ∅ "exec-1" world0) as [_ H].
  - right. left. reflexivity.
  - reflexivity.
  - left. reflexivity.
  - rewrite H. reflexivity.
Defined.

End ShippedTasks.
